(** * Meshtastic device core: reliable delivery and node database

    A shallow embedding of [src/mesh/ReliableRouter.cpp],
    [src/plugins/RoutingPlugin.cpp] and [src/mesh/NodeDB.cpp], with the
    properties of the design document proved (or refuted) against it.

    Conventions.  Unsigned 32-bit quantities ([NodeNum], [PacketId],
    [millis()]) are integers in [Z] with the wrap-around written out
    ([u32]); [int32_t] values are obtained with [to_int32].  The pending
    table ([std::unordered_map]) is a [gmap]; its iteration order is the one
    of [map_to_list], about which nothing is assumed.  Calls into
    collaborators that are not part of these three files (the flooding
    router, the packet pool, the plugin base class, the channels, the
    screen, the filesystem) are recorded in a trace, and what they return is
    given by an oracle.  Debug output ([DEBUG_MSG], [printPacket]) is left
    out.

    The file has two parts: the embedding (modules [ReliableRouter] and
    [NodeDB]), then the properties (modules [ReliableRouterFacts] and
    [NodeDBFacts]). *)

From Stdlib Require Import ZArith Lia Bool.
From stdpp Require Import gmap strings list fin_maps.

Local Open Scope Z_scope.

(** ** Machine integers *)

Definition u32 (x : Z) : Z := x mod 2 ^ 32.
Definition u8 (x : Z) : Z := x mod 2 ^ 8.

(** Conversion of a 32-bit pattern to [int32_t] (two's complement). *)
Definition to_int32 (x : Z) : Z :=
  let y := u32 x in if y <? 2 ^ 31 then y else y - 2 ^ 32.

Definition INT32_MAX : Z := 2 ^ 31 - 1.

(** Modelled from the spec: [NODENUM_BROADCAST] is defined in MeshTypes.h,
    which is not among the sources; the design document gives it as the
    all-ones 32-bit value. *)
Definition NODENUM_BROADCAST : Z := 2 ^ 32 - 1.

Abbreviation NodeNum := Z (only parsing).
Abbreviation PacketId := Z (only parsing).

(** * The reliable delivery layer *)

Module ReliableRouter.

(** ** Packets *)

(** The enumerations come from generated headers that are not among the
    sources; the enumerators that the code names are kept, [_other] stands
    for the remaining ones. *)
Inductive Routing_Error :=
| Routing_Error_NONE
| Routing_Error_MAX_RETRANSMIT
| Routing_Error_other (code : Z).

Record Routing := { error_reason : Routing_Error }.

Definition Routing_init_default : Routing :=
  {| error_reason := Routing_Error_NONE |}.

Definition set_error_reason (e : Routing_Error) (c : Routing) : Routing :=
  {| error_reason := e |}.

Inductive Priority :=
| MeshPacket_Priority_UNSET
| MeshPacket_Priority_ACK
| MeshPacket_Priority_other (level : Z).

(** The payload of a decoded packet: either the bytes of an application
    message or a [Routing] control record (what [allocDataProtobuf] encodes
    into the packet). *)
Inductive Payload :=
| PayloadBytes (bytes : list Z)
| PayloadRouting (c : Routing).

Record MeshPacket := {
  from : NodeNum;
  to : NodeNum;
  id : PacketId;
  hop_limit : Z;
  want_ack : bool;
  priority : Priority;
  request_id : PacketId;     (* decoded.request_id *)
  payload : Payload          (* decoded.payload *)
}.

Definition set_hop_limit (h : Z) (p : MeshPacket) : MeshPacket :=
  {| from := from p; to := to p; id := id p; hop_limit := h;
     want_ack := want_ack p; priority := priority p;
     request_id := request_id p; payload := payload p |}.

Definition set_priority (x : Priority) (p : MeshPacket) : MeshPacket :=
  {| from := from p; to := to p; id := id p; hop_limit := hop_limit p;
     want_ack := want_ack p; priority := x;
     request_id := request_id p; payload := payload p |}.

Definition set_to (n : NodeNum) (p : MeshPacket) : MeshPacket :=
  {| from := from p; to := n; id := id p; hop_limit := hop_limit p;
     want_ack := want_ack p; priority := priority p;
     request_id := request_id p; payload := payload p |}.

Definition set_request_id (i : PacketId) (p : MeshPacket) : MeshPacket :=
  {| from := from p; to := to p; id := id p; hop_limit := hop_limit p;
     want_ack := want_ack p; priority := priority p;
     request_id := i; payload := payload p |}.

Definition set_payload (x : Payload) (p : MeshPacket) : MeshPacket :=
  {| from := from p; to := to p; id := id p; hop_limit := hop_limit p;
     want_ack := want_ack p; priority := priority p;
     request_id := request_id p; payload := x |}.

(** ** Pending records *)

Abbreviation GlobalPacketId := (Z * Z)%type (only parsing).

Definition NUM_RETRANSMISSIONS : Z := 3.

Record PendingPacket := {
  packet : MeshPacket;
  nextTxMsec : Z;            (* uint32_t *)
  numRetransmissions : Z     (* uint8_t *)
}.

(** [PendingPacket::PendingPacket]; [nextTxMsec] is left for [setNextTx]. *)
Definition PendingPacket_new (p : MeshPacket) : PendingPacket :=
  {| packet := p; nextTxMsec := 0;
     numRetransmissions := NUM_RETRANSMISSIONS - 1 |}.

(** Modelled from the spec: the constructor of [GlobalPacketId] from a
    packet is declared in a header that is not among the sources; the design
    document builds the key as [(p.from, p.id)]. *)
Definition GlobalPacketId_of_packet (p : MeshPacket) : GlobalPacketId :=
  (from p, id p).

(** ** Collaborators *)

Abbreviation ErrorCode := Z (only parsing).

(** What the router does to the outside, in the order it does it. *)
Inductive Event :=
| EvFloodSend (p : MeshPacket)                       (* FloodingRouter::send *)
| EvFloodFilter (p : MeshPacket)       (* FloodingRouter::shouldFilterReceived *)
| EvFloodSniff (p : MeshPacket) (c : option Routing) (* FloodingRouter::sniffReceived *)
| EvSendLocal (p : MeshPacket)                       (* router->sendLocal *)
| EvRelease (p : MeshPacket).                        (* packetPool.release *)

(** The collaborators, as a capability set.  Each answer may depend on
    everything the router has done so far. *)
Class Substrate := {
  FloodingRouter_send : list Event -> MeshPacket -> ErrorCode;
  FloodingRouter_shouldFilterReceived : list Event -> MeshPacket -> bool;
  (* the fresh packet of router->allocForSending(), under allocDataProtobuf *)
  allocForSending : list Event -> MeshPacket;
  (* iface->getRetransmissionMsec *)
  getRetransmissionMsec : MeshPacket -> Z
}.

(** ** State and its monad *)

Record Router := {
  pending : gmap (Z * Z) PendingPacket;
  trace : list Event;
  myNodeNum : NodeNum              (* nodeDB.getNodeNum() *)
}.

Definition Router_init (n : NodeNum) : Router :=
  {| pending := ∅; trace := []; myNodeNum := n |}.

Definition M (A : Type) : Type := Router -> A * Router.

#[export] Instance M_ret : MRet M := fun A a st => (a, st).
#[export] Instance M_bind : MBind M :=
  fun A B k m st => let (a, st') := m st in k a st'.

Definition emit (e : Event) : M unit :=
  fun st => (tt, {| pending := pending st; trace := trace st ++ [e];
                    myNodeNum := myNodeNum st |}).

Definition get_pending : M (gmap (Z * Z) PendingPacket) :=
  fun st => (pending st, st).

Definition put_pending (m : gmap (Z * Z) PendingPacket) : M unit :=
  fun st => (tt, {| pending := m; trace := trace st;
                    myNodeNum := myNodeNum st |}).

Definition get_trace : M (list Event) := fun st => (trace st, st).

Definition getNodeNum : M NodeNum := fun st => (myNodeNum st, st).

Section Router.
Context `{Substrate}.

(** [getFrom] (NodeDB.cpp): packets from the local phone carry [from == 0]. *)
Definition getFrom (p : MeshPacket) : M NodeNum :=
  n ← getNodeNum;
  mret (if from p =? 0 then n else from p).

(** Modelled from the spec: [ProtobufPlugin::allocDataProtobuf] is not among
    the sources; it yields a freshly allocated packet carrying the [Routing]
    record. *)
Definition allocDataProtobuf (c : Routing) : M MeshPacket :=
  tr ← get_trace;
  mret (set_payload (PayloadRouting c) (allocForSending tr)).

(** [RoutingPlugin::sendAckNak] *)
Definition sendAckNak (err : Routing_Error) (to_ : NodeNum) (idFrom : PacketId)
  : M unit :=
  let c := Routing_init_default in
  let c := set_error_reason err c in
  p ← allocDataProtobuf c;
  let p := set_priority MeshPacket_Priority_ACK p in
  let p := set_hop_limit 0 p in
  let p := set_to to_ p in
  let p := set_request_id idFrom p in
  emit (EvSendLocal p).

(** [FloodingRouter::send], [::shouldFilterReceived], [::sniffReceived] *)
Definition Flood_send (p : MeshPacket) : M ErrorCode :=
  tr ← get_trace;
  emit (EvFloodSend p);;
  mret (FloodingRouter_send tr p).

Definition Flood_shouldFilterReceived (p : MeshPacket) : M bool :=
  tr ← get_trace;
  emit (EvFloodFilter p);;
  mret (FloodingRouter_shouldFilterReceived tr p).

Definition Flood_sniffReceived (p : MeshPacket) (c : option Routing) : M unit :=
  emit (EvFloodSniff p c).

(** [ReliableRouter::stopRetransmission(GlobalPacketId)] *)
Definition stopRetransmission (key : GlobalPacketId) : M bool :=
  m ← get_pending;
  match m !! key with
  | Some old =>
      put_pending (delete key m);;
      emit (EvRelease (packet old));;
      mret true
  | None => mret false
  end.

(** [ReliableRouter::setNextTx], on a record held by value; the wake-up of
    the router thread ([setReceivedMessage]) is not modelled. *)
Definition setNextTx (now : Z) (rec : PendingPacket) : PendingPacket :=
  let d := getRetransmissionMsec (packet rec) in
  {| packet := packet rec; nextTxMsec := u32 (now + d);
     numRetransmissions := numRetransmissions rec |}.

(** [ReliableRouter::startRetransmission]; [now] is what [millis()] reads. *)
Definition startRetransmission (now : Z) (p : MeshPacket) : M PendingPacket :=
  let key := GlobalPacketId_of_packet p in
  let rec := PendingPacket_new p in
  f ← getFrom p;
  stopRetransmission (f, id p);;
  let rec := setNextTx now rec in
  m ← get_pending;
  put_pending (<[key := rec]> m);;
  mret rec.

(** [ReliableRouter::send] *)
Definition send (now : Z) (p : MeshPacket) : M ErrorCode :=
  if want_ack p then
    let p :=
      if (to p =? NODENUM_BROADCAST) && (hop_limit p =? 0)
      then set_hop_limit 1 p else p in
    let copy := p in                       (* packetPool.allocCopy( *p ) *)
    startRetransmission now copy;;
    Flood_send p
  else Flood_send p.

(** [ReliableRouter::shouldFilterReceived] *)
Definition shouldFilterReceived (p : MeshPacket) : M bool :=
  n ← getNodeNum;
  (if (to p =? NODENUM_BROADCAST) && (from p =? n) then
     f ← getFrom p;
     stopped ← stopRetransmission (f, id p);
     if stopped : bool then
       f ← getFrom p;
       sendAckNak Routing_Error_NONE f (id p)
     else mret tt
   else mret tt);;
  Flood_shouldFilterReceived p.

Definition is_NONE (e : Routing_Error) : bool :=
  match e with Routing_Error_NONE => true | _ => false end.

(** The two classifications of [sniffReceived]. *)
Definition ackId_of (p : MeshPacket) (c : option Routing) : PacketId :=
  match c with
  | Some r => if is_NONE (error_reason r) then request_id p else 0
  | None => request_id p
  end.

Definition nakId_of (p : MeshPacket) (c : option Routing) : PacketId :=
  match c with
  | Some r => if negb (is_NONE (error_reason r)) then request_id p else 0
  | None => 0
  end.

(** [ReliableRouter::sniffReceived]; [currentReply] is
    [MeshPlugin::currentReply], owned by the plugin machinery. *)
Definition sniffReceived (currentReply : option MeshPacket)
    (p : MeshPacket) (c : option Routing) : M unit :=
  ourNode ← getNodeNum;
  (if to p =? ourNode then
     (if want_ack p then
        match currentReply with
        | Some _ => mret tt
        | None => f ← getFrom p; sendAckNak Routing_Error_NONE f (id p)
        end
      else mret tt);;
     let ackId := ackId_of p c in
     let nakId := nakId_of p c in
     if negb (ackId =? 0) || negb (nakId =? 0) then
       if negb (ackId =? 0) then
         stopRetransmission (to p, ackId) ;; mret tt
       else
         stopRetransmission (to p, nakId) ;; mret tt
     else mret tt
   else mret tt);;
  Flood_sniffReceived p c.

(** One turn of the loop of [doRetransmissions], on the entry [(key, p)];
    [d] is the delay accumulated so far. *)
Definition doRetransmissions_entry (now : Z) (d : Z)
    (it : GlobalPacketId * PendingPacket) : M Z :=
  let (key, p) := it in
  if nextTxMsec p <=? now then
    if numRetransmissions p =? 0 then
      f ← getFrom (packet p);
      sendAckNak Routing_Error_MAX_RETRANSMIT f (id (packet p));;
      stopRetransmission key;;
      mret d                                (* stillValid = false *)
    else
      Flood_send (packet p) ;;             (* allocCopy( *p.packet ) *)
      let p := {| packet := packet p; nextTxMsec := nextTxMsec p;
                  numRetransmissions := u8 (numRetransmissions p - 1) |} in
      let p := setNextTx now p in
      m ← get_pending;
      put_pending (<[key := p]> m);;
      mret (Z.min (to_int32 (nextTxMsec p - now)) d)
  else
    mret (Z.min (to_int32 (nextTxMsec p - now)) d).

Fixpoint doRetransmissions_loop (now : Z) (d : Z)
    (its : list (GlobalPacketId * PendingPacket)) : M Z :=
  match its with
  | [] => mret d
  | it :: rest =>
      d' ← doRetransmissions_entry now d it;
      doRetransmissions_loop now d' rest
  end.

(** [ReliableRouter::doRetransmissions] *)
Definition doRetransmissions (now : Z) : M Z :=
  m ← get_pending;
  doRetransmissions_loop now INT32_MAX (map_to_list m).

(** ** Sequences of operations *)

Inductive Op :=
| Op_send (now : Z) (p : MeshPacket)
| Op_startRetransmission (now : Z) (p : MeshPacket)
| Op_stopRetransmission (n : NodeNum) (i : PacketId)
| Op_shouldFilterReceived (p : MeshPacket)
| Op_sniffReceived (currentReply : option MeshPacket)
    (p : MeshPacket) (c : option Routing)
| Op_doRetransmissions (now : Z).

Definition run_op (st : Router) (op : Op) : Router :=
  match op with
  | Op_send now p => (send now p st).2
  | Op_startRetransmission now p => (startRetransmission now p st).2
  | Op_stopRetransmission n i => (stopRetransmission (n, i) st).2
  | Op_shouldFilterReceived p => (shouldFilterReceived p st).2
  | Op_sniffReceived r p c => (sniffReceived r p c st).2
  | Op_doRetransmissions now => (doRetransmissions now st).2
  end.

Definition run_ops (st : Router) (ops : list Op) : Router :=
  foldl run_op st ops.

(** The invariant of the pending table. *)
Definition pending_ok (key : GlobalPacketId) (e : PendingPacket) : Prop :=
  key = (from (packet e), id (packet e)) /\
  0 <= numRetransmissions e < NUM_RETRANSMISSIONS.

Definition pending_inv (st : Router) : Prop :=
  map_Forall pending_ok (pending st).

(** ** Describing results *)

Definition with_trace (st : Router) (evs : list Event) : Router :=
  {| pending := pending st; trace := trace st ++ evs;
     myNodeNum := myNodeNum st |}.

(** The packet handed back to the pool when [key] is removed. *)
Definition released (m : gmap (Z * Z) PendingPacket) (key : GlobalPacketId)
  : list Event :=
  match m !! key with
  | Some old => [EvRelease (packet old)]
  | None => []
  end.

(** The packet that [send] stores and floods. *)
Definition sent_packet (p : MeshPacket) : MeshPacket :=
  if (to p =? NODENUM_BROADCAST) && (hop_limit p =? 0)
  then set_hop_limit 1 p else p.

(** A tick of [doRetransmissions] that answers with a nak for retry
    exhaustion. *)
Definition nak_on_tick (before after : Router) : Prop :=
  exists nak evs,
    trace after = trace before ++ EvSendLocal nak :: evs /\
    payload nak =
      PayloadRouting {| error_reason := Routing_Error_MAX_RETRANSMIT |}.

(** What one tick of [doRetransmissions] makes of a record: a record that
    is not due stays; a due record with attempts left loses one and is
    scheduled again; a due record without attempts left is dropped. *)
Definition tick_entry (now : Z) (e : PendingPacket) : option PendingPacket :=
  if nextTxMsec e <=? now then
    if numRetransmissions e =? 0 then None
    else Some (setNextTx now
                 {| packet := packet e; nextTxMsec := nextTxMsec e;
                    numRetransmissions := u8 (numRetransmissions e - 1) |})
  else Some e.

End Router.

(** ** A concrete substrate and scenario *)

Definition demo_fresh : MeshPacket :=
  {| from := 0; to := NODENUM_BROADCAST; id := 1; hop_limit := 3;
     want_ack := false; priority := MeshPacket_Priority_UNSET;
     request_id := 0; payload := PayloadBytes [] |}.

Definition demo_substrate : Substrate :=
  {| FloodingRouter_send := fun _ _ => 0;
     FloodingRouter_shouldFilterReceived := fun _ _ => false;
     allocForSending := fun _ => demo_fresh;
     getRetransmissionMsec := fun _ => 1000 |}.

(** A [want_ack] packet handed over by the phone ([from == 0]). *)
Definition demo_phone_packet : MeshPacket :=
  {| from := 0; to := 0x5678; id := 0xBB; hop_limit := 0;
     want_ack := true; priority := MeshPacket_Priority_UNSET;
     request_id := 0; payload := PayloadBytes [1] |}.

(** Our own broadcast, as we send it and as we hear it come back. *)
Definition demo_broadcast : MeshPacket :=
  {| from := 0x1234; to := NODENUM_BROADCAST; id := 0xAA; hop_limit := 0;
     want_ack := true; priority := MeshPacket_Priority_UNSET;
     request_id := 0; payload := PayloadBytes [2] |}.

(** An ack for [demo_broadcast] from a neighbour. *)
Definition demo_reply : MeshPacket :=
  {| from := 0x5678; to := 0x1234; id := 7; hop_limit := 0;
     want_ack := false; priority := MeshPacket_Priority_ACK;
     request_id := 0xAA; payload := PayloadRouting Routing_init_default |}.

End ReliableRouter.

(** * The node database *)

Module NodeDB.

(** ** Device state *)

(** As for the router, [_other] stands for the enumerators that the code
    does not name; [memset] leaves [RegionCode_Unset] and
    [CriticalErrorCode_None], the zero values. *)
Inductive RegionCode :=
| RegionCode_Unset
| RegionCode_TW
| RegionCode_other (code : Z).

Inductive CriticalErrorCode :=
| CriticalErrorCode_None
| CriticalErrorCode_other (code : Z).

Record User := {
  id : string;
  long_name : string;
  short_name : string;
  macaddr : list Z                 (* uint8_t[6] *)
}.

Record Position := {
  latitude_i : Z;
  longitude_i : Z;
  altitude : Z;
  battery_level : Z;
  time : Z                         (* seconds, 0 = unknown *)
}.

Record NodeInfo := {
  num : NodeNum;
  has_user : bool;
  user : User;
  has_position : bool;
  position : Position;
  snr : Z                          (* float, as its bit pattern; 0 is 0.0 *)
}.

Record MyNodeInfo := {
  my_node_num : NodeNum;
  has_gps : bool;
  region : string;
  hw_model : string;
  firmware_version : string;
  error_code : CriticalErrorCode;
  error_address : Z;
  error_count : Z;                 (* uint32_t *)
  message_timeout_msec : Z;
  min_app_version : Z;
  max_channels : Z
}.

(** [radioConfig.preferences]; its [region] is [pref_region] here, the name
    [region] being taken by the legacy string of [MyNodeInfo]. *)
Record Preferences := {
  pref_region : RegionCode;
  factory_reset : bool;
  screen_on_secs : Z;
  wait_bluetooth_secs : Z;
  position_broadcast_secs : Z;
  ls_secs : Z
}.

Record RadioConfig := {
  has_preferences : bool;
  preferences : Preferences
}.

(** A channel, as opaque bytes: channels belong to the Channels module. *)
Abbreviation Channel := (list Z) (only parsing).

Record DeviceState := {
  has_radio : bool;
  radio : RadioConfig;
  has_my_node : bool;
  my_node : MyNodeInfo;
  has_owner : bool;
  owner : User;
  node_db : list NodeInfo;         (* NodeInfo[MAX_NUM_NODES] *)
  node_db_count : nat;
  receive_queue_count : Z;
  version : Z;
  no_save : bool;
  channels : list Channel;
  channels_count : Z
}.

Definition DEVICESTATE_CUR_VER : Z := 11.
Definition DEVICESTATE_MIN_VER : Z := DEVICESTATE_CUR_VER.
Definition NUM_RESERVED : Z := 4.
Definition NUM_ONLINE_SECS : Z := 60 * 2.

Definition preffile : string := "/db.proto"%string.
Definition preftmp : string := "/db.proto.tmp"%string.

(** *** What [memset(.., 0, ..)] leaves *)

Definition User_zero : User :=
  {| id := EmptyString; long_name := EmptyString; short_name := EmptyString;
     macaddr := replicate 6 0 |}.

Definition Position_zero : Position :=
  {| latitude_i := 0; longitude_i := 0; altitude := 0; battery_level := 0;
     time := 0 |}.

Definition NodeInfo_zero : NodeInfo :=
  {| num := 0; has_user := false; user := User_zero;
     has_position := false; position := Position_zero; snr := 0 |}.

#[export] Instance NodeInfo_inhabited : Inhabited NodeInfo :=
  populate NodeInfo_zero.

Definition MyNodeInfo_zero : MyNodeInfo :=
  {| my_node_num := 0; has_gps := false; region := EmptyString;
     hw_model := EmptyString;
     firmware_version := EmptyString; error_code := CriticalErrorCode_None;
     error_address := 0; error_count := 0; message_timeout_msec := 0;
     min_app_version := 0; max_channels := 0 |}.

Definition Preferences_zero : Preferences :=
  {| pref_region := RegionCode_Unset; factory_reset := false;
     screen_on_secs := 0; wait_bluetooth_secs := 0;
     position_broadcast_secs := 0; ls_secs := 0 |}.

Definition DeviceState_zero (max_nodes : nat) : DeviceState :=
  {| has_radio := false;
     radio := {| has_preferences := false; preferences := Preferences_zero |};
     has_my_node := false; my_node := MyNodeInfo_zero;
     has_owner := false; owner := User_zero;
     node_db := replicate max_nodes NodeInfo_zero; node_db_count := 0;
     receive_queue_count := 0; version := 0; no_save := false;
     channels := []; channels_count := 0 |}.

(** *** Field updates *)

Definition upd_position (f : Position -> Position) (n : NodeInfo) : NodeInfo :=
  {| num := num n; has_user := has_user n; user := user n;
     has_position := has_position n; position := f (position n);
     snr := snr n |}.

Definition set_has_position (b : bool) (n : NodeInfo) : NodeInfo :=
  {| num := num n; has_user := has_user n; user := user n;
     has_position := b; position := position n; snr := snr n |}.

Definition set_user (u : User) (n : NodeInfo) : NodeInfo :=
  {| num := num n; has_user := true; user := u;
     has_position := has_position n; position := position n; snr := snr n |}.

Definition set_snr (x : Z) (n : NodeInfo) : NodeInfo :=
  {| num := num n; has_user := has_user n; user := user n;
     has_position := has_position n; position := position n; snr := x |}.

Definition set_time (t : Z) (p : Position) : Position :=
  {| latitude_i := latitude_i p; longitude_i := longitude_i p;
     altitude := altitude p; battery_level := battery_level p; time := t |}.

Definition set_battery_level (b : Z) (p : Position) : Position :=
  {| latitude_i := latitude_i p; longitude_i := longitude_i p;
     altitude := altitude p; battery_level := b; time := time p |}.

Definition set_lat_lon (lat lon : Z) (p : Position) : Position :=
  {| latitude_i := lat; longitude_i := lon;
     altitude := altitude p; battery_level := battery_level p;
     time := time p |}.

Definition set_my_node_num (x : NodeNum) (m : MyNodeInfo) : MyNodeInfo :=
  {| my_node_num := x; has_gps := has_gps m; region := region m;
     hw_model := hw_model m; firmware_version := firmware_version m;
     error_code := error_code m; error_address := error_address m;
     error_count := error_count m;
     message_timeout_msec := message_timeout_msec m;
     min_app_version := min_app_version m; max_channels := max_channels m |}.

Definition set_gps_timeout (g : bool) (t : Z) (m : MyNodeInfo) : MyNodeInfo :=
  {| my_node_num := my_node_num m; has_gps := g; region := region m;
     hw_model := hw_model m; firmware_version := firmware_version m;
     error_code := error_code m; error_address := error_address m;
     error_count := error_count m; message_timeout_msec := t;
     min_app_version := min_app_version m; max_channels := max_channels m |}.

Definition set_region (s : string) (m : MyNodeInfo) : MyNodeInfo :=
  {| my_node_num := my_node_num m; has_gps := has_gps m; region := s;
     hw_model := hw_model m; firmware_version := firmware_version m;
     error_code := error_code m; error_address := error_address m;
     error_count := error_count m;
     message_timeout_msec := message_timeout_msec m;
     min_app_version := min_app_version m; max_channels := max_channels m |}.

Definition set_versions (fw hw : string) (m : MyNodeInfo) : MyNodeInfo :=
  {| my_node_num := my_node_num m; has_gps := has_gps m; region := region m;
     hw_model := hw; firmware_version := fw;
     error_code := error_code m; error_address := error_address m;
     error_count := error_count m;
     message_timeout_msec := message_timeout_msec m;
     min_app_version := min_app_version m; max_channels := max_channels m |}.

Definition set_error (c : CriticalErrorCode) (a n : Z) (m : MyNodeInfo)
  : MyNodeInfo :=
  {| my_node_num := my_node_num m; has_gps := has_gps m; region := region m;
     hw_model := hw_model m; firmware_version := firmware_version m;
     error_code := c; error_address := a; error_count := n;
     message_timeout_msec := message_timeout_msec m;
     min_app_version := min_app_version m; max_channels := max_channels m |}.

Definition set_max_channels (x : Z) (m : MyNodeInfo) : MyNodeInfo :=
  {| my_node_num := my_node_num m; has_gps := has_gps m; region := region m;
     hw_model := hw_model m; firmware_version := firmware_version m;
     error_code := error_code m; error_address := error_address m;
     error_count := error_count m;
     message_timeout_msec := message_timeout_msec m;
     min_app_version := min_app_version m; max_channels := x |}.

Definition set_min_app_version (x : Z) (m : MyNodeInfo) : MyNodeInfo :=
  {| my_node_num := my_node_num m; has_gps := has_gps m; region := region m;
     hw_model := hw_model m; firmware_version := firmware_version m;
     error_code := error_code m; error_address := error_address m;
     error_count := error_count m;
     message_timeout_msec := message_timeout_msec m;
     min_app_version := x; max_channels := max_channels m |}.

Definition set_pref_region (r : RegionCode) (p : Preferences) : Preferences :=
  {| pref_region := r; factory_reset := factory_reset p;
     screen_on_secs := screen_on_secs p;
     wait_bluetooth_secs := wait_bluetooth_secs p;
     position_broadcast_secs := position_broadcast_secs p;
     ls_secs := ls_secs p |}.

Definition upd_my_node (f : MyNodeInfo -> MyNodeInfo) (d : DeviceState)
  : DeviceState :=
  {| has_radio := has_radio d; radio := radio d;
     has_my_node := has_my_node d; my_node := f (my_node d);
     has_owner := has_owner d; owner := owner d;
     node_db := node_db d; node_db_count := node_db_count d;
     receive_queue_count := receive_queue_count d; version := version d;
     no_save := no_save d; channels := channels d;
     channels_count := channels_count d |}.

Definition upd_radio (f : RadioConfig -> RadioConfig) (d : DeviceState)
  : DeviceState :=
  {| has_radio := has_radio d; radio := f (radio d);
     has_my_node := has_my_node d; my_node := my_node d;
     has_owner := has_owner d; owner := owner d;
     node_db := node_db d; node_db_count := node_db_count d;
     receive_queue_count := receive_queue_count d; version := version d;
     no_save := no_save d; channels := channels d;
     channels_count := channels_count d |}.

Definition upd_preferences (f : Preferences -> Preferences) (r : RadioConfig)
  : RadioConfig :=
  {| has_preferences := has_preferences r; preferences := f (preferences r) |}.

Definition set_has_preferences (b : bool) (r : RadioConfig) : RadioConfig :=
  {| has_preferences := b; preferences := preferences r |}.

Definition set_owner (u : User) (d : DeviceState) : DeviceState :=
  {| has_radio := has_radio d; radio := radio d;
     has_my_node := has_my_node d; my_node := my_node d;
     has_owner := has_owner d; owner := u;
     node_db := node_db d; node_db_count := node_db_count d;
     receive_queue_count := receive_queue_count d; version := version d;
     no_save := no_save d; channels := channels d;
     channels_count := channels_count d |}.

Definition set_nodes (l : list NodeInfo) (c : nat) (d : DeviceState)
  : DeviceState :=
  {| has_radio := has_radio d; radio := radio d;
     has_my_node := has_my_node d; my_node := my_node d;
     has_owner := has_owner d; owner := owner d;
     node_db := l; node_db_count := c;
     receive_queue_count := receive_queue_count d; version := version d;
     no_save := no_save d; channels := channels d;
     channels_count := channels_count d |}.

Definition set_version (v : Z) (d : DeviceState) : DeviceState :=
  {| has_radio := has_radio d; radio := radio d;
     has_my_node := has_my_node d; my_node := my_node d;
     has_owner := has_owner d; owner := owner d;
     node_db := node_db d; node_db_count := node_db_count d;
     receive_queue_count := receive_queue_count d; version := v;
     no_save := no_save d; channels := channels d;
     channels_count := channels_count d |}.

Definition set_channels (l : list Channel) (d : DeviceState) : DeviceState :=
  {| has_radio := has_radio d; radio := radio d;
     has_my_node := has_my_node d; my_node := my_node d;
     has_owner := has_owner d; owner := owner d;
     node_db := node_db d; node_db_count := node_db_count d;
     receive_queue_count := receive_queue_count d; version := version d;
     no_save := no_save d; channels := l;
     channels_count := Z.of_nat (length l) |}.

(** The presence flags and counts that [installDefaultDeviceState] sets. *)
Definition set_valid_flags (d : DeviceState) : DeviceState :=
  {| has_radio := true; radio := set_has_preferences true (radio d);
     has_my_node := true; my_node := my_node d;
     has_owner := true; owner := owner d;
     node_db := node_db d; node_db_count := 0;
     receive_queue_count := 0; version := version d;
     no_save := no_save d; channels := channels d;
     channels_count := channels_count d |}.

(** ** Collaborators and globals *)

(** What the build and the hardware fix, and what the serializer and the
    random generator answer. *)
Record Platform := {
  MAX_NUM_NODES : nat;
  MAX_NUM_CHANNELS : Z;
  FLOOD_EXPIRE_TIME : Z;
  HW_VERSION : string;
  APP_VERSION : string;
  HW_VENDOR : string;
  regions : list (string * RegionCode);     (* name, code; without the
                                               closing Unset entry *)
  getMacAddr : list Z;
  random : nat -> Z;   (* the k-th answer of random(NUM_RESERVED,
                          NODENUM_BROADCAST) *)
  default_channels : list Channel;           (* channels.initDefaults() *)
  (* pb_decode into a zeroed DeviceState: success, and what was filled in *)
  pb_decode : list Z -> bool * DeviceState;
  (* pb_encode: success, and the bytes handed to the write callback *)
  pb_encode : DeviceState -> bool * list Z;
  sizeof_region : nat;
  sizeof_firmware_version : nat;
  sizeof_hw_model : nat
}.

(** Calls that leave the device state, in order. *)
Inductive Effect :=
| EffScreenPrint (code : CriticalErrorCode)  (* screen->print of the error *)
| EffChannelsInitDefaults
| EffChannelsOnConfigChanged
| EffInitRegion
| EffGeneratePacketId
| EffUpdateGUIforNode (n : NodeNum)
| EffNotifyObservers (force : bool)
| EffFsOpen (path : string) (for_write : bool)
| EffFsWrite (path : string) (bytes : list Z)
| EffFsClose (path : string)
| EffFsRemove (path : string)
| EffFsRename (src dst : string).

Record Globals := {
  devicestate : DeviceState;
  ourMacAddr : list Z;
  radioGeneration : Z;
  files : gmap string (list Z);      (* the filesystem *)
  fs_open_fails : bool;              (* FS.open(.., FILE_O_WRITE) is falsy *)
  random_calls : nat;
  effects : list Effect
}.

Definition upd_devicestate (f : DeviceState -> DeviceState) (g : Globals)
  : Globals :=
  {| devicestate := f (devicestate g); ourMacAddr := ourMacAddr g;
     radioGeneration := radioGeneration g; files := files g;
     fs_open_fails := fs_open_fails g; random_calls := random_calls g;
     effects := effects g |}.

Definition set_ourMacAddr (m : list Z) (g : Globals) : Globals :=
  {| devicestate := devicestate g; ourMacAddr := m;
     radioGeneration := radioGeneration g; files := files g;
     fs_open_fails := fs_open_fails g; random_calls := random_calls g;
     effects := effects g |}.

Definition set_radioGeneration (x : Z) (g : Globals) : Globals :=
  {| devicestate := devicestate g; ourMacAddr := ourMacAddr g;
     radioGeneration := x; files := files g;
     fs_open_fails := fs_open_fails g; random_calls := random_calls g;
     effects := effects g |}.

Definition set_files (m : gmap string (list Z)) (g : Globals) : Globals :=
  {| devicestate := devicestate g; ourMacAddr := ourMacAddr g;
     radioGeneration := radioGeneration g; files := m;
     fs_open_fails := fs_open_fails g; random_calls := random_calls g;
     effects := effects g |}.

Definition set_random_calls (k : nat) (g : Globals) : Globals :=
  {| devicestate := devicestate g; ourMacAddr := ourMacAddr g;
     radioGeneration := radioGeneration g; files := files g;
     fs_open_fails := fs_open_fails g; random_calls := k;
     effects := effects g |}.

Definition add_effect (e : Effect) (g : Globals) : Globals :=
  {| devicestate := devicestate g; ourMacAddr := ourMacAddr g;
     radioGeneration := radioGeneration g; files := files g;
     fs_open_fails := fs_open_fails g; random_calls := random_calls g;
     effects := effects g ++ [e] |}.

(** ** The monad of NodeDB code: globals, failed assertions, fuel *)

Inductive outcome (A : Type) :=
| Done (a : A)
| AssertFailed
| OutOfFuel.
Arguments Done {A} a.
Arguments AssertFailed {A}.
Arguments OutOfFuel {A}.

Definition N (A : Type) : Type := Globals -> outcome (A * Globals).

#[export] Instance N_ret : MRet N := fun A a g => Done (a, g).
#[export] Instance N_bind : MBind N :=
  fun A B k m g =>
    match m g with
    | Done (a, g') => k a g'
    | AssertFailed => AssertFailed
    | OutOfFuel => OutOfFuel
    end.

Definition get : N Globals := fun g => Done (g, g).
Definition modify (f : Globals -> Globals) : N unit := fun g => Done (tt, f g).
Definition eff (e : Effect) : N unit := modify (add_effect e).
Definition upd (f : DeviceState -> DeviceState) : N unit :=
  modify (upd_devicestate f).
Definition assert (b : bool) : N unit :=
  fun g => if b then Done (tt, g) else AssertFailed.

(** ** Text *)

Definition hex_digit (upper : bool) (d : Z) : Ascii.ascii :=
  if d <? 10 then Ascii.ascii_of_nat (48 + Z.to_nat d)
  else Ascii.ascii_of_nat ((if upper then 55 else 87) + Z.to_nat d).

(** ["%0<width>x"] (or [X]) of a number below [16 ^ width]. *)
Fixpoint hex (upper : bool) (width : nat) (n : Z) : string :=
  match width with
  | O => EmptyString
  | S w =>
      hex upper w (n / 16) +:+ String (hex_digit upper (n mod 16)) EmptyString
  end.

(** [strncpy(dst, src, n)], read back as a string: at most [n] characters. *)
Definition strncpy (n : nat) (src : string) : string := String.substring 0 n src.

(** [memcmp(a, b, 6) != 0] on two MAC addresses. *)
Definition mac_differs (a b : list Z) : bool :=
  negb (bool_decide (take 6 a = take 6 b)).

Section NodeDB.
Variable hw : Platform.

(** ** The directory *)

(** [NodeDB::getNode], as the index of the record found. *)
Definition getNode (d : DeviceState) (n : NodeNum) : option nat :=
  fst <$> list_find (fun info => num info = n)
            (take (node_db_count d) (node_db d)).

Definition node_at (d : DeviceState) (i : nat) : NodeInfo :=
  node_db d !!! i.

Definition upd_node (i : nat) (f : NodeInfo -> NodeInfo) (d : DeviceState)
  : DeviceState :=
  set_nodes (<[ i := f (node_at d i) ]> (node_db d)) (node_db_count d) d.

Definition NodeInfo_new (n : NodeNum) : NodeInfo :=
  {| num := n; has_user := false; user := User_zero;
     has_position := false; position := Position_zero; snr := 0 |}.

(** [NodeDB::getOrCreateNode], as the index of the record. *)
Definition getOrCreateNode (n : NodeNum) : N nat :=
  g ← get;
  let d := devicestate g in
  match getNode d n with
  | Some i => mret i
  | None =>
      assert (bool_decide (node_db_count d < MAX_NUM_NODES hw)%nat);;
      let i := node_db_count d in
      upd (set_nodes (<[ i := NodeInfo_new n ]> (node_db d)) (S i));;
      mret i
  end.

(** [sinceLastSeen]; [now] is what [getTime()] reads. *)
Definition sinceLastSeen (now : Z) (n : NodeInfo) : Z :=
  let last_seen := time (position n) in
  let delta := to_int32 (now - last_seen) in
  let delta := if delta <? 0 then 0 else delta in
  u32 delta.

(** [NodeDB::getNumOnlineNodes] *)
Definition getNumOnlineNodes (now : Z) (d : DeviceState) : Z :=
  fold_left
    (fun numseen n =>
       if sinceLastSeen now n <? NUM_ONLINE_SECS then numseen + 1
       else numseen)
    (take (node_db_count d) (node_db d)) 0.

(** The merge of [updatePosition] on the record itself. *)
Definition updatePosition_info (p : Position) (info : NodeInfo) : NodeInfo :=
  let info :=
    if (time (position info) =? 0) && negb (time p =? 0)
    then upd_position (set_time (time p)) info else info in
  let info :=
    if negb (battery_level p =? 0)
    then upd_position (set_battery_level (battery_level p)) info else info in
  let info :=
    if negb (latitude_i p =? 0) || negb (longitude_i p =? 0)
    then upd_position (set_lat_lon (latitude_i p) (longitude_i p)) info
    else info in
  set_has_position true info.

(** [NodeDB::updatePosition] *)
Definition updatePosition (nodeId : NodeNum) (p : Position) : N unit :=
  i ← getOrCreateNode nodeId;
  upd (upd_node i (updatePosition_info p));;
  eff (EffUpdateGUIforNode nodeId);;
  eff (EffNotifyObservers true).

(** [recordCriticalError] *)
Definition recordCriticalError (code : CriticalErrorCode) (address : Z)
  : N unit :=
  eff (EffScreenPrint code);;
  upd (upd_my_node (fun m => set_error code address (u32 (error_count m + 1)) m)).

(** ** Node number selection *)

Definition mac_nodenum (mac : list Z) : NodeNum :=
  u32 (Z.lor (Z.lor (Z.lor (Z.shiftl (mac !!! 2%nat) 24)
                           (Z.shiftl (mac !!! 3%nat) 16))
                    (Z.shiftl (mac !!! 4%nat) 8))
             (mac !!! 5%nat)).

(** Does [getNode(r)] find a record of somebody else? *)
Definition in_use (d : DeviceState) (r : NodeNum) : bool :=
  match getNode d r with
  | Some i => mac_differs (macaddr (user (node_at d i))) (macaddr (owner d))
  | None => false
  end.

(** The [while] loop of [pickNewNodeNum]; one unit of fuel per turn. *)
Fixpoint pickNewNodeNum_loop (fuel : nat) (r : NodeNum) : N NodeNum :=
  fun g =>
    if in_use (devicestate g) r then
      match fuel with
      | O => OutOfFuel
      | S fuel' =>
          let n := u32 (random hw (random_calls g)) in
          pickNewNodeNum_loop fuel' n
            (set_random_calls (S (random_calls g)) g)
      end
    else Done (r, g).

(** [NodeDB::pickNewNodeNum] *)
Definition pickNewNodeNum (fuel : nat) : N unit :=
  g ← get;
  let r := my_node_num (my_node (devicestate g)) in
  let r := if r =? 0 then mac_nodenum (ourMacAddr g) else r in
  let r := if (r =? NODENUM_BROADCAST) || (r <? NUM_RESERVED)
           then NUM_RESERVED else r in
  r ← pickNewNodeNum_loop fuel r;
  upd (upd_my_node (set_my_node_num r)).

(** ** The filesystem *)

Definition FS_open_read (path : string) : N (option (list Z)) :=
  g ← get;
  eff (EffFsOpen path false);;
  mret (files g !! path).

Definition FS_open_write (path : string) : N bool :=
  g ← get;
  eff (EffFsOpen path true);;
  if fs_open_fails g then mret false
  else modify (set_files (<[ path := [] ]> (files g)));; mret true.

Definition FS_write (path : string) (bytes : list Z) : N unit :=
  g ← get;
  eff (EffFsWrite path bytes);;
  modify (set_files (<[ path := bytes ]> (files g))).

Definition FS_close (path : string) : N unit := eff (EffFsClose path).

Definition FS_remove (path : string) : N bool :=
  g ← get;
  eff (EffFsRemove path);;
  match files g !! path with
  | Some _ => modify (set_files (delete path (files g)));; mret true
  | None => mret false
  end.

Definition FS_rename (src dst : string) : N bool :=
  g ← get;
  eff (EffFsRename src dst);;
  match files g !! src with
  | Some bytes =>
      modify (set_files (<[ dst := bytes ]> (delete src (files g))));;
      mret true
  | None => mret false
  end.

(** ** Defaults *)

Definition is_Unset (r : RegionCode) : bool :=
  match r with RegionCode_Unset => true | _ => false end.

Definition is_empty (s : string) : bool :=
  match s with EmptyString => true | _ => false end.

(** The development-mode settings of [resetRadioConfig]. *)
Definition development_preferences (p : Preferences) : Preferences :=
  {| pref_region := RegionCode_TW; factory_reset := factory_reset p;
     screen_on_secs := 10; wait_bluetooth_secs := 10;
     position_broadcast_secs := 6 * 60; ls_secs := 60 |}.

(** [NodeDB::resetRadioConfig], with [install] for its call of
    [installDefaultDeviceState]. *)
Definition resetRadioConfig_body (install : N unit) : N bool :=
  modify (fun g => set_radioGeneration (u32 (radioGeneration g + 1)) g);;
  g ← get;
  let d := devicestate g in
  didFactoryReset ←
    (if factory_reset (preferences (radio d)) then
       install;; mret true
     else if channels_count d =? 0 then
       eff EffChannelsInitDefaults;;
       upd (set_channels (default_channels hw));;
       upd (upd_radio (set_has_preferences true));;
       mret false
     else mret false);
  eff EffChannelsOnConfigChanged;;
  g ← get;
  (if no_save (devicestate g)
   then upd (upd_radio (upd_preferences development_preferences))
   else mret tt);;
  eff EffInitRegion;;
  mret didFactoryReset.

(** [NodeDB::installDefaultDeviceState]; the fuel bounds the recursion
    through [resetRadioConfig] and the loop of [pickNewNodeNum]. *)
Fixpoint installDefaultDeviceState (fuel : nat) : N unit :=
  match fuel with
  | O => fun _ => OutOfFuel
  | S fuel' =>
      g ← get;
      let oldRegion := region (my_node (devicestate g)) in
      let oldRegionCode := pref_region (preferences (radio (devicestate g))) in
      upd (fun _ => DeviceState_zero (MAX_NUM_NODES hw));;
      upd set_valid_flags;;
      resetRadioConfig_body (installDefaultDeviceState fuel');;
      upd (upd_my_node (set_gps_timeout false (FLOOD_EXPIRE_TIME hw)));;
      eff EffGeneratePacketId;;
      modify (set_ourMacAddr (getMacAddr hw));;
      pickNewNodeNum fuel';;
      g ← get;
      let mac := ourMacAddr g in
      let n := my_node_num (my_node (devicestate g)) in
      upd (set_owner
             {| long_name := "Unknown "%string +:+ hex false 2 (mac !!! 4%nat)
                               +:+ hex false 2 (mac !!! 5%nat);
                short_name := "?"%string +:+ hex true 2 (Z.land n 0xff);
                id := "!"%string +:+ hex false 8 n;
                macaddr := take 6 mac |});;
      (if negb (is_Unset oldRegionCode)
       then upd (upd_radio (upd_preferences (set_pref_region oldRegionCode)))
       else mret tt);;
      (if negb (is_empty oldRegion)
       then upd (upd_my_node (set_region oldRegion))
       else mret tt)
  end.

Definition resetRadioConfig (fuel : nat) : N bool :=
  resetRadioConfig_body (installDefaultDeviceState fuel).

(** ** Load and save *)

(** [NodeDB::loadFromDisk] *)
Definition loadFromDisk (fuel : nat) : N unit :=
  f ← FS_open_read preffile;
  match f with
  | Some bytes =>
      upd (fun _ => DeviceState_zero (MAX_NUM_NODES hw));;
      let (ok, d) := pb_decode hw bytes in
      upd (fun _ => d);;
      (if negb ok then
         installDefaultDeviceState fuel
       else if version d <? DEVICESTATE_MIN_VER then
         installDefaultDeviceState fuel
       else mret tt);;
      FS_close preffile
  | None => mret tt
  end.

(** [NodeDB::saveToDisk] *)
Definition saveToDisk : N unit :=
  g ← get;
  if negb (no_save (devicestate g)) then
    f ← FS_open_write preftmp;
    if f : bool then
      upd (set_version DEVICESTATE_CUR_VER);;
      g ← get;
      let (ok, bytes) := pb_encode hw (devicestate g) in
      FS_write preftmp bytes;;
      if negb ok then
        FS_close preftmp
      else
        FS_close preftmp;;
        FS_remove preffile;;
        FS_rename preftmp preffile;;
        mret tt
    else mret tt
  else mret tt.

(** ** Start-up *)

Definition has_prefix (pre s : string) : bool :=
  String.eqb (String.substring 0 (String.length pre) s) pre.

(** The conversion of an old textual region to the enum, in [init]. *)
Definition legacy_region (d : DeviceState) : DeviceState :=
  if is_Unset (pref_region (preferences (radio d))) &&
     has_prefix "1.0-"%string (region (my_node d))
  then
    let r := region (my_node d) in
    let regionStr := String.substring 4 (String.length r - 4) r in
    match List.find (fun e => String.eqb (fst e) regionStr) (regions hw) with
    | Some e => upd_radio (upd_preferences (set_pref_region (snd e))) d
    | None => d
    end
  else d.

(** [NodeDB::init] *)
Definition init (fuel : nat) : N unit :=
  installDefaultDeviceState fuel;;
  loadFromDisk fuel;;
  upd (upd_my_node (set_max_channels (MAX_NUM_CHANNELS hw)));;
  upd (upd_my_node
         (fun m => set_error CriticalErrorCode_None 0 (error_count m) m));;
  upd (upd_my_node (set_min_app_version 20200));;
  pickNewNodeNum fuel;;
  g ← get;
  i ← getOrCreateNode (my_node_num (my_node (devicestate g)));
  upd (fun d => upd_node i (set_user (owner d)) d);;
  (if negb (is_empty (HW_VERSION hw))
   then upd (upd_my_node
               (set_region (strncpy (sizeof_region hw) (HW_VERSION hw))))
   else mret tt);;
  upd legacy_region;;
  upd (upd_my_node
         (set_versions
            (strncpy (sizeof_firmware_version hw) (APP_VERSION hw))
            (strncpy (sizeof_hw_model hw) (HW_VENDOR hw))));;
  resetRadioConfig fuel;;
  mret tt.

(** ** Liveness *)

(** The count that the design document describes: a record is online when
    [max(0, now - position.time)] is below 7200 seconds. *)
Definition spec_since_last_seen (now : Z) (n : NodeInfo) : Z :=
  Z.max 0 (now - time (position n)).

Definition spec_NUM_ONLINE_SECS : Z := 7200.

Definition spec_getNumOnlineNodes (now : Z) (d : DeviceState) : Z :=
  Z.of_nat (length (filter
    (fun n => spec_since_last_seen now n < spec_NUM_ONLINE_SECS)
    (take (node_db_count d) (node_db d)))).

End NodeDB.

(** The candidate of [pickNewNodeNum] before its loop. *)
Definition candidate (g : Globals) : NodeNum :=
  let r := my_node_num (my_node (devicestate g)) in
  let r := if r =? 0 then mac_nodenum (ourMacAddr g) else r in
  if (r =? NODENUM_BROADCAST) || (r <? NUM_RESERVED) then NUM_RESERVED
  else r.

(** [m] keeps [proj] of the globals, from states that satisfy [P]. *)
Definition preserving {T A} (P : Globals -> Prop) (proj : Globals -> T)
    (m : N A) : Prop :=
  forall g a g', P g -> m g = Done (a, g') -> P g' /\ proj g' = proj g.

(** The error record of [MyNodeInfo], and the factory-reset request. *)
Definition errs (g : Globals)
  : CriticalErrorCode * Z * Z * bool :=
  let d := devicestate g in
  (error_code (my_node d), error_address (my_node d),
   error_count (my_node d), factory_reset (preferences (radio d))).

Definition no_reset (g : Globals) : Prop :=
  factory_reset (preferences (radio (devicestate g))) = false.

(** The errors that [recordCriticalError] has put on the screen. *)
Definition shown_errors (g : Globals) : list CriticalErrorCode :=
  omap (fun e => match e with EffScreenPrint c => Some c | _ => None end)
    (effects g).

(** *** The node number after start-up *)

Definition valid_node_num (g : Globals) : Prop :=
  let r := my_node_num (my_node (devicestate g)) in
  r <> NODENUM_BROADCAST /\ NUM_RESERVED <= r.

Definition random_in_range (hw : Platform) : Prop :=
  forall k, NUM_RESERVED <= random hw k < NODENUM_BROADCAST.

(** The part of [init] after [loadFromDisk] and after the error code and
    address are cleared. *)
Definition init_tail (hw : Platform) (fuel : nat) : N unit :=
  upd (upd_my_node (set_min_app_version 20200));;
  pickNewNodeNum hw fuel;;
  g ← get;
  i ← getOrCreateNode hw (my_node_num (my_node (devicestate g)));
  upd (fun d => upd_node i (set_user (owner d)) d);;
  (if negb (is_empty (HW_VERSION hw))
   then upd (upd_my_node
               (set_region (strncpy (sizeof_region hw) (HW_VERSION hw))))
   else mret tt);;
  upd (legacy_region hw);;
  upd (upd_my_node
         (set_versions
            (strncpy (sizeof_firmware_version hw) (APP_VERSION hw))
            (strncpy (sizeof_hw_model hw) (HW_VENDOR hw))));;
  resetRadioConfig hw fuel;;
  mret tt.

(** ** A concrete platform *)

(** A toy serializer: two numbers, the version and the error count; any
    other file fails to decode. *)
Definition demo_decode (bytes : list Z) : bool * DeviceState :=
  match bytes with
  | [v; c] =>
      (true,
       upd_my_node (set_error (CriticalErrorCode_other 3) 77 c)
         (set_version v (set_valid_flags (DeviceState_zero 4))))
  | _ => (false, DeviceState_zero 4)
  end.

Definition demo_encode (d : DeviceState) : bool * list Z :=
  (true, [version d; error_count (my_node d)]).

Definition demo_hw : Platform :=
  {| MAX_NUM_NODES := 4; MAX_NUM_CHANNELS := 8; FLOOD_EXPIRE_TIME := 600000;
     HW_VERSION := "1.0-EU433"%string; APP_VERSION := "1.2.0"%string;
     HW_VENDOR := "tbeam"%string;
     regions := [("US"%string, RegionCode_other 1);
                 ("EU433"%string, RegionCode_other 2)];
     getMacAddr := [0x24; 0x6f; 0x28; 0x00; 0x00; 0x42];
     random := fun k => 0x1000 + Z.of_nat k mod 0x1000;
     default_channels := [[1]];
     pb_decode := demo_decode; pb_encode := demo_encode;
     sizeof_region := 12; sizeof_firmware_version := 12;
     sizeof_hw_model := 16 |}.

Definition demo_globals (fs : gmap string (list Z)) : Globals :=
  {| devicestate := DeviceState_zero 4; ourMacAddr := replicate 6 0;
     radioGeneration := 0; files := fs; fs_open_fails := false;
     random_calls := 0; effects := [] |}.

(** One peer heard 200 seconds ago. *)
Definition demo_peer : NodeInfo :=
  {| num := 0x42; has_user := false; user := User_zero;
     has_position := true;
     position := {| latitude_i := 50; longitude_i := 60; altitude := 0;
                    battery_level := 80; time := 1000 |};
     snr := 0 |}.

Definition demo_directory : DeviceState :=
  set_nodes [demo_peer; NodeInfo_zero; NodeInfo_zero; NodeInfo_zero] 1
    (DeviceState_zero 4).

(** The directory of [demo_directory], a candidate number 0x42 from the MAC
    address, and an owner with another MAC address than the peer 0x42. *)
Definition demo_conflict : Globals :=
  set_ourMacAddr [0; 0; 0; 0; 0; 0x42]
    (upd_devicestate
       (fun _ => set_owner
                   {| id := EmptyString; long_name := EmptyString;
                      short_name := EmptyString;
                      macaddr := [0xBB; 0; 0; 0; 0; 0x42] |}
                   demo_directory)
       (demo_globals ∅)).

(** A state to save, and one whose filesystem cannot be written. *)
Definition demo_unsaved (open_fails : bool) : Globals :=
  {| devicestate := set_version 5 (set_valid_flags (DeviceState_zero 4));
     ourMacAddr := replicate 6 0; radioGeneration := 0;
     files := {[ preffile := [11; 0] ]}; fs_open_fails := open_fails;
     random_calls := 0; effects := [] |}.

(** ** The rest of the directory *)

(** [NodeDB::readNextInfo]: the record under the cursor and the cursor
    afterwards. *)
Definition readNextInfo (readPointer : nat) (d : DeviceState)
  : option NodeInfo * nat :=
  if bool_decide (readPointer < node_db_count d)%nat
  then (Some (node_at d readPointer), S readPointer)
  else (None, readPointer).

(** What a reader gets who calls [readNextInfo] until it answers nothing,
    at most [fuel] times. *)
Fixpoint readNextInfo_all (fuel : nat) (readPointer : nat) (d : DeviceState)
  : list NodeInfo * nat :=
  match fuel with
  | O => ([], readPointer)
  | S fuel' =>
      match readNextInfo readPointer d with
      | (Some n, rp) =>
          let (l, rp') := readNextInfo_all fuel' rp d in (n :: l, rp')
      | (None, rp) => ([], rp)
      end
  end.

#[export] Instance User_eq_dec : EqDecision User.
Proof. solve_decision. Defined.

(** [NodeDB::updateUser].  [memcmp] compares all [sizeof(User)] bytes of the
    two structs, also those behind the terminating NUL of a string, which
    the fields of [User] do not show: [slack_differs] tells whether the
    structs differ in such a byte.  The result tells whether
    [powerFSM.trigger(EVENT_NODEDB_UPDATED)] was called. *)
Definition updateUser (hw : Platform) (nodeId : NodeNum) (p : User)
    (slack_differs : bool) : N bool :=
  i ← getOrCreateNode hw nodeId;
  g ← get;
  let changed :=
    negb (bool_decide (user (node_at (devicestate g) i) = p))
    || slack_differs in
  upd (upd_node i (set_user p));;
  if changed then
    eff (EffUpdateGUIforNode nodeId);;
    eff (EffNotifyObservers true);;
    mret true
  else mret false.

(** The fields of a received packet that [updateFrom] reads. *)
Record RxPacket := {
  rx_from : NodeNum;
  rx_decoded : bool;       (* which_payloadVariant == MeshPacket_decoded_tag *)
  rx_time : Z;
  rx_snr : Z               (* float, as its bit pattern *)
}.

(** [getFrom] *)
Definition getFrom (from : NodeNum) : N NodeNum :=
  g ← get;
  mret (if from =? 0 then my_node_num (my_node (devicestate g)) else from).

(** [NodeDB::updateFrom] *)
Definition updateFrom (hw : Platform) (mp : RxPacket) : N unit :=
  if rx_decoded mp then
    n ← getFrom (rx_from mp);
    i ← getOrCreateNode hw n;
    (if negb (rx_time mp =? 0) then
       upd (upd_node i (fun info =>
              upd_position (set_time (rx_time mp))
                (set_has_position true info)))
     else mret tt);;
    upd (upd_node i (set_snr (rx_snr mp)))
  else mret tt.

(** The directory as the design wants it: the array has its slots, the count
    is within them, and no two live records share a number. *)
Definition nums (d : DeviceState) : list NodeNum :=
  num <$> take (node_db_count d) (node_db d).

Definition directory_ok (hw : Platform) (d : DeviceState) : Prop :=
  length (node_db d) = MAX_NUM_NODES hw /\
  (node_db_count d <= MAX_NUM_NODES hw)%nat /\
  NoDup (nums d).

(** Calls one after the other. *)
Definition sequence (ms : list (N unit)) : N unit :=
  foldr (fun m k => m;; k) (mret tt) ms.

(** ** The directory after start-up *)

(** The array [nodes] has its [MAX_NUM_NODES] slots and the count is within
    them. *)
Definition sized (hw : Platform) (d : DeviceState) : Prop :=
  length (node_db d) = MAX_NUM_NODES hw /\
  (node_db_count d <= MAX_NUM_NODES hw)%nat.

(** Does [loadFromDisk] find a saved state that it accepts and that asks for
    a factory reset? *)
Definition reset_requested (hw : Platform) (g : Globals) : bool :=
  match files g !! preffile with
  | Some bytes =>
      let (ok, d) := pb_decode hw bytes in
      ok && negb (version d <? DEVICESTATE_MIN_VER) &&
      factory_reset (preferences (radio d))
  | None => false
  end.

(** The records, the owner and the node number. *)
Definition own (g : Globals) : list NodeInfo * nat * User * NodeNum :=
  let d := devicestate g in
  (node_db d, node_db_count d, owner d, my_node_num (my_node d)).

(** ** A saved state that asks for a factory reset *)

(** The toy serializer again, reading every file with [factory_reset] set. *)
Definition demo_decode_reset (bytes : list Z) : bool * DeviceState :=
  let (ok, d) := demo_decode bytes in
  (ok,
   upd_radio
     (upd_preferences
        (fun p => {| pref_region := pref_region p; factory_reset := true;
                     screen_on_secs := screen_on_secs p;
                     wait_bluetooth_secs := wait_bluetooth_secs p;
                     position_broadcast_secs := position_broadcast_secs p;
                     ls_secs := ls_secs p |})) d).

Definition demo_hw_reset : Platform :=
  {| MAX_NUM_NODES := 4; MAX_NUM_CHANNELS := 8; FLOOD_EXPIRE_TIME := 600000;
     HW_VERSION := "1.0-EU433"%string; APP_VERSION := "1.2.0"%string;
     HW_VENDOR := "tbeam"%string;
     regions := [("US"%string, RegionCode_other 1);
                 ("EU433"%string, RegionCode_other 2)];
     getMacAddr := [0x24; 0x6f; 0x28; 0x00; 0x00; 0x42];
     random := fun k => 0x1000 + Z.of_nat k mod 0x1000;
     default_channels := [[1]];
     pb_decode := demo_decode_reset; pb_encode := demo_encode;
     sizeof_region := 12; sizeof_firmware_version := 12;
     sizeof_hw_model := 16 |}.

End NodeDB.

(** * Properties *)

(** ** Machine integers *)

Lemma u32_small x : 0 <= x < 2 ^ 32 -> u32 x = x.
Proof. intros H. unfold u32. apply Z.mod_small. exact H. Qed.

(** ** The reliable delivery layer *)

Module ReliableRouterFacts.
Import ReliableRouter.

Section Facts.
Context `{Substrate}.

Ltac run_monad :=
  unfold mbind, mret, M_bind, M_ret, emit, get_pending, put_pending,
    get_trace, getNodeNum; simpl.

Ltac run_all :=
  unfold shouldFilterReceived, sniffReceived, send, startRetransmission,
    stopRetransmission, sendAckNak, allocDataProtobuf, Flood_send,
    Flood_shouldFilterReceived, Flood_sniffReceived, getFrom;
  run_monad.

Lemma getFrom_run p st :
  getFrom p st = ((if from p =? 0 then myNodeNum st else from p), st).
Proof. reflexivity. Qed.

Lemma stopRetransmission_run key st :
  stopRetransmission key st =
    (bool_decide (is_Some (pending st !! key)),
     {| pending := delete key (pending st);
        trace := trace st ++ released (pending st) key;
        myNodeNum := myNodeNum st |}).
Proof.
  unfold stopRetransmission, released. run_monad.
  destruct (pending st !! key) as [old|] eqn:Hk; simpl.
  - reflexivity.
  - rewrite delete_id by done. rewrite app_nil_r. by destruct st.
Qed.

Lemma sendAckNak_run err t i st :
  exists ack,
    sendAckNak err t i st = (tt, with_trace st [EvSendLocal ack]) /\
    to ack = t /\ request_id ack = i /\
    payload ack = PayloadRouting {| error_reason := err |} /\
    priority ack = MeshPacket_Priority_ACK /\ hop_limit ack = 0.
Proof.
  eexists. split; [unfold sendAckNak, allocDataProtobuf; run_monad;
                   unfold with_trace; reflexivity|].
  simpl. auto.
Qed.

Lemma Flood_send_run p st :
  Flood_send p st = (FloodingRouter_send (trace st) p,
                     with_trace st [EvFloodSend p]).
Proof. reflexivity. Qed.

Lemma Flood_shouldFilterReceived_run p st :
  Flood_shouldFilterReceived p st =
    (FloodingRouter_shouldFilterReceived (trace st) p,
     with_trace st [EvFloodFilter p]).
Proof. reflexivity. Qed.

(** *** Receive filter *)

(** C2.  A broadcast of ours that comes back stops the retransmissions of
    [(p.from, p.id)]; exactly when a record was removed, one ack with
    [Routing_Error_NONE] for [p.id] is sent to ourselves; the result is
    always the flooding router's own decision on [p]. *)
Theorem shouldFilterReceived_implicit_ack (p : MeshPacket) (st : Router) :
  to p = NODENUM_BROADCAST ->
  from p = myNodeNum st ->
  let r := (shouldFilterReceived p st).1 in
  let st' := (shouldFilterReceived p st).2 in
  pending st' = delete (from p, id p) (pending st) /\
  (forall old, pending st !! (from p, id p) = Some old ->
     exists ack,
       trace st' = trace st ++
         [EvRelease (packet old); EvSendLocal ack; EvFloodFilter p] /\
       to ack = myNodeNum st /\ request_id ack = id p /\
       payload ack = PayloadRouting {| error_reason := Routing_Error_NONE |} /\
       r = FloodingRouter_shouldFilterReceived
             (trace st ++ [EvRelease (packet old); EvSendLocal ack]) p) /\
  (pending st !! (from p, id p) = None ->
     trace st' = trace st ++ [EvFloodFilter p] /\
     r = FloodingRouter_shouldFilterReceived (trace st) p).
Proof.
  intros Hto Hfrom. simpl.
  assert (Hg : (if from p =? 0 then from p else from p) = from p)
    by (by destruct (from p =? 0)).
  run_all.
  rewrite Hto, <- Hfrom, !Z.eqb_refl. simpl. rewrite <- !Hfrom, !Hg.
  destruct (pending st !! (from p, id p)) as [old|] eqn:Hk; simpl.
  - rewrite ?Hg. split; [done|]. split; [|done].
    intros old' [= <-]. eexists.
    rewrite <- !app_assoc. simpl. rewrite <- Hfrom, Hg.
    repeat split; reflexivity.
  - split; [by rewrite delete_id|]. done.
Qed.

(** *** Receive sniffing *)

Lemma ackId_nakId_cases p c :
  (ackId_of p c = request_id p /\ nakId_of p c = 0) \/
  (ackId_of p c = 0 /\ nakId_of p c = request_id p).
Proof.
  destruct c as [[[]]|]; simpl; auto.
Qed.

(** C3.  [sniffReceived] on a packet addressed to us acks it when it wants
    an ack and no plugin has replied; it classifies [decoded.request_id] as
    an ack id or a nak id, and whichever is non-zero stops the
    retransmissions of [(p.to, id)].  A packet for somebody else does
    neither.  The flooding router's sniff always comes last. *)
Theorem sniffReceived_ack_nak (currentReply : option MeshPacket)
    (p : MeshPacket) (c : option Routing) (st : Router) :
  let st' := (sniffReceived currentReply p c st).2 in
  let is_ack :=
    c = None \/ exists r, c = Some r /\ error_reason r = Routing_Error_NONE in
  let is_nak :=
    exists r, c = Some r /\ error_reason r <> Routing_Error_NONE in
  let wants := want_ack p && bool_decide (currentReply = None) in
  let stops := negb (ackId_of p c =? 0) || negb (nakId_of p c =? 0) in
  let key := (to p, if negb (ackId_of p c =? 0) then ackId_of p c
                    else nakId_of p c) in
  (* classification *)
  (is_ack -> ackId_of p c = request_id p /\ nakId_of p c = 0) /\
  (is_nak -> nakId_of p c = request_id p /\ ackId_of p c = 0) /\
  (request_id p <> 0 ->
     (ackId_of p c = request_id p <-> is_ack) /\
     (nakId_of p c = request_id p <-> is_nak)) /\
  (* addressed to us *)
  (to p = myNodeNum st ->
     pending st' = (if stops then delete key (pending st) else pending st) /\
     exists acks,
       trace st' = trace st ++ acks ++
         (if stops then released (pending st) key else []) ++
         [EvFloodSniff p c] /\
       (wants = false -> acks = []) /\
       (wants = true -> exists ack,
          acks = [EvSendLocal ack] /\
          to ack = (if from p =? 0 then myNodeNum st else from p) /\
          request_id ack = id p /\
          payload ack =
            PayloadRouting {| error_reason := Routing_Error_NONE |})) /\
  (* addressed to somebody else *)
  (to p <> myNodeNum st ->
     pending st' = pending st /\
     trace st' = trace st ++ [EvFloodSniff p c]).
Proof.
  simpl. repeat apply conj.
  - intros [->|(r & -> & Hr)]; simpl; [done|]. by rewrite Hr.
  - intros (r & -> & Hr). simpl. by destruct (error_reason r).
  - intros Hrid. split; split.
    + destruct c as [r|]; [|by left]. simpl.
      destruct (error_reason r) eqn:E; simpl; intros ?;
        first [congruence | right; eauto].
    + intros [->|(r & -> & Hr)]; simpl; [done|]. by rewrite Hr.
    + destruct c as [r|]; simpl; [|congruence].
      destruct (error_reason r) eqn:E; simpl; intros ?;
        first [congruence | exists r; split; congruence].
    + intros (r & -> & Hr). simpl. by destruct (error_reason r).
  - intros Hto. unfold sniffReceived. run_monad.
    rewrite <- Hto, Z.eqb_refl.
    destruct (want_ack p), currentReply as [reply|]; simpl;
      destruct (ackId_nakId_cases p c) as [[-> ->]|[-> ->]]; simpl;
      destruct (request_id p =? 0) eqn:Hz; simpl;
      rewrite ?stopRetransmission_run; simpl.
    all: split; [reflexivity|].
    all: first
      [ exists []; split; [simpl; by rewrite <- ?app_assoc|];
        split; [done|discriminate]
      | eexists [_]; split;
        [simpl; rewrite <- ?app_assoc; simpl; reflexivity|];
        split; [discriminate|]; intros _; eexists;
        split; [reflexivity|]; simpl; rewrite ?Hto; auto ].
  - intros Hto. unfold sniffReceived. run_monad.
    destruct (to p =? myNodeNum st) eqn:E; [apply Z.eqb_eq in E; lia|].
    simpl. done.
Qed.

(** *** The retransmission tick *)

Lemma doRetransmissions_singleton now key e st :
  pending st = {[ key := e ]} ->
  doRetransmissions now st =
    doRetransmissions_entry now INT32_MAX (key, e) st.
Proof.
  intros Hp.
  cbv beta iota delta [doRetransmissions mbind M_bind get_pending].
  rewrite Hp, map_to_list_singleton.
  cbv beta iota delta [doRetransmissions_loop mbind M_bind mret M_ret].
  by destruct (doRetransmissions_entry now INT32_MAX (key, e) st).
Qed.

Lemma doRetransmissions_empty now st :
  pending st = ∅ -> doRetransmissions now st = (INT32_MAX, st).
Proof.
  intros Hp. unfold doRetransmissions. run_monad.
  by rewrite Hp, map_to_list_empty.
Qed.

(** A due entry with attempts left is sent again through the flooding
    router and rescheduled. *)
Lemma doRetransmissions_entry_resend now d key e st :
  nextTxMsec e <= now ->
  numRetransmissions e <> 0 ->
  let e' := {| packet := packet e;
               nextTxMsec := u32 (now + getRetransmissionMsec (packet e));
               numRetransmissions := u8 (numRetransmissions e - 1) |} in
  doRetransmissions_entry now d (key, e) st =
    (Z.min (to_int32 (nextTxMsec e' - now)) d,
     {| pending := <[key := e']> (pending st);
        trace := trace st ++ [EvFloodSend (packet e)];
        myNodeNum := myNodeNum st |}).
Proof.
  intros Hdue Hn. unfold doRetransmissions_entry.
  rewrite (proj2 (Z.leb_le _ _) Hdue), (proj2 (Z.eqb_neq _ _) Hn).
  reflexivity.
Qed.

(** A due entry without attempts left is answered with a nak and removed. *)
Lemma doRetransmissions_entry_nak now d key e st :
  nextTxMsec e <= now ->
  numRetransmissions e = 0 ->
  exists nak,
    doRetransmissions_entry now d (key, e) st =
      (d, {| pending := delete key (pending st);
             trace := trace st ++ [EvSendLocal nak] ++
                        released (pending st) key;
             myNodeNum := myNodeNum st |}) /\
    to nak = (if from (packet e) =? 0 then myNodeNum st
              else from (packet e)) /\
    request_id nak = id (packet e) /\
    payload nak =
      PayloadRouting {| error_reason := Routing_Error_MAX_RETRANSMIT |} /\
    priority nak = MeshPacket_Priority_ACK /\ hop_limit nak = 0.
Proof.
  intros Hdue Hn. unfold doRetransmissions_entry.
  rewrite (proj2 (Z.leb_le _ _) Hdue), Hn. simpl.
  eexists. split.
  - unfold mbind, M_bind. rewrite getFrom_run.
    unfold sendAckNak, allocDataProtobuf. run_monad.
    rewrite stopRetransmission_run. simpl.
    rewrite <- app_assoc. reflexivity.
  - simpl. auto.
Qed.

Lemma doRetransmissions_entry_wait now d key e st :
  now < nextTxMsec e ->
  doRetransmissions_entry now d (key, e) st =
    (Z.min (to_int32 (nextTxMsec e - now)) d, st).
Proof.
  intros Hlt. unfold doRetransmissions_entry.
  by rewrite (proj2 (Z.leb_gt _ _) Hlt).
Qed.

Lemma send_want_ack_empty now p st :
  want_ack p = true ->
  pending st = ∅ ->
  let q := sent_packet p in
  (send now p st).2 =
    {| pending := {[ GlobalPacketId_of_packet q :=
                     {| packet := q;
                        nextTxMsec := u32 (now + getRetransmissionMsec q);
                        numRetransmissions := 2 |} ]};
       trace := trace st ++ [EvFloodSend q];
       myNodeNum := myNodeNum st |}.
Proof.
  intros Hw Hp. simpl. unfold send. rewrite Hw. fold (sent_packet p).
  unfold startRetransmission.
  unfold mbind at 1, M_bind at 1.
  unfold mbind at 1, M_bind at 1. rewrite getFrom_run.
  unfold mbind at 1, M_bind at 1. rewrite stopRetransmission_run.
  run_monad. unfold released. rewrite Hp, lookup_empty, delete_empty.
  rewrite insert_empty, app_nil_r. reflexivity.
Qed.

(** C1 (as amended).  After [send] of a [want_ack] packet into an empty
    table, the first two due ticks each retransmit the stored packet through
    the flooding router, keeping the one pending record; the third due tick
    sends a nak ([MAX_RETRANSMIT], to [getFrom] of the packet, for its id)
    and empties the table; later ticks do nothing. *)
Theorem doRetransmissions_nak_on_exhaustion
    (p : MeshPacket) (st0 : Router) (t0 t1 t2 t3 : Z) :
  want_ack p = true ->
  pending st0 = ∅ ->
  let q := sent_packet p in
  let d := getRetransmissionMsec q in
  u32 (t0 + d) <= t1 -> u32 (t1 + d) <= t2 -> u32 (t2 + d) <= t3 ->
  let key := GlobalPacketId_of_packet q in
  let st1 := (send t0 p st0).2 in
  let st2 := (doRetransmissions t1 st1).2 in
  let st3 := (doRetransmissions t2 st2).2 in
  let st4 := (doRetransmissions t3 st3).2 in
  (pending st1 = {[ key := {| packet := q; nextTxMsec := u32 (t0 + d);
                              numRetransmissions := 2 |} ]} /\
   trace st1 = trace st0 ++ [EvFloodSend q]) /\
  (pending st2 = {[ key := {| packet := q; nextTxMsec := u32 (t1 + d);
                              numRetransmissions := 1 |} ]} /\
   trace st2 = trace st1 ++ [EvFloodSend q]) /\
  (pending st3 = {[ key := {| packet := q; nextTxMsec := u32 (t2 + d);
                              numRetransmissions := 0 |} ]} /\
   trace st3 = trace st2 ++ [EvFloodSend q]) /\
  (pending st4 = ∅ /\
   exists nak,
     trace st4 = trace st3 ++ [EvSendLocal nak; EvRelease q] /\
     payload nak =
       PayloadRouting {| error_reason := Routing_Error_MAX_RETRANSMIT |} /\
     to nak = (if from p =? 0 then myNodeNum st0 else from p) /\
     request_id nak = id p) /\
  (forall t4, doRetransmissions t4 st4 = (INT32_MAX, st4)).
Proof.
  intros Hw Hp q d H1 H2 H3 key st1 st2 st3 st4.
  assert (Hq : from q = from p /\ id q = id p).
  { unfold q, sent_packet. by destruct (_ && _). }
  assert (E1 : st1 = {| pending := {[ key :=
                          {| packet := q; nextTxMsec := u32 (t0 + d);
                             numRetransmissions := 2 |} ]};
                        trace := trace st0 ++ [EvFloodSend q];
                        myNodeNum := myNodeNum st0 |}).
  { unfold st1. by rewrite send_want_ack_empty. }
  assert (E2 : st2 = {| pending := {[ key :=
                          {| packet := q; nextTxMsec := u32 (t1 + d);
                             numRetransmissions := 1 |} ]};
                        trace := trace st1 ++ [EvFloodSend q];
                        myNodeNum := myNodeNum st0 |}).
  { unfold st2. rewrite (doRetransmissions_singleton t1 key _ st1)
      by (by rewrite E1).
    rewrite doRetransmissions_entry_resend by (simpl; fold d; lia).
    simpl. rewrite E1. simpl. by rewrite insert_singleton_eq. }
  assert (E3 : st3 = {| pending := {[ key :=
                          {| packet := q; nextTxMsec := u32 (t2 + d);
                             numRetransmissions := 0 |} ]};
                        trace := trace st2 ++ [EvFloodSend q];
                        myNodeNum := myNodeNum st0 |}).
  { unfold st3. rewrite (doRetransmissions_singleton t2 key _ st2)
      by (by rewrite E2).
    rewrite doRetransmissions_entry_resend by (simpl; fold d; lia).
    simpl. rewrite E2. simpl. by rewrite insert_singleton_eq. }
  assert (E4 : exists nak,
             st4 = {| pending := ∅;
                      trace := trace st3 ++ [EvSendLocal nak; EvRelease q];
                      myNodeNum := myNodeNum st0 |} /\
             payload nak = PayloadRouting
               {| error_reason := Routing_Error_MAX_RETRANSMIT |} /\
             to nak = (if from p =? 0 then myNodeNum st0 else from p) /\
             request_id nak = id p).
  { unfold st4. rewrite (doRetransmissions_singleton t3 key _ st3)
      by (by rewrite E3).
    edestruct (doRetransmissions_entry_nak t3 INT32_MAX key) with (st := st3)
      as (nak & -> & Ht & Hi & Hpl & _); [| |exists nak].
    - simpl. fold d. lia.
    - reflexivity.
    - simpl. simpl in Ht, Hi. destruct Hq as [Hf Hid].
      rewrite Hf in Ht. rewrite Hid in Hi.
      unfold released. rewrite E3. simpl.
      rewrite lookup_singleton_eq, delete_singleton_eq. simpl.
      rewrite E3 in Ht. simpl in Ht.
      repeat split; done. }
  destruct E4 as (nak & E4 & Hpl & Ht & Hi).
  clearbody st1 st2 st3 st4. subst st4 st3 st2 st1. simpl.
  repeat apply conj; try done.
  by exists nak.
Qed.

(** *** The invariant of the pending table *)

Lemma pending_inv_delete key st m :
  pending_inv st -> pending m = delete key (pending st) -> pending_inv m.
Proof.
  unfold pending_inv. intros Hinv ->. by apply map_Forall_delete.
Qed.

Lemma pending_inv_same st m :
  pending_inv st -> pending m = pending st -> pending_inv m.
Proof. unfold pending_inv. by intros Hinv ->. Qed.

Lemma stopRetransmission_inv key st :
  pending_inv st -> pending_inv (stopRetransmission key st).2.
Proof.
  intros Hinv. rewrite stopRetransmission_run. simpl.
  by eapply pending_inv_delete.
Qed.

Lemma startRetransmission_pending now p st :
  pending (startRetransmission now p st).2 =
    <[ GlobalPacketId_of_packet p :=
       {| packet := p; nextTxMsec := u32 (now + getRetransmissionMsec p);
          numRetransmissions := 2 |} ]>
      (delete ((if from p =? 0 then myNodeNum st else from p), id p)
         (pending st)).
Proof.
  unfold startRetransmission.
  unfold mbind at 1, M_bind at 1. rewrite getFrom_run.
  unfold mbind at 1, M_bind at 1. rewrite stopRetransmission_run.
  reflexivity.
Qed.

Lemma startRetransmission_inv now p st :
  pending_inv st -> pending_inv (startRetransmission now p st).2.
Proof.
  intros Hinv. unfold pending_inv. rewrite startRetransmission_pending.
  apply map_Forall_insert_2.
  - split; [reflexivity|]. simpl. unfold NUM_RETRANSMISSIONS. lia.
  - by apply map_Forall_delete.
Qed.

Lemma send_inv now p st :
  pending_inv st -> pending_inv (send now p st).2.
Proof.
  intros Hinv. unfold send. destruct (want_ack p).
  - fold (sent_packet p). unfold mbind, M_bind.
    pose proof (startRetransmission_inv now (sent_packet p) st Hinv) as Hs.
    destruct (startRetransmission now (sent_packet p) st) as [r st1].
    rewrite Flood_send_run. exact Hs.
  - rewrite Flood_send_run. exact Hinv.
Qed.

Lemma shouldFilterReceived_inv p st :
  pending_inv st -> pending_inv (shouldFilterReceived p st).2.
Proof.
  intros Hinv. run_all.
  destruct ((to p =? NODENUM_BROADCAST) && (from p =? myNodeNum st));
    simpl; [|exact Hinv].
  destruct (pending st !! _) eqn:Hk; simpl; [|exact Hinv].
  by eapply pending_inv_delete.
Qed.

Lemma sniffReceived_inv r p c st :
  pending_inv st -> pending_inv (sniffReceived r p c st).2.
Proof.
  intros Hinv. unfold sniffReceived, sendAckNak, allocDataProtobuf, getFrom,
    Flood_sniffReceived. run_monad.
  destruct (to p =? myNodeNum st); simpl; [|exact Hinv].
  destruct (want_ack p), r; simpl;
    destruct (negb (ackId_of p c =? 0) || negb (nakId_of p c =? 0)); simpl;
    try destruct (negb (ackId_of p c =? 0)); simpl;
    rewrite ?stopRetransmission_run; simpl;
    first [ eapply pending_inv_same; [exact Hinv|reflexivity]
          | eapply pending_inv_delete; [exact Hinv|reflexivity] ].
Qed.

Lemma doRetransmissions_entry_inv now d key e st :
  pending_ok key e -> pending_inv st ->
  pending_inv (doRetransmissions_entry now d (key, e) st).2.
Proof.
  intros [Hkey Hn] Hinv.
  destruct (Z_le_gt_dec (nextTxMsec e) now) as [Hdue|Hwait].
  - destruct (Z.eq_dec (numRetransmissions e) 0) as [Hz|Hnz].
    + destruct (doRetransmissions_entry_nak now d key e st Hdue Hz)
        as (nak & -> & _).
      by eapply pending_inv_delete.
    + rewrite doRetransmissions_entry_resend by done. simpl.
      apply map_Forall_insert_2; [|exact Hinv].
      split; [exact Hkey|]. simpl. unfold u8, NUM_RETRANSMISSIONS in *.
      rewrite Z.mod_small by lia. lia.
  - rewrite doRetransmissions_entry_wait by lia. exact Hinv.
Qed.

Lemma doRetransmissions_loop_inv now its : forall d st,
  Forall (uncurry pending_ok) its -> pending_inv st ->
  pending_inv (doRetransmissions_loop now d its st).2.
Proof.
  induction its as [|[key e] rest IH]; intros d st Hall Hinv.
  - exact Hinv.
  - inversion Hall as [|? ? Hhd Htl]; subst.
    cbn [doRetransmissions_loop]. unfold mbind, M_bind.
    pose proof (doRetransmissions_entry_inv now d key e st Hhd Hinv) as Hs.
    destruct (doRetransmissions_entry now d (key, e) st) as [d' st1].
    by apply IH.
Qed.

Lemma doRetransmissions_inv now st :
  pending_inv st -> pending_inv (doRetransmissions now st).2.
Proof.
  intros Hinv. unfold doRetransmissions.
  cbv beta iota delta [mbind M_bind get_pending].
  apply doRetransmissions_loop_inv; [|exact Hinv].
  by apply map_Forall_to_list.
Qed.

Lemma run_op_inv st op : pending_inv st -> pending_inv (run_op st op).
Proof.
  destruct op; simpl;
    auto using send_inv, startRetransmission_inv, stopRetransmission_inv,
      shouldFilterReceived_inv, sniffReceived_inv, doRetransmissions_inv.
Qed.

Lemma run_ops_inv ops : forall st,
  pending_inv st -> pending_inv (run_ops st ops).
Proof.
  induction ops as [|op ops IH]; intros st Hinv; [exact Hinv|].
  simpl. apply IH. by apply run_op_inv.
Qed.

(** C8.  Whatever operations have run since start-up, every pending record
    sits under the key [(packet.from, packet.id)] and has between 0 and 2
    retransmissions left; a record just created by [startRetransmission]
    has 2. *)
Theorem pending_table_invariant (n : NodeNum) (ops : list Op) :
  let st := run_ops (Router_init n) ops in
  (forall key e, pending st !! key = Some e ->
     key = (from (packet e), id (packet e)) /\
     0 <= numRetransmissions e < NUM_RETRANSMISSIONS) /\
  (forall now p,
     let st' := (startRetransmission now p st).2 in
     exists e, pending st' !! (from p, id p) = Some e /\
               packet e = p /\
               numRetransmissions e = NUM_RETRANSMISSIONS - 1 /\
               numRetransmissions e = 2).
Proof.
  simpl. split.
  - intros key e Hk.
    assert (Hinv : pending_inv (run_ops (Router_init n) ops)).
    { apply run_ops_inv. unfold pending_inv. simpl. apply map_Forall_empty. }
    exact (Hinv key e Hk).
  - intros now p. rewrite startRetransmission_pending.
    eexists. split; [apply lookup_insert_eq|]. simpl. auto.
Qed.

(** *** The table after a tick *)

Lemma doRetransmissions_entry_tick now d key e st :
  pending st !! key = Some e ->
  let r := (doRetransmissions_entry now d (key, e) st).1 in
  let st' := (doRetransmissions_entry now d (key, e) st).2 in
  pending st' = partial_alter (fun _ => tick_entry now e) key (pending st) /\
  myNodeNum st' = myNodeNum st /\
  (exists evs, trace st' = trace st ++ evs) /\
  r <= d /\
  (forall e', tick_entry now e = Some e' ->
     r <= to_int32 (nextTxMsec e' - now)).
Proof.
  intros Hk. cbv zeta. unfold tick_entry.
  destruct (Z.leb_spec (nextTxMsec e) now) as [Hdue|Hwait].
  - destruct (Z.eqb_spec (numRetransmissions e) 0) as [Hn|Hn].
    + destruct (doRetransmissions_entry_nak now d key e st Hdue Hn)
        as (nak & -> & _). simpl.
      split; [done|]. split; [done|]. split; [eauto|]. split; [lia|done].
    + rewrite doRetransmissions_entry_resend by done. simpl.
      split; [done|]. split; [done|]. split; [eauto|]. split; [lia|].
      intros e' [= <-]. simpl. lia.
  - rewrite doRetransmissions_entry_wait by done. simpl.
    split.
    { apply map_eq. intros k. destruct (decide (k = key)) as [->|Hne].
      - by rewrite lookup_partial_alter_eq, Hk.
      - by rewrite lookup_partial_alter_ne. }
    split; [done|]. split; [exists []; by rewrite app_nil_r|].
    split; [lia|]. intros e' [= <-]. lia.
Qed.

Lemma doRetransmissions_loop_tick now its : forall d st,
  NoDup its.*1 ->
  (forall k e, (k, e) ∈ its -> pending st !! k = Some e) ->
  let r := (doRetransmissions_loop now d its st).1 in
  let st' := (doRetransmissions_loop now d its st).2 in
  (forall k, pending st' !! k =
     match (list_to_map its : gmap (Z * Z) PendingPacket) !! k with
     | Some e => tick_entry now e
     | None => pending st !! k
     end) /\
  myNodeNum st' = myNodeNum st /\
  (exists evs, trace st' = trace st ++ evs) /\
  r <= d /\
  (forall k e e', (k, e) ∈ its -> tick_entry now e = Some e' ->
     r <= to_int32 (nextTxMsec e' - now)).
Proof.
  induction its as [|[k0 e0] rest IH]; intros d st Hnd Hin; cbv zeta.
  - simpl. split; [done|]. split; [done|].
    split; [exists []; by rewrite app_nil_r|].
    split; [lia|]. intros k e e' Hk. by apply elem_of_nil in Hk.
  - rewrite fmap_cons in Hnd. apply NoDup_cons in Hnd as [Hk0 Hnd].
    assert (Hk : pending st !! k0 = Some e0) by (apply Hin; left).
    destruct (doRetransmissions_entry_tick now d k0 e0 st Hk)
      as (Hp1 & Hm1 & [evs1 Ht1] & Hd1 & Hr1).
    cbn [doRetransmissions_loop]. unfold mbind, M_bind.
    destruct (doRetransmissions_entry now d (k0, e0) st) as [d1 st1].
    cbn [fst snd] in Hp1, Hm1, Ht1, Hd1, Hr1.
    assert (Hin1 : forall k e, (k, e) ∈ rest -> pending st1 !! k = Some e).
    { intros k e Hke. rewrite Hp1.
      rewrite lookup_partial_alter_ne.
      - apply Hin. by right.
      - intros <-. apply Hk0. apply list_elem_of_fmap. by exists (k0, e). }
    destruct (IH d1 st1 Hnd Hin1) as (Hp2 & Hm2 & [evs2 Ht2] & Hd2 & Hr2).
    destruct (doRetransmissions_loop now d1 rest st1) as [r st2].
    cbn [fst snd] in *.
    split; [|split; [congruence|split; [|split; [lia|]]]].
    + intros k. rewrite Hp2. rewrite list_to_map_cons.
      destruct (decide (k = k0)) as [->|Hne].
      * rewrite lookup_insert_eq.
        rewrite (not_elem_of_list_to_map_1 _ _ Hk0).
        by rewrite Hp1, lookup_partial_alter_eq.
      * rewrite lookup_insert_ne by done.
        destruct (list_to_map rest !! k); [done|].
        by rewrite Hp1, lookup_partial_alter_ne.
    + exists (evs1 ++ evs2). by rewrite Ht2, Ht1, app_assoc.
    + intros k e e' Hke He'. apply elem_of_cons in Hke as [[= -> ->]|Hke].
      * specialize (Hr1 e' He'). lia.
      * by eapply Hr2.
Qed.

Lemma doRetransmissions_loop_idle now its : forall d st,
  (forall k e, (k, e) ∈ its -> now < nextTxMsec e) ->
  (doRetransmissions_loop now d its st).2 = st.
Proof.
  induction its as [|[k0 e0] rest IH]; intros d st Hin; [done|].
  cbn [doRetransmissions_loop]. unfold mbind, M_bind.
  rewrite doRetransmissions_entry_wait by (eapply Hin; left).
  apply IH. intros k e Hke. eapply Hin. by right.
Qed.

Lemma doRetransmissions_walk (now : Z) (st : Router) :
  NoDup (map_to_list (pending st)).*1 /\
  (forall k e, (k, e) ∈ map_to_list (pending st) ->
               pending st !! k = Some e).
Proof.
  split; [apply NoDup_fst_map_to_list|].
  intros k e. apply elem_of_map_to_list.
Qed.

Lemma doRetransmissions_tick (now : Z) (st : Router) :
  let r := (doRetransmissions now st).1 in
  let st' := (doRetransmissions now st).2 in
  pending st' = omap (tick_entry now) (pending st) /\
  (forall key e', pending st' !! key = Some e' ->
     r <= to_int32 (nextTxMsec e' - now)).
Proof.
  cbv zeta. unfold doRetransmissions. unfold mbind, M_bind, get_pending.
  destruct (doRetransmissions_walk now st) as [Hnd Hin].
  destruct (doRetransmissions_loop_tick now (map_to_list (pending st))
              INT32_MAX st Hnd Hin) as (Hp & _ & _ & _ & Hr).
  destruct (doRetransmissions_loop now INT32_MAX
              (map_to_list (pending st)) st) as [r st'].
  cbn [fst snd] in *.
  assert (Hp' : pending st' = omap (tick_entry now) (pending st)).
  { apply map_eq. intros k. rewrite Hp, list_to_map_to_list, lookup_omap.
    by destruct (pending st !! k). }
  split; [done|].
  intros key e' Hk. rewrite Hp', lookup_omap in Hk.
  destruct (pending st !! key) as [e|] eqn:He; [|done]. simpl in Hk.
  eapply Hr; [|done]. by apply elem_of_map_to_list.
Qed.

(** X16. One tick of [doRetransmissions] rewrites the table record by
    record and touches nothing else: a record that is not due stays as it
    is, a due record with attempts left has one attempt less and a new
    deadline, a due record without attempts left is gone; no record appears.
    The delay it answers is at most [INT32_MAX] and at most the signed
    distance to the deadline of every record that is left.  When no record
    is due, the tick does nothing at all. *)
Theorem doRetransmissions_table (now : Z) (st : Router) :
  let r := (doRetransmissions now st).1 in
  let st' := (doRetransmissions now st).2 in
  pending st' = omap (tick_entry now) (pending st) /\
  myNodeNum st' = myNodeNum st /\
  (exists evs, trace st' = trace st ++ evs) /\
  r <= INT32_MAX /\
  (forall key e', pending st' !! key = Some e' ->
     r <= to_int32 (nextTxMsec e' - now)) /\
  ((forall key e, pending st !! key = Some e -> now < nextTxMsec e) ->
   st' = st).
Proof.
  cbv zeta. destruct (doRetransmissions_tick now st) as [Hp Hr].
  split; [done|]. revert Hr. clear Hp.
  unfold doRetransmissions. unfold mbind, M_bind, get_pending.
  destruct (doRetransmissions_walk now st) as [Hnd Hin].
  destruct (doRetransmissions_loop_tick now (map_to_list (pending st))
              INT32_MAX st Hnd Hin) as (_ & Hm & Ht & Hd & _).
  pose proof (doRetransmissions_loop_idle now (map_to_list (pending st))
                INT32_MAX st) as Hidle.
  destruct (doRetransmissions_loop now INT32_MAX
              (map_to_list (pending st)) st) as [r st'].
  cbn [fst snd] in *. intros Hr.
  split; [done|]. split; [done|]. split; [done|]. split; [done|].
  intros Hwait. apply Hidle. intros k e Hke. eapply Hwait.
  by apply elem_of_map_to_list.
Qed.

(** *** Sending, and the replies that end the retries *)

Lemma sent_packet_key p :
  from (sent_packet p) = from p /\ id (sent_packet p) = id p /\
  want_ack (sent_packet p) = want_ack p.
Proof. unfold sent_packet. by destruct (_ && _). Qed.

Lemma send_want_ack_run now p st :
  want_ack p = true ->
  (if from p =? 0 then myNodeNum st else from p) = from p ->
  let q := sent_packet p in
  let key := (from p, id p) in
  send now p st =
    (FloodingRouter_send (trace st ++ released (pending st) key) q,
     {| pending := <[ key := {| packet := q;
                                nextTxMsec := u32 (now + getRetransmissionMsec q);
                                numRetransmissions := 2 |} ]> (pending st);
        trace := trace st ++ released (pending st) key ++ [EvFloodSend q];
        myNodeNum := myNodeNum st |}).
Proof.
  intros Hw Hf. cbv zeta. unfold send. rewrite Hw. fold (sent_packet p).
  destruct (sent_packet_key p) as (Hqf & Hqi & _).
  unfold startRetransmission, GlobalPacketId_of_packet.
  unfold mbind at 1, M_bind at 1.
  unfold mbind at 1, M_bind at 1. rewrite getFrom_run.
  unfold mbind at 1, M_bind at 1. rewrite stopRetransmission_run.
  run_monad. rewrite Hqf, Hqi, Hf, insert_delete_eq.
  rewrite Flood_send_run. unfold with_trace. simpl.
  by rewrite <- app_assoc.
Qed.

(** X17. We send a packet with [want_ack] whose [from] is our node number
    (not 0, as from the phone).  Then a packet addressed to us whose
    [request_id] is the id of that packet, be it an ack or a nak and whether
    or not it wants an ack itself, takes the packet out of the table,
    together with any older record under the same key, and no later tick
    brings it back.  With id 0 the reply is neither an ack nor a nak, and
    the record stays. *)
Theorem send_then_reply (now : Z) (p a : MeshPacket) (c : option Routing)
    (currentReply : option MeshPacket) (st : Router) :
  want_ack p = true ->
  from p = myNodeNum st ->
  to a = myNodeNum st ->
  request_id a = id p ->
  let q := sent_packet p in
  let key := (from p, id p) in
  let st1 := (send now p st).2 in
  let st2 := (sniffReceived currentReply a c st1).2 in
  pending st1 = <[ key := {| packet := q;
                             nextTxMsec := u32 (now + getRetransmissionMsec q);
                             numRetransmissions := 2 |} ]> (pending st) /\
  (id p <> 0 ->
     pending st2 = delete key (pending st) /\
     forall now', pending (doRetransmissions now' st2).2 !! key = None) /\
  (id p = 0 -> pending st2 = pending st1).
Proof.
  intros Hw Hf Hto Hreq. cbv zeta.
  assert (Hg : (if from p =? 0 then myNodeNum st else from p) = from p)
    by (rewrite Hf; by destruct (_ =? _)).
  rewrite (send_want_ack_run now p st Hw Hg). cbn [snd pending].
  split; [done|].
  match goal with |- context [sniffReceived currentReply a c ?s] =>
    set (st1 := s) end.
  assert (Hp2 : pending (sniffReceived currentReply a c st1).2 =
                if id p =? 0 then pending st1
                else delete (from p, id p) (pending st)).
  { unfold sniffReceived. run_monad. rewrite Hto, Z.eqb_refl.
    destruct (want_ack a), currentReply as [reply|]; simpl;
      destruct (ackId_nakId_cases a c) as [[-> ->]|[-> ->]]; simpl;
      rewrite Hreq; destruct (id p =? 0) eqn:Hz; simpl;
      rewrite ?stopRetransmission_run; simpl;
      rewrite <- ?Hf, ?delete_insert_eq; done. }
  split.
  - intros Hid. rewrite (proj2 (Z.eqb_neq _ _) Hid) in Hp2.
    split; [done|]. intros now'.
    destruct (doRetransmissions_tick now'
                (sniffReceived currentReply a c st1).2) as [-> _].
    by rewrite lookup_omap, Hp2, lookup_delete_eq.
  - intros Hid. by rewrite Hid in Hp2.
Qed.

(** *** The implicit ack, once *)

Lemma shouldFilterReceived_own p st :
  to p = NODENUM_BROADCAST ->
  from p = myNodeNum st ->
  pending (shouldFilterReceived p st).2 = delete (from p, id p) (pending st) /\
  myNodeNum (shouldFilterReceived p st).2 = myNodeNum st.
Proof.
  intros Hto Hfrom.
  assert (Hg : (if from p =? 0 then from p else from p) = from p)
    by (by destruct (from p =? 0)).
  run_all.
  rewrite Hto, <- Hfrom, !Z.eqb_refl. simpl. rewrite <- !Hfrom, !Hg.
  destruct (pending st !! (from p, id p)) as [old|] eqn:Hk; simpl.
  - done.
  - by rewrite delete_id.
Qed.

Lemma shouldFilterReceived_unknown p st :
  pending st !! (from p, id p) = None ->
  from p = myNodeNum st ->
  shouldFilterReceived p st =
    (FloodingRouter_shouldFilterReceived (trace st) p,
     with_trace st [EvFloodFilter p]).
Proof.
  intros Hk Hfrom.
  assert (Hg : (if from p =? 0 then from p else from p) = from p)
    by (by destruct (from p =? 0)).
  run_all. rewrite <- Hfrom, Z.eqb_refl.
  destruct (to p =? NODENUM_BROADCAST); simpl; [|done].
  rewrite <- Hfrom, Hg. by rewrite Hk.
Qed.

(** X18. The implicit ack is given once: after we have heard one of our
    broadcasts come back, hearing it again only asks the flooding router;
    no record is left to stop, nothing is released and no second ack is
    sent. *)
Theorem shouldFilterReceived_ack_once (p : MeshPacket) (st : Router) :
  to p = NODENUM_BROADCAST ->
  from p = myNodeNum st ->
  let st1 := (shouldFilterReceived p st).2 in
  shouldFilterReceived p st1 =
    (FloodingRouter_shouldFilterReceived (trace st1) p,
     with_trace st1 [EvFloodFilter p]).
Proof.
  intros Hto Hfrom. cbv zeta.
  destruct (shouldFilterReceived_own p st Hto Hfrom) as [Hp Hm].
  apply shouldFilterReceived_unknown.
  - by rewrite Hp, lookup_delete_eq.
  - by rewrite Hm.
Qed.

(** *** The clock rolls over *)

(** X19. The deadline is compared as an unsigned number.  A record whose
    deadline lies 2^31 ms or more above the clock, as after the clock has
    wrapped around, is not due: the tick leaves it as it is, and the delay
    it answers is negative. *)
Theorem doRetransmissions_clock_rollover (now : Z) (st : Router)
    (key : Z * Z) (e : PendingPacket) :
  pending st !! key = Some e ->
  0 <= now ->
  now + 2 ^ 31 <= nextTxMsec e < 2 ^ 32 ->
  let r := (doRetransmissions now st).1 in
  let st' := (doRetransmissions now st).2 in
  pending st' !! key = Some e /\ r < 0.
Proof.
  intros Hk Hnow He. cbv zeta.
  destruct (doRetransmissions_tick now st) as [Hp Hr].
  assert (Hk' : pending (doRetransmissions now st).2 !! key = Some e).
  { rewrite Hp, lookup_omap, Hk. simpl. unfold tick_entry.
    destruct (Z.leb_spec (nextTxMsec e) now); [lia|done]. }
  split; [done|].
  specialize (Hr key e Hk').
  assert (Hneg : to_int32 (nextTxMsec e - now) < 0).
  { unfold to_int32. rewrite u32_small by lia.
    destruct (Z.ltb_spec (nextTxMsec e - now) (2 ^ 31)); lia. }
  lia.
Qed.

(** X20. [setNextTx] adds the retransmission delay to the clock in 32 bits.
    When the sum passes 2^32 the deadline wraps to a time before now, so
    that a tick at the very instant of [send] already finds the record due
    and spends an attempt. *)
Theorem send_before_rollover (now : Z) (p : MeshPacket) (st : Router) :
  want_ack p = true ->
  from p = myNodeNum st ->
  let q := sent_packet p in
  let d := getRetransmissionMsec q in
  0 <= now < 2 ^ 32 ->
  0 <= d <= 2 ^ 32 ->
  2 ^ 32 <= now + d ->
  let st1 := (send now p st).2 in
  let st2 := (doRetransmissions now st1).2 in
  pending st1 !! (from p, id p) =
    Some {| packet := q; nextTxMsec := now + d - 2 ^ 32;
            numRetransmissions := 2 |} /\
  pending st2 !! (from p, id p) =
    Some {| packet := q; nextTxMsec := now + d - 2 ^ 32;
            numRetransmissions := 1 |}.
Proof.
  intros Hw Hf q d Hnow Hd Hsum. cbv zeta.
  assert (Hg : (if from p =? 0 then myNodeNum st else from p) = from p)
    by (rewrite Hf; by destruct (_ =? _)).
  assert (Hu : u32 (now + d) = now + d - 2 ^ 32).
  { unfold u32. symmetry. apply (Z.mod_unique _ _ 1); lia. }
  rewrite (send_want_ack_run now p st Hw Hg). cbn [snd pending].
  fold q. fold d. rewrite Hu, lookup_insert_eq. split; [done|].
  match goal with |- pending (doRetransmissions now ?s).2 !! _ = _ =>
    destruct (doRetransmissions_tick now s) as (-> & _) end.
  cbn [pending]. rewrite lookup_omap, lookup_insert_eq. simpl.
  unfold tick_entry. simpl.
  destruct (Z.leb_spec (now + d - 2 ^ 32) now); [|lia].
  unfold setNextTx. simpl. fold q. fold d. by rewrite Hu.
Qed.

End Facts.

(** The scenario of C1 on the concrete substrate, with a packet from the
    phone. *)
Lemma doRetransmissions_nak_on_exhaustion_witness :
  let H := demo_substrate in
  let p := demo_phone_packet in
  let st0 := Router_init 0x1234 in
  let st3 := (doRetransmissions 2000
               (doRetransmissions 1000 (send 0 p st0).2).2).2 in
  let st4 := (doRetransmissions 3000 st3).2 in
  (want_ack p = true /\ pending st0 = ∅ /\
   u32 (0 + 1000) <= 1000 /\ u32 (1000 + 1000) <= 2000 /\
   u32 (2000 + 1000) <= 3000) /\
  pending st4 = ∅ /\
  exists nak,
    trace st4 = trace st3 ++ [EvSendLocal nak; EvRelease (sent_packet p)] /\
    payload nak =
      PayloadRouting {| error_reason := Routing_Error_MAX_RETRANSMIT |} /\
    to nak = 0x1234 /\ request_id nak = 0xBB.
Proof.
  intros H p st0 st3 st4.
  assert (Hyp : want_ack p = true /\ pending st0 = ∅ /\
                u32 (0 + 1000) <= 1000 /\ u32 (1000 + 1000) <= 2000 /\
                u32 (2000 + 1000) <= 3000).
  { repeat split; try reflexivity; vm_compute; discriminate. }
  split; [exact Hyp|].
  destruct Hyp as (Hw & Hp & H1 & H2 & H3).
  destruct (@doRetransmissions_nak_on_exhaustion H p st0 0 1000 2000 3000
              Hw Hp H1 H2 H3) as (_ & _ & _ & (He & nak & Hn) & _).
  split; [exact He|]. exists nak. exact Hn.
Defined.

(** The implicit-ack scenario of the design document: node 0x1234 hears its
    broadcast 0xAA come back. *)
Lemma shouldFilterReceived_implicit_ack_witness :
  let H := demo_substrate in
  let p := demo_broadcast in
  let st := (send 0 p (Router_init 0x1234)).2 in
  let st' := (shouldFilterReceived p st).2 in
  (to p = NODENUM_BROADCAST /\ from p = myNodeNum st) /\
  pending st' = delete (from p, id p) (pending st) /\
  exists ack,
    trace st' = trace st ++
      [EvRelease (sent_packet p); EvSendLocal ack; EvFloodFilter p] /\
    to ack = 0x1234 /\ request_id ack = 0xAA /\
    payload ack = PayloadRouting {| error_reason := Routing_Error_NONE |}.
Proof.
  intros H p st st'.
  assert (Hyp : to p = NODENUM_BROADCAST /\ from p = myNodeNum st)
    by (split; reflexivity).
  split; [exact Hyp|]. destruct Hyp as [Hto Hfrom].
  destruct (@shouldFilterReceived_implicit_ack H p st Hto Hfrom)
    as (Hpend & Hsome & _).
  split; [exact Hpend|].
  destruct (Hsome {| packet := sent_packet p; nextTxMsec := 1000;
                     numRetransmissions := 2 |})
    as (ack & Htr & Ht & Hi & Hpl & _); [reflexivity|].
  exists ack. auto.
Defined.

(** C1 (as stated) fails: with three due ticks the nak has already been sent
    on the third, so that a fourth tick sends none; and for a packet from
    the phone the nak goes to our own node number, not to [packet.from]. *)
Lemma nak_on_fourth_tick_counterexample :
  let H := demo_substrate in
  let p := demo_phone_packet in
  let st3 := (doRetransmissions 2000
               (doRetransmissions 1000
                 (send 0 p (Router_init 0x1234)).2).2).2 in
  let st4 := (doRetransmissions 3000 st3).2 in
  let st5 := (doRetransmissions 4000 st4).2 in
  ~ nak_on_tick st4 st5 /\
  nak_on_tick st3 st4 /\
  forall nak evs, trace st4 = trace st3 ++ EvSendLocal nak :: evs ->
    to nak <> from p.
Proof.
  intros H p st3 st4 st5. repeat apply conj.
  - intros (nak & evs & Htr & _).
    apply (f_equal length) in Htr. rewrite length_app in Htr.
    vm_compute in Htr. discriminate.
  - eexists _, _. split; vm_compute; reflexivity.
  - intros nak evs Htr. vm_compute in Htr.
    injection Htr as <- _. vm_compute. discriminate.
Qed.

(** Node 0x1234 sends its broadcast 0xAA and a neighbour acks it. *)
Lemma send_then_reply_witness :
  let H := demo_substrate in
  let p := demo_broadcast in
  let c := Some Routing_init_default in
  let st := Router_init 0x1234 in
  let st1 := (send 0 p st).2 in
  let st2 := (sniffReceived None demo_reply c st1).2 in
  pending st1 !! (0x1234, 0xAA) =
    Some {| packet := sent_packet p; nextTxMsec := 1000;
            numRetransmissions := 2 |} /\
  pending st2 = ∅ /\
  pending (doRetransmissions 5000 st2).2 !! (0x1234, 0xAA) = None.
Proof.
  intros H p c st st1 st2.
  assert (Hid : id p <> 0) by discriminate.
  destruct (@send_then_reply H 0 p demo_reply c None st
              eq_refl eq_refl eq_refl eq_refl) as (Hp1 & Hp2 & _).
  destruct (Hp2 Hid) as [Hdel Hlater].
  split; [|split].
  - unfold st1. rewrite Hp1. apply lookup_insert_eq.
  - unfold st2, st1. rewrite Hdel. apply delete_empty.
  - apply Hlater.
Defined.

(** The broadcast 0xAA comes back twice. *)
Lemma shouldFilterReceived_ack_once_witness :
  let H := demo_substrate in
  let p := demo_broadcast in
  let st := (send 0 p (Router_init 0x1234)).2 in
  let st1 := (shouldFilterReceived p st).2 in
  shouldFilterReceived p st1 = (false, with_trace st1 [EvFloodFilter p]).
Proof.
  intros H p st st1.
  exact (@shouldFilterReceived_ack_once H p st eq_refl eq_refl).
Defined.

(** A record due 5 ms before the clock wraps, seen 3 ms after. *)
Lemma doRetransmissions_clock_rollover_witness :
  let H := demo_substrate in
  let p := demo_broadcast in
  let st := (send (2 ^ 32 - 1005) p (Router_init 0x1234)).2 in
  let e := {| packet := sent_packet p; nextTxMsec := 2 ^ 32 - 5;
              numRetransmissions := 2 |} in
  pending st !! (0x1234, 0xAA) = Some e /\
  pending (doRetransmissions 3 st).2 !! (0x1234, 0xAA) = Some e /\
  (doRetransmissions 3 st).1 < 0.
Proof.
  intros H p st e.
  assert (Hk : pending st !! (0x1234, 0xAA) = Some e)
    by (vm_compute; reflexivity).
  split; [exact Hk|].
  assert (Hnow : 0 <= 3) by lia.
  assert (He : 3 + 2 ^ 31 <= nextTxMsec e < 2 ^ 32) by (simpl; lia).
  exact (@doRetransmissions_clock_rollover H 3 st (0x1234, 0xAA) e
           Hk Hnow He).
Defined.

(** A send 500 ms before the clock wraps, with a delay of one second. *)
Lemma send_before_rollover_witness :
  let H := demo_substrate in
  let p := demo_broadcast in
  let now := 2 ^ 32 - 500 in
  let st1 := (send now p (Router_init 0x1234)).2 in
  let st2 := (doRetransmissions now st1).2 in
  pending st1 !! (0x1234, 0xAA) =
    Some {| packet := sent_packet p; nextTxMsec := 500;
            numRetransmissions := 2 |} /\
  pending st2 !! (0x1234, 0xAA) =
    Some {| packet := sent_packet p; nextTxMsec := 500;
            numRetransmissions := 1 |}.
Proof.
  intros H p now st1 st2.
  assert (Hnow : 0 <= now < 2 ^ 32) by (unfold now; lia).
  assert (Hd : 0 <= getRetransmissionMsec (sent_packet p) <= 2 ^ 32)
    by (simpl; lia).
  assert (Hsum : 2 ^ 32 <= now + getRetransmissionMsec (sent_packet p))
    by (unfold now; simpl; lia).
  exact (@send_before_rollover H now p (Router_init 0x1234)
           eq_refl eq_refl Hnow Hd Hsum).
Defined.

End ReliableRouterFacts.

(** ** The node database *)

Module NodeDBFacts.
Import NodeDB.

(** *** Running NodeDB code *)

Ltac run_N :=
  unfold mbind, mret, N_bind, N_ret, get, modify, eff, upd, assert; simpl.

Lemma getNode_Some d n i :
  getNode d n = Some i ->
  (i < length (node_db d))%nat /\ (i < node_db_count d)%nat /\
  num (node_at d i) = n.
Proof.
  unfold getNode, node_at. intros Hg.
  destruct (list_find _ _) as [[j x]|] eqn:Hf; [|discriminate].
  injection Hg as ->. apply list_find_Some in Hf as (Hl & Hn & _).
  apply lookup_take_Some in Hl as [Hl Hlt].
  split; [by eapply lookup_lt_Some|]. split; [done|].
  by rewrite (list_lookup_total_correct _ _ _ Hl).
Qed.

Lemma getNumOnlineNodes_fold now l : forall acc,
  fold_left
    (fun numseen n =>
       if sinceLastSeen now n <? NUM_ONLINE_SECS then numseen + 1
       else numseen) l acc =
  acc + Z.of_nat (length (filter
          (fun n => sinceLastSeen now n < NUM_ONLINE_SECS) l)).
Proof.
  induction l as [|n l IH]; intros acc; simpl; [lia|].
  rewrite IH, filter_cons.
  destruct (sinceLastSeen now n <? NUM_ONLINE_SECS) eqn:E.
  - apply Z.ltb_lt in E. rewrite decide_True by done. simpl. lia.
  - apply Z.ltb_ge in E. rewrite decide_False by lia. done.
Qed.

(** *** Liveness and position reports *)

(** C4.  [getNumOnlineNodes] counts the records heard less than
    [NUM_ONLINE_SECS] seconds ago, and that constant is [60 * 2 = 120], not
    the two hours (7200 s) of its comment and of the design document: a
    peer heard 200 seconds ago is not counted. *)
Theorem getNumOnlineNodes_two_minutes :
  (forall now d,
     getNumOnlineNodes now d =
       Z.of_nat (length (filter (fun n => sinceLastSeen now n < 120)
                           (take (node_db_count d) (node_db d))))) /\
  getNumOnlineNodes 1200 demo_directory = 0 /\
  spec_getNumOnlineNodes 1200 demo_directory = 1.
Proof.
  split; [|split; reflexivity].
  intros now d. unfold getNumOnlineNodes.
  rewrite getNumOnlineNodes_fold. reflexivity.
Qed.

Lemma getOrCreateNode_cases hw n g i g1 :
  length (node_db (devicestate g)) = MAX_NUM_NODES hw ->
  getOrCreateNode hw n g = Done (i, g1) ->
  (i < length (node_db (devicestate g1)))%nat /\
  ((getNode (devicestate g) n = Some i /\ g1 = g) \/
   (getNode (devicestate g) n = None /\
    i = node_db_count (devicestate g) /\
    node_at (devicestate g1) i = NodeInfo_new n)).
Proof.
  intros Hlen Hrun. unfold getOrCreateNode in Hrun.
  unfold mbind at 1, N_bind at 1, get in Hrun.
  destruct (getNode (devicestate g) n) as [j|] eqn:Hg.
  - injection Hrun as <- <-.
    split; [by destruct (getNode_Some _ _ _ Hg)|]. by left.
  - unfold mbind, N_bind, assert, upd, modify, mret, N_ret in Hrun.
    case_bool_decide as Hlt; [|discriminate].
    injection Hrun as <- <-. simpl. rewrite length_insert.
    split; [lia|]. right. split; [done|]. split; [done|].
    unfold node_at. simpl. apply list_lookup_total_insert_eq. lia.
Qed.

(** C5.  [updatePosition] finds or creates the record of the node and
    merges the report into it: the time only when the report has one and
    the record has none, the battery level only when the report has one,
    latitude and longitude together when either is non-zero; it leaves the
    rest of the record alone and sets [has_position]. *)
Theorem updatePosition_partial_merge (hw : Platform)
    (nodeId : NodeNum) (p : Position) (g g1 : Globals) (i : nat) :
  length (node_db (devicestate g)) = MAX_NUM_NODES hw ->
  getOrCreateNode hw nodeId g = Done (i, g1) ->
  let old := node_at (devicestate g1) i in
  (forall j, getNode (devicestate g) nodeId = Some j ->
     j = i /\ old = node_at (devicestate g) j) /\
  (getNode (devicestate g) nodeId = None -> old = NodeInfo_new nodeId) /\
  exists g',
    updatePosition hw nodeId p g = Done (tt, g') /\
    let new := node_at (devicestate g') i in
    time (position new) =
      (if (time (position old) =? 0) && negb (time p =? 0)
       then time p else time (position old)) /\
    battery_level (position new) =
      (if negb (battery_level p =? 0)
       then battery_level p else battery_level (position old)) /\
    (latitude_i (position new), longitude_i (position new)) =
      (if negb (latitude_i p =? 0) || negb (longitude_i p =? 0)
       then (latitude_i p, longitude_i p)
       else (latitude_i (position old), longitude_i (position old))) /\
    altitude (position new) = altitude (position old) /\
    has_position new = true /\
    num new = num old /\ user new = user old /\ has_user new = has_user old /\
    snr new = snr old.
Proof.
  intros Hlen Hfind old.
  destruct (getOrCreateNode_cases _ _ _ _ _ Hlen Hfind) as [Hi Hcases].
  split; [|split].
  - intros j Hj. destruct Hcases as [[Hg ->]|[Hg _]]; [|congruence].
    split; [congruence|]. subst old. congruence.
  - intros Hn. destruct Hcases as [[Hg _]|(_ & _ & Hnew)]; [congruence|done].
  - eexists. split.
    + unfold updatePosition. unfold mbind at 1, N_bind at 1.
      rewrite Hfind. run_N. reflexivity.
    + simpl. unfold node_at at 1 2 3 4 5 6 7 8 9 10. simpl.
      rewrite list_lookup_total_insert_eq by done.
      fold old. unfold updatePosition_info.
      destruct ((time (position old) =? 0) && negb (time p =? 0)),
        (negb (battery_level p =? 0)),
        (negb (latitude_i p =? 0) || negb (longitude_i p =? 0)); simpl;
        repeat split; reflexivity.
Qed.

(** The partial-merge example of the design document. *)
Lemma updatePosition_partial_merge_witness :
  let g := upd_devicestate (fun _ => demo_directory) (demo_globals ∅) in
  let p := {| latitude_i := 0; longitude_i := 0; altitude := 0;
              battery_level := 75; time := 0 |} in
  (length (node_db (devicestate g)) = MAX_NUM_NODES demo_hw /\
   getOrCreateNode demo_hw 0x42 g = Done (0%nat, g)) /\
  position (node_at (devicestate g) 0) =
    {| latitude_i := 50; longitude_i := 60; altitude := 0;
       battery_level := 80; time := 1000 |} /\
  exists g',
    updatePosition demo_hw 0x42 p g = Done (tt, g') /\
    let new := node_at (devicestate g') 0 in
    time (position new) = 1000 /\
    battery_level (position new) = 75 /\
    (latitude_i (position new), longitude_i (position new)) = (50, 60) /\
    has_position new = true.
Proof.
  intros g p.
  assert (Hlen : length (node_db (devicestate g)) = MAX_NUM_NODES demo_hw)
    by reflexivity.
  assert (Hg : getOrCreateNode demo_hw 0x42 g = Done (0%nat, g))
    by reflexivity.
  split; [auto|]. split; [reflexivity|].
  destruct (updatePosition_partial_merge demo_hw 0x42 p g g 0 Hlen Hg)
    as (_ & _ & g' & Hrun & Ht & Hb & Hl & _ & Hp & _).
  exists g'. split; [exact Hrun|]. simpl.
  split; [exact Ht|]. split; [exact Hb|]. split; [exact Hl|]. exact Hp.
Defined.

(** *** Node number selection *)

Lemma pickNewNodeNum_loop_free hw fuel : forall r g r' g',
  (forall k, NUM_RESERVED <= random hw k < NODENUM_BROADCAST) ->
  pickNewNodeNum_loop hw fuel r g = Done (r', g') ->
  devicestate g' = devicestate g /\
  in_use (devicestate g) r' = false /\
  (r' = r \/ (in_use (devicestate g) r = true /\
              NUM_RESERVED <= r' < NODENUM_BROADCAST)).
Proof.
  induction fuel as [|fuel IH]; intros r g r' g' Hrand Hrun; simpl in Hrun.
  - destruct (in_use (devicestate g) r) eqn:Hu; [discriminate|].
    injection Hrun as <- <-. auto.
  - destruct (in_use (devicestate g) r) eqn:Hu.
    + apply IH in Hrun as (Hd & Hfree & Hr'); [|done]. simpl in *.
      split; [done|]. split; [done|]. right. split; [done|].
      destruct Hr' as [->|[_ ?]]; [|done].
      rewrite u32_small; [apply Hrand|].
      pose proof (Hrand (random_calls g)). unfold NUM_RESERVED,
        NODENUM_BROADCAST in *. lia.
    + injection Hrun as <- <-. auto.
Qed.

(** The loop ends as soon as a draw is free. *)
Lemma pickNewNodeNum_loop_total hw k : forall fuel r g,
  in_use (devicestate g) (u32 (random hw (random_calls g + k))) = false ->
  (k < fuel)%nat ->
  exists r' g', pickNewNodeNum_loop hw fuel r g = Done (r', g').
Proof.
  induction k as [|k IH]; intros fuel r g Hfree Hlt;
    (destruct fuel as [|fuel]; [lia|]); simpl;
    destruct (in_use (devicestate g) r) eqn:Hu; eauto.
  - rewrite Nat.add_0_r in Hfree.
    destruct fuel; simpl; rewrite Hfree; eauto.
  - apply IH; [|lia]. simpl. by rewrite Nat.add_succ_r in Hfree.
Qed.

(** C9.  When [pickNewNodeNum] completes, [my_node_num] is not the
    broadcast address and not below [NUM_RESERVED]; no record that [getNode]
    finds under it belongs to another MAC address; and if the candidate was
    taken by somebody else, the number lies in
    [NUM_RESERVED, NODENUM_BROADCAST).  The loop completes as soon as a draw
    is free.  [random] is assumed to answer within its bounds. *)
Theorem pickNewNodeNum_valid (hw : Platform) (fuel : nat) (g g' : Globals) :
  (forall k, NUM_RESERVED <= random hw k < NODENUM_BROADCAST) ->
  pickNewNodeNum hw fuel g = Done (tt, g') ->
  let d := devicestate g in
  let r := my_node_num (my_node (devicestate g')) in
  r <> NODENUM_BROADCAST /\ ~ (0 <= r < NUM_RESERVED) /\
  node_db (devicestate g') = node_db d /\
  node_db_count (devicestate g') = node_db_count d /\
  (forall q i, getNode d q = Some i ->
     mac_differs (macaddr (user (node_at d i))) (macaddr (owner d)) = true ->
     r <> q) /\
  (in_use d (candidate g) = true ->
     NUM_RESERVED <= r < NODENUM_BROADCAST /\ r <> candidate g) /\
  (forall k fuel',
     in_use d (u32 (random hw (random_calls g + k))) = false ->
     (k < fuel')%nat ->
     exists g'', pickNewNodeNum hw fuel' g = Done (tt, g'')).
Proof.
  intros Hrand Hrun d r.
  assert (Hcand : candidate g <> NODENUM_BROADCAST /\
                  NUM_RESERVED <= candidate g).
  { unfold candidate.
    destruct (_ || _) eqn:E; [unfold NUM_RESERVED, NODENUM_BROADCAST; lia|].
    apply orb_false_elim in E as [E1 E2].
    apply Z.eqb_neq in E1. apply Z.ltb_ge in E2. done. }
  unfold pickNewNodeNum in Hrun.
  unfold mbind at 1, N_bind at 1, get in Hrun.
  fold (candidate g) in Hrun.
  unfold mbind, N_bind in Hrun.
  destruct (pickNewNodeNum_loop hw fuel (candidate g) g)
    as [[r1 g1]| |] eqn:Hloop; try discriminate.
  injection Hrun as <-.
  destruct (pickNewNodeNum_loop_free _ _ _ _ _ _ Hrand Hloop)
    as (Hd & Hfree & Hr1).
  subst r d. simpl. rewrite Hd.
  assert (Hfree' : forall q i, getNode (devicestate g) q = Some i ->
            mac_differs (macaddr (user (node_at (devicestate g) i)))
              (macaddr (owner (devicestate g))) = true -> r1 <> q).
  { intros q i Hq Hm ->. unfold in_use in Hfree. rewrite Hq in Hfree.
    congruence. }
  repeat apply conj; try done.
  - destruct Hr1 as [->|[_ ?]]; [tauto|lia].
  - destruct Hr1 as [->|[_ ?]]; unfold NUM_RESERVED in *; lia.
  - intros Hu. destruct Hr1 as [->|[_ ?]]; [congruence|].
    split; [done|]. intros ->. congruence.
  - intros k fuel' Hk Hlt.
    destruct (pickNewNodeNum_loop_total hw k fuel' (candidate g) g Hk Hlt)
      as (r' & g'' & Hrun).
    unfold pickNewNodeNum. unfold mbind at 1, N_bind at 1, get.
    fold (candidate g). unfold mbind, N_bind. rewrite Hrun.
    eexists. reflexivity.
Qed.

Lemma demo_random_in_range k :
  NUM_RESERVED <= random demo_hw k < NODENUM_BROADCAST.
Proof.
  simpl. unfold NUM_RESERVED, NODENUM_BROADCAST.
  pose proof (Z.mod_pos_bound (Z.of_nat k) 0x1000). lia.
Qed.

(** The node-number conflict of the design document: peer 0x42 has another
    MAC address than ours, which also yields 0x42. *)
Lemma pickNewNodeNum_valid_witness :
  let g := demo_conflict in
  in_use (devicestate g) (candidate g) = true /\
  candidate g = 0x42 /\
  exists g',
    pickNewNodeNum demo_hw 1 g = Done (tt, g') /\
    let r := my_node_num (my_node (devicestate g')) in
    r <> NODENUM_BROADCAST /\ ~ (0 <= r < NUM_RESERVED) /\
    NUM_RESERVED <= r < NODENUM_BROADCAST /\ r <> 0x42.
Proof.
  intros g.
  assert (Hu : in_use (devicestate g) (candidate g) = true) by reflexivity.
  split; [exact Hu|]. split; [reflexivity|].
  eexists. split; [vm_compute; reflexivity|].
  destruct (pickNewNodeNum_valid demo_hw 1 g _ demo_random_in_range eq_refl)
    as (H1 & H2 & _ & _ & _ & H3 & _).
  destruct (H3 Hu) as [H4 H5].
  split; [exact H1|]. split; [exact H2|]. split; [exact H4|]. exact H5.
Defined.

(** *** Load *)

Lemma loadFromDisk_absent hw fuel g :
  files g !! preffile = None ->
  loadFromDisk hw fuel g =
    Done (tt, add_effect (EffFsOpen preffile false) g).
Proof.
  intros Hf. unfold loadFromDisk, FS_open_read. run_N. by rewrite Hf.
Qed.

Lemma loadFromDisk_present hw fuel g bytes :
  files g !! preffile = Some bytes ->
  let ok := (pb_decode hw bytes).1 in
  let d := (pb_decode hw bytes).2 in
  let g1 := upd_devicestate (fun _ => d)
              (add_effect (EffFsOpen preffile false) g) in
  loadFromDisk hw fuel g =
    if negb ok || (version d <? DEVICESTATE_MIN_VER)
    then (installDefaultDeviceState hw fuel;; FS_close preffile) g1
    else Done (tt, add_effect (EffFsClose preffile) g1).
Proof.
  intros Hf. simpl. unfold loadFromDisk, FS_open_read. run_N.
  rewrite Hf. destruct (pb_decode hw bytes) as [[|] d]; simpl.
  - destruct (version d <? DEVICESTATE_MIN_VER); reflexivity.
  - reflexivity.
Qed.

(** *** Save *)

(** C7 (as amended).  [saveToDisk] does nothing at all when [no_save] is
    set; when the staging file cannot be opened it only tried to open it;
    otherwise it stamps the version, writes the encoding to the staging
    file, and either stops there (encoding failed: [db.proto] is as before)
    or removes [db.proto] and renames the staging file to it. *)
Theorem saveToDisk_cases (hw : Platform) (g : Globals) :
  let d' := set_version DEVICESTATE_CUR_VER (devicestate g) in
  let ok := (pb_encode hw d').1 in
  let bytes := (pb_encode hw d').2 in
  (no_save (devicestate g) = true -> saveToDisk hw g = Done (tt, g)) /\
  (no_save (devicestate g) = false -> fs_open_fails g = true ->
     saveToDisk hw g = Done (tt, add_effect (EffFsOpen preftmp true) g)) /\
  (no_save (devicestate g) = false -> fs_open_fails g = false ->
     exists g',
       saveToDisk hw g = Done (tt, g') /\
       devicestate g' = d' /\ version (devicestate g') = 11 /\
       (ok = false ->
          files g' = <[ preftmp := bytes ]> (files g) /\
          files g' !! preffile = files g !! preffile /\
          effects g' = effects g ++
            [EffFsOpen preftmp true; EffFsWrite preftmp bytes;
             EffFsClose preftmp]) /\
       (ok = true ->
          files g' = <[ preffile := bytes ]>
                       (delete preftmp (delete preffile (files g))) /\
          files g' !! preffile = Some bytes /\
          files g' !! preftmp = None /\
          effects g' = effects g ++
            [EffFsOpen preftmp true; EffFsWrite preftmp bytes;
             EffFsClose preftmp; EffFsRemove preffile;
             EffFsRename preftmp preffile])).
Proof.
  simpl. repeat apply conj.
  - intros Hn. unfold saveToDisk. run_N. rewrite Hn. by destruct g.
  - intros Hn Ho. unfold saveToDisk, FS_open_write. run_N.
    rewrite Hn. simpl. by rewrite Ho.
  - intros Hn Ho.
    unfold saveToDisk, FS_open_write, FS_write, FS_close, FS_remove,
      FS_rename. run_N.
    rewrite Hn. simpl. rewrite Ho. simpl.
    destruct (pb_encode hw (set_version DEVICESTATE_CUR_VER (devicestate g)))
      as [[|] bytes] eqn:He; simpl.
    + rewrite insert_insert_eq.
      assert (Hne : preftmp <> preffile) by discriminate.
      rewrite lookup_insert_ne by done.
      destruct (files g !! preffile) as [old|] eqn:Hold; simpl.
      * rewrite lookup_delete_ne, lookup_insert_eq by done. simpl.
        eexists. split; [reflexivity|]. simpl.
        split; [done|]. split; [done|]. split; [discriminate|]. intros _.
        split; [|split; [|split]].
        -- apply map_eq. intros k.
           rewrite !lookup_insert, !lookup_delete, !lookup_insert.
           repeat case_decide; congruence.
        -- by rewrite lookup_insert_eq.
        -- rewrite lookup_insert_ne by done. by rewrite lookup_delete_eq.
        -- by rewrite <- !app_assoc.
      * rewrite lookup_insert_eq. simpl.
        eexists. split; [reflexivity|]. simpl.
        split; [done|]. split; [done|]. split; [discriminate|]. intros _.
        split; [|split; [|split]].
        -- apply map_eq. intros k.
           rewrite !lookup_insert, !lookup_delete, !lookup_insert.
           repeat case_decide; congruence.
        -- by rewrite lookup_insert_eq.
        -- rewrite lookup_insert_ne by done. by rewrite lookup_delete_eq.
        -- by rewrite <- !app_assoc.
    + rewrite insert_insert_eq.
      eexists. split; [reflexivity|]. simpl.
      assert (Hne : preftmp <> preffile) by discriminate.
      split; [done|]. split; [done|]. split; [|discriminate]. intros _.
      split; [done|]. split.
      * by rewrite lookup_insert_ne.
      * by rewrite <- !app_assoc.
Qed.

(** C7 (as stated) fails: with [no_save] clear but the staging file not
    opening, the version is not stamped and nothing is written. *)
Lemma saveToDisk_open_failure_counterexample :
  let g := demo_unsaved true in
  no_save (devicestate g) = false /\
  exists g',
    saveToDisk demo_hw g = Done (tt, g') /\
    version (devicestate g') = 5 /\
    version (devicestate g') <> DEVICESTATE_CUR_VER /\
    files g' = files g /\
    files g' !! preftmp = None.
Proof.
  intros g. split; [reflexivity|]. eexists.
  split; [vm_compute; reflexivity|]. simpl.
  repeat split; try done.
Qed.

(** *** What start-up leaves alone *)

Lemma bind_Done {A B} (m : N A) (k : A -> N B) g b g' :
  (m ≫= k) g = Done (b, g') ->
  exists a g1, m g = Done (a, g1) /\ k a g1 = Done (b, g').
Proof.
  unfold mbind, N_bind. destruct (m g) as [[a g1]| |]; try discriminate.
  eauto.
Qed.

Section Preserving.
Context {T : Type} (P : Globals -> Prop) (proj : Globals -> T).

Lemma preserving_ret {A} (a : A) : preserving P proj (mret a).
Proof. intros g a' g' Hp [= <- <-]. done. Qed.

Lemma preserving_get : preserving P proj get.
Proof. intros g a' g' Hp [= <- <-]. done. Qed.

Lemma preserving_assert b : preserving P proj (assert b).
Proof. intros g a' g' Hp. unfold assert. by destruct b; intros [= <- <-]. Qed.

Lemma preserving_modify f :
  (forall g, P g -> P (f g) /\ proj (f g) = proj g) ->
  preserving P proj (modify f).
Proof. intros Hf g a' g' Hp [= <- <-]. by apply Hf. Qed.

Lemma preserving_bind {A B} (m : N A) (k : A -> N B) :
  preserving P proj m -> (forall a, preserving P proj (k a)) ->
  preserving P proj (m ≫= k).
Proof.
  intros Hm Hk g b g' Hp Hrun.
  apply bind_Done in Hrun as (a & g1 & H1 & H2).
  destruct (Hm _ _ _ Hp H1) as [Hp1 E1].
  destruct (Hk a _ _ _ Hp1 H2) as [Hp2 E2].
  split; [done|]. by rewrite E2.
Qed.

End Preserving.

Create HintDb pres discriminated.

Ltac pres side :=
  repeat first
    [ apply preserving_ret | apply preserving_get | apply preserving_assert
    | solve [eauto 3 with pres nocore]
    | apply preserving_bind; [|intros ?]
    | apply preserving_modify; side
    | progress cbv beta zeta
    | match goal with
      | |- preserving _ _ (if ?c then _ else _) => destruct c
      | |- preserving _ _ (match ?x with Some _ => _ | None => _ end) =>
          destruct x
      end ].

Ltac side_errs :=
  unfold no_reset, errs; intros ? ?; simpl; split; [assumption|reflexivity].

Ltac side_files := intros ? _; split; [exact I|reflexivity].

Lemma pickNewNodeNum_loop_preserving {T} (P : Globals -> Prop)
    (proj : Globals -> T) hw fuel :
  (forall g k, P g -> P (set_random_calls k g) /\
                      proj (set_random_calls k g) = proj g) ->
  forall r, preserving P proj (pickNewNodeNum_loop hw fuel r).
Proof.
  intros Hset. induction fuel as [|fuel IH]; intros r g a g' Hp Hrun;
    simpl in Hrun; destruct (in_use (devicestate g) r);
    try discriminate; try (injection Hrun as <- <-; done).
  destruct (Hset g (S (random_calls g)) Hp) as [Hp1 E1].
  destruct (IH _ _ _ _ Hp1 Hrun) as [Hp2 E2].
  split; [done|]. by rewrite E2.
Qed.

Lemma pickNewNodeNum_loop_errs hw fuel r :
  preserving no_reset errs (pickNewNodeNum_loop hw fuel r).
Proof. apply pickNewNodeNum_loop_preserving. intros g k Hp. done. Qed.

Lemma pickNewNodeNum_loop_files hw fuel r :
  preserving (fun _ => True) files (pickNewNodeNum_loop hw fuel r).
Proof. apply pickNewNodeNum_loop_preserving. intros g k Hp. done. Qed.

#[local] Hint Resolve pickNewNodeNum_loop_errs pickNewNodeNum_loop_files
  : pres.

Lemma pickNewNodeNum_errs hw fuel :
  preserving no_reset errs (pickNewNodeNum hw fuel).
Proof. unfold pickNewNodeNum, upd. pres side_errs. Qed.

Lemma pickNewNodeNum_files hw fuel :
  preserving (fun _ => True) files (pickNewNodeNum hw fuel).
Proof. unfold pickNewNodeNum, upd. pres side_files. Qed.

Lemma getOrCreateNode_errs hw n :
  preserving no_reset errs (getOrCreateNode hw n).
Proof. unfold getOrCreateNode, upd. pres side_errs. Qed.

#[local] Hint Resolve pickNewNodeNum_errs pickNewNodeNum_files
  getOrCreateNode_errs : pres.

(** Unless a factory reset is asked for, [resetRadioConfig] leaves the
    error record alone, whatever [install] is. *)
Lemma resetRadioConfig_body_errs hw install :
  preserving no_reset errs (resetRadioConfig_body hw install).
Proof.
  intros g a g' Hp Hrun. unfold resetRadioConfig_body in Hrun.
  unfold mbind, mret, N_bind, N_ret, get, modify, eff, upd in Hrun.
  simpl in Hrun. unfold no_reset in Hp. rewrite Hp in Hrun.
  unfold no_reset, errs.
  destruct (channels_count (devicestate g) =? 0); simpl in Hrun;
    destruct (no_save (devicestate g)); simpl in Hrun;
    injection Hrun as <- <-; simpl; by rewrite ?Hp.
Qed.

Lemma resetRadioConfig_body_files hw install :
  preserving (fun _ => True) files install ->
  preserving (fun _ => True) files (resetRadioConfig_body hw install).
Proof.
  intros Hi. unfold resetRadioConfig_body, eff, upd.
  pres side_files.
Qed.

#[local] Hint Resolve resetRadioConfig_body_errs resetRadioConfig_body_files
  : pres.

(** [installDefaultDeviceState] never touches the filesystem. *)
Lemma installDefaultDeviceState_files hw fuel :
  preserving (fun _ => True) files (installDefaultDeviceState hw fuel).
Proof.
  induction fuel as [|fuel IH]; [by intros g a g' _ ?|].
  cbn [installDefaultDeviceState]. unfold eff, upd.
  pres side_files.
Qed.

Lemma legacy_region_errs hw :
  preserving no_reset errs (modify (upd_devicestate (legacy_region hw))).
Proof.
  apply preserving_modify. intros g Hp. unfold no_reset, errs in *. simpl.
  unfold legacy_region.
  destruct (_ && _); [|done]. by destruct (List.find _ _).
Qed.

#[local] Hint Resolve legacy_region_errs : pres.

Ltac side_shown :=
  intros ? _; split; [exact I|]; unfold shown_errors; simpl;
  rewrite ?omap_app; simpl; rewrite ?app_nil_r; reflexivity.

Lemma pickNewNodeNum_loop_shown hw fuel r :
  preserving (fun _ => True) shown_errors (pickNewNodeNum_loop hw fuel r).
Proof. apply pickNewNodeNum_loop_preserving. intros g k Hp. done. Qed.

#[local] Hint Resolve pickNewNodeNum_loop_shown : pres.

Lemma installDefaultDeviceState_shown hw fuel :
  preserving (fun _ => True) shown_errors (installDefaultDeviceState hw fuel).
Proof.
  induction fuel as [|fuel IH]; [by intros g a g' _ ?|].
  cbn [installDefaultDeviceState].
  unfold resetRadioConfig_body, pickNewNodeNum, eff, upd.
  pres side_shown.
Qed.

#[local] Hint Resolve installDefaultDeviceState_shown : pres.

(** [loadFromDisk] never reports an error. *)
Lemma loadFromDisk_shown hw fuel :
  preserving (fun _ => True) shown_errors (loadFromDisk hw fuel).
Proof.
  unfold loadFromDisk, FS_open_read, FS_close, eff, upd.
  pres side_shown.
  match goal with |- context [pb_decode hw ?b] =>
    destruct (pb_decode hw b) as [ok d] end.
  pres side_shown.
Qed.

(** [installDefaultDeviceState] leaves an empty error record. *)
Lemma installDefaultDeviceState_errs hw fuel g g' :
  installDefaultDeviceState hw fuel g = Done (tt, g') ->
  errs g' = (CriticalErrorCode_None, 0, 0, false).
Proof.
  destruct fuel as [|fuel]; [discriminate|].
  cbn [installDefaultDeviceState]. intros Hrun.
  apply bind_Done in Hrun as (g0 & ? & [= <- <-] & Hrun).
  apply bind_Done in Hrun as ([] & g1 & [= <-] & Hrun).
  apply bind_Done in Hrun as ([] & g2 & [= <-] & Hrun).
  match type of Hrun with ?m ?g2 = _ =>
    assert (K : preserving no_reset errs m);
    [|destruct (K g2 tt g' eq_refl Hrun) as [_ ->]; reflexivity]
  end.
  unfold eff, upd. pres side_errs.
Qed.

(** C6.  After a failed decode [loadFromDisk] reinstalls the defaults, but
    nothing is recorded: [recordCriticalError] is not called (the source has
    a FIXME there), so that no error is shown and [error_count] is 0.  The
    second part runs the code on a file that does not decode. *)
Theorem loadFromDisk_decode_failure_not_recorded :
  (forall hw fuel g g' bytes,
     files g !! preffile = Some bytes ->
     (pb_decode hw bytes).1 = false ->
     loadFromDisk hw fuel g = Done (tt, g') ->
     shown_errors g' = shown_errors g /\
     error_count (my_node (devicestate g')) = 0 /\
     error_code (my_node (devicestate g')) = CriticalErrorCode_None) /\
  (let g := demo_globals {[ preffile := [10] ]} in
   (pb_decode demo_hw [10]).1 = false /\
   exists g',
     loadFromDisk demo_hw 1 g = Done (tt, g') /\
     error_count (my_node (devicestate g')) = 0 /\
     error_code (my_node (devicestate g')) = CriticalErrorCode_None /\
     shown_errors g' = [] /\
     exists g'',
       recordCriticalError (CriticalErrorCode_other 1) 0 g' = Done (tt, g'') /\
       error_count (my_node (devicestate g'')) = 1 /\
       shown_errors g'' = [CriticalErrorCode_other 1]).
Proof.
  split.
  - intros hw fuel g g' bytes Hf Hok Hrun.
    split; [by destruct (loadFromDisk_shown hw fuel g tt g' I Hrun)|].
    rewrite (loadFromDisk_present hw fuel g bytes Hf), Hok in Hrun.
    simpl in Hrun.
    apply bind_Done in Hrun as ([] & g1 & Hinst & [= <-]).
    apply installDefaultDeviceState_errs in Hinst.
    unfold errs in Hinst. simpl. by injection Hinst as -> _ -> _.
  - intros g. split; [reflexivity|].
    eexists. split; [vm_compute; reflexivity|].
    split; [reflexivity|]. split; [reflexivity|]. split; [reflexivity|].
    eexists. split; [vm_compute; reflexivity|]. split; reflexivity.
Qed.

Ltac side_num :=
  unfold valid_node_num; intros ? ?; simpl; split; [assumption|reflexivity].

Lemma pickNewNodeNum_node_num hw fuel g g' :
  random_in_range hw ->
  pickNewNodeNum hw fuel g = Done (tt, g') -> valid_node_num g'.
Proof.
  intros Hrand Hrun. unfold pickNewNodeNum in Hrun.
  apply bind_Done in Hrun as (g0 & ? & [= <- <-] & Hrun).
  apply bind_Done in Hrun as (r & g1 & Hloop & [= <-]).
  fold (candidate g) in Hloop.
  apply pickNewNodeNum_loop_free in Hloop as (_ & _ & Hr); [|done].
  unfold valid_node_num. simpl.
  destruct Hr as [->|[_ Hr]]; [|unfold NUM_RESERVED in *; lia].
  unfold candidate.
  destruct (_ || _) eqn:E; [unfold NUM_RESERVED, NODENUM_BROADCAST; lia|].
  apply orb_false_elim in E as [E1 E2].
  apply Z.eqb_neq in E1. apply Z.ltb_ge in E2. done.
Qed.

Lemma legacy_region_num hw :
  preserving valid_node_num (fun _ => tt)
    (modify (upd_devicestate (legacy_region hw))).
Proof.
  apply preserving_modify. intros g Hp. unfold valid_node_num in *. simpl.
  unfold legacy_region.
  destruct (_ && _); [|done]. by destruct (List.find _ _).
Qed.

Lemma getOrCreateNode_num hw n :
  preserving valid_node_num (fun _ => tt) (getOrCreateNode hw n).
Proof. unfold getOrCreateNode, upd. pres side_num. Qed.

#[local] Hint Resolve legacy_region_num getOrCreateNode_num : pres.

(** [resetRadioConfig] keeps a valid node number if [install] makes one. *)
Lemma resetRadioConfig_body_num hw install :
  (forall g g', install g = Done (tt, g') -> valid_node_num g') ->
  preserving valid_node_num (fun _ => tt) (resetRadioConfig_body hw install).
Proof.
  intros Hi. unfold resetRadioConfig_body, eff, upd.
  assert (Hi' : preserving valid_node_num (fun _ => tt) install).
  { intros g [] g' _ Hrun. split; [by eapply Hi|done]. }
  pres side_num.
Qed.

Lemma installDefaultDeviceState_num hw fuel g g' :
  random_in_range hw ->
  installDefaultDeviceState hw fuel g = Done (tt, g') -> valid_node_num g'.
Proof.
  intros Hrand. destruct fuel as [|fuel]; [discriminate|].
  cbn [installDefaultDeviceState]. intros Hrun.
  apply bind_Done in Hrun as (g0 & ? & [= <- <-] & Hrun).
  apply bind_Done in Hrun as ([] & g1 & _ & Hrun).
  apply bind_Done in Hrun as ([] & g2 & _ & Hrun).
  apply bind_Done in Hrun as (b & g3 & _ & Hrun).
  apply bind_Done in Hrun as ([] & g4 & _ & Hrun).
  apply bind_Done in Hrun as ([] & g5 & _ & Hrun).
  apply bind_Done in Hrun as ([] & g6 & _ & Hrun).
  apply bind_Done in Hrun as ([] & g7 & Hpick & Hrun).
  apply pickNewNodeNum_node_num in Hpick; [|done].
  match type of Hrun with ?m _ = _ =>
    assert (K : preserving valid_node_num (fun _ => tt) m);
    [|by destruct (K g7 tt g' Hpick Hrun)]
  end.
  unfold eff, upd. pres side_num.
Qed.

(** After every start-up that completes, the node number is neither the
    broadcast address nor reserved. *)
Lemma init_node_num hw fuel g g' :
  random_in_range hw ->
  init hw fuel g = Done (tt, g') -> valid_node_num g'.
Proof.
  intros Hrand Hrun. unfold init in Hrun.
  apply bind_Done in Hrun as ([] & g1 & _ & Hrun).
  apply bind_Done in Hrun as ([] & g2 & _ & Hrun).
  apply bind_Done in Hrun as ([] & g3 & _ & Hrun).
  apply bind_Done in Hrun as ([] & g4 & _ & Hrun).
  apply bind_Done in Hrun as ([] & g5 & _ & Hrun).
  apply bind_Done in Hrun as ([] & g6 & Hpick & Hrun).
  apply pickNewNodeNum_node_num in Hpick; [|done].
  match type of Hrun with ?m _ = _ =>
    assert (K : preserving valid_node_num (fun _ => tt) m);
    [|by destruct (K g6 tt g' Hpick Hrun)]
  end.
  assert (Hreset : preserving valid_node_num (fun _ => tt)
            (resetRadioConfig_body hw (installDefaultDeviceState hw fuel))).
  { apply resetRadioConfig_body_num. intros ? ?.
    by apply installDefaultDeviceState_num. }
  unfold resetRadioConfig, eff, upd. pres side_num.
Qed.

Lemma init_tail_errs hw fuel : preserving no_reset errs (init_tail hw fuel).
Proof.
  unfold init_tail, resetRadioConfig, upd.
  pres side_errs.
Qed.

(** C10 (as amended).  [recordCriticalError] stores the code and the
    address and adds one to [error_count]; [init], when it accepts the state
    it loads and no factory reset is asked for, clears the code and the
    address and keeps the loaded [error_count]. *)
Theorem error_count_survives_boot (hw : Platform) :
  (forall code address g,
     exists g',
       recordCriticalError code address g = Done (tt, g') /\
       let m := my_node (devicestate g) in
       let m' := my_node (devicestate g') in
       error_code m' = code /\ error_address m' = address /\
       error_count m' = u32 (error_count m + 1) /\
       (0 <= error_count m < 2 ^ 32 - 1 ->
        error_count m' = error_count m + 1)) /\
  (forall fuel g g' bytes,
     files g !! preffile = Some bytes ->
     (pb_decode hw bytes).1 = true ->
     let d := (pb_decode hw bytes).2 in
     DEVICESTATE_MIN_VER <= version d ->
     factory_reset (preferences (radio d)) = false ->
     init hw fuel g = Done (tt, g') ->
     let m' := my_node (devicestate g') in
     error_count m' = error_count (my_node d) /\
     error_code m' = CriticalErrorCode_None /\
     error_address m' = 0).
Proof.
  split.
  - intros code address g. eexists. split; [reflexivity|]. simpl.
    repeat split. intros Hr. apply u32_small. lia.
  - intros fuel g g' bytes Hf Hok d Hver Hfr Hrun.
    unfold init in Hrun.
    apply bind_Done in Hrun as ([] & g1 & Hinst & Hrun).
    apply bind_Done in Hrun as ([] & g2 & Hload & Hrun).
    destruct (installDefaultDeviceState_files hw fuel g tt g1 I Hinst)
      as [_ Hfiles].
    rewrite (loadFromDisk_present hw fuel g1 bytes) in Hload
      by (by rewrite Hfiles).
    rewrite Hok in Hload. fold d in Hload.
    rewrite (proj2 (Z.ltb_ge _ _) Hver) in Hload. simpl in Hload.
    injection Hload as <-.
    apply bind_Done in Hrun as ([] & g3 & [= <-] & Hrun).
    apply bind_Done in Hrun as ([] & g4 & [= <-] & Hrun).
    change (init_tail hw fuel
              (upd_devicestate
                 (upd_my_node
                    (fun m => set_error CriticalErrorCode_None 0
                                (error_count m) m))
                 (upd_devicestate
                    (upd_my_node (set_max_channels (MAX_NUM_CHANNELS hw)))
                    (add_effect (EffFsClose preffile)
                       (upd_devicestate (fun _ => d)
                          (add_effect (EffFsOpen preffile false) g1)))))
            = Done (tt, g')) in Hrun.
    match type of Hrun with _ ?g4 = _ =>
      assert (Hp : no_reset g4) by exact Hfr end.
    destruct (init_tail_errs hw fuel _ _ _ Hp Hrun) as [_ E].
    unfold errs in E. simpl in E. injection E as E1 E2 E3 _.
    simpl. auto.
Qed.

(** A start-up from a file that holds version 11 and an error count of 5. *)
Lemma error_count_survives_boot_witness :
  let g := demo_globals {[ preffile := [11; 5] ]} in
  (files g !! preffile = Some [11; 5] /\
   (pb_decode demo_hw [11; 5]).1 = true /\
   DEVICESTATE_MIN_VER <= version (pb_decode demo_hw [11; 5]).2 /\
   factory_reset (preferences (radio (pb_decode demo_hw [11; 5]).2)) = false)
  /\
  exists g',
    init demo_hw 2 g = Done (tt, g') /\
    error_count (my_node (devicestate g')) = 5 /\
    error_code (my_node (devicestate g')) = CriticalErrorCode_None /\
    error_address (my_node (devicestate g')) = 0.
Proof.
  intros g.
  assert (H1 : files g !! preffile = Some [11; 5]) by reflexivity.
  assert (H2 : (pb_decode demo_hw [11; 5]).1 = true) by reflexivity.
  assert (H3 : DEVICESTATE_MIN_VER <= version (pb_decode demo_hw [11; 5]).2)
    by (vm_compute; discriminate).
  assert (H4 : factory_reset
                 (preferences (radio (pb_decode demo_hw [11; 5]).2)) = false)
    by reflexivity.
  split; [auto|].
  assert (Hrun : exists g', init demo_hw 2 g = Done (tt, g'))
    by (eexists; vm_compute; reflexivity).
  destruct Hrun as [g' Hrun]. exists g'. split; [exact Hrun|].
  exact (proj2 (error_count_survives_boot demo_hw) 2%nat g g' [11; 5]
           H1 H2 H3 H4 Hrun).
Defined.

(** C10 (as stated) fails: when the saved state is accepted and asks for a
    factory reset, the last step of [init] reinstalls the defaults, and the
    stored [error_count] of 5 is 0 after the start-up. *)
Lemma error_count_factory_reset_counterexample :
  let g := demo_globals {[ preffile := [11; 5] ]} in
  let d := (pb_decode demo_hw_reset [11; 5]).2 in
  (pb_decode demo_hw_reset [11; 5]).1 = true /\
  DEVICESTATE_MIN_VER <= version d /\
  factory_reset (preferences (radio d)) = true /\
  error_count (my_node d) = 5 /\
  exists g',
    init demo_hw_reset 2 g = Done (tt, g') /\
    error_count (my_node (devicestate g')) = 0 /\
    error_count (my_node (devicestate g')) <> error_count (my_node d).
Proof.
  intros g d.
  split; [reflexivity|]. split; [vm_compute; discriminate|].
  split; [reflexivity|]. split; [reflexivity|].
  assert (Hrun : exists g', init demo_hw_reset 2 g = Done (tt, g'))
    by (eexists; vm_compute; reflexivity).
  destruct Hrun as [g' Hrun]. exists g'. split; [exact Hrun|].
  assert (He : error_count (my_node (devicestate g')) = 0).
  { assert (Hc : (init demo_hw_reset 2 g) =
              Done (tt, g') ->
              match init demo_hw_reset 2 g with
              | Done (_, x) => error_count (my_node (devicestate x)) = 0
              | _ => False
              end) by (intros _; vm_compute; reflexivity).
    specialize (Hc Hrun). by rewrite Hrun in Hc. }
  split; [exact He|]. rewrite He. discriminate.
Qed.

(** ** More about the node database *)

(** *** Looking up and creating records *)

Lemma getNode_nums d n :
  getNode d n = fst <$> list_find (fun x => x = n) (nums d).
Proof.
  unfold getNode, nums. rewrite list_find_fmap.
  by destruct (list_find _ _) as [[i x]|].
Qed.

Lemma nums_lookup d i :
  (i < node_db_count d)%nat -> (i < length (node_db d))%nat ->
  nums d !! i = Some (num (node_at d i)).
Proof.
  intros Hc Hl. unfold nums, node_at.
  rewrite list_lookup_fmap, lookup_take_lt by done.
  by rewrite (list_lookup_lookup_total_lt _ _ Hl).
Qed.

Lemma nums_length d :
  (node_db_count d <= length (node_db d))%nat ->
  length (nums d) = node_db_count d.
Proof. intros Hc. unfold nums. rewrite length_fmap, length_take. lia. Qed.

(** [getNode] is a linear scan: it answers the first live record with the
    number, and nothing exactly when no live record has it. *)
Lemma getNode_first d n i :
  (node_db_count d <= length (node_db d))%nat ->
  getNode d n = Some i <->
    (i < node_db_count d)%nat /\ num (node_at d i) = n /\
    forall j, (j < i)%nat -> num (node_at d j) <> n.
Proof.
  intros Hc. rewrite getNode_nums. split.
  - intros Hg. destruct (list_find _ _) as [[j x]|] eqn:Hf; [|discriminate].
    injection Hg as ->. apply list_find_Some in Hf as (Hl & -> & Hmin).
    assert (Hi : (i < node_db_count d)%nat).
    { apply lookup_lt_Some in Hl. by rewrite nums_length in Hl. }
    rewrite nums_lookup in Hl by lia. injection Hl as Hl.
    split; [done|]. split; [done|]. intros j Hj.
    apply (Hmin j); [|done]. apply nums_lookup; lia.
  - intros (Hi & Hn & Hmin).
    assert (Hf : list_find (fun x => x = n) (nums d) = Some (i, n)).
    { apply list_find_Some. split; [|split; [done|]].
      - rewrite nums_lookup by lia. by rewrite Hn.
      - intros j y Hl Hj. rewrite nums_lookup in Hl by lia.
        injection Hl as <-. by apply Hmin. }
    by rewrite Hf.
Qed.

Lemma getNode_None d n : getNode d n = None <-> n ∉ nums d.
Proof.
  rewrite getNode_nums. split.
  - intros Hg Hin. destruct (list_find _ _) as [[j x]|] eqn:Hf;
      [discriminate|].
    eapply list_find_None, Forall_forall in Hf; [|exact Hin]. by apply Hf.
  - intros Hn. destruct (list_find _ _) as [[j x]|] eqn:Hf; [|done].
    apply list_find_Some in Hf as (Hl & -> & _).
    exfalso. apply Hn. by eapply list_elem_of_lookup_2.
Qed.

Lemma getOrCreateNode_run hw n g :
  getOrCreateNode hw n g =
    match getNode (devicestate g) n with
    | Some i => Done (i, g)
    | None =>
        let d := devicestate g in
        if bool_decide (node_db_count d < MAX_NUM_NODES hw)%nat
        then Done (node_db_count d,
                   upd_devicestate
                     (set_nodes (<[ node_db_count d := NodeInfo_new n ]>
                                   (node_db d))
                        (S (node_db_count d))) g)
        else AssertFailed
    end.
Proof.
  unfold getOrCreateNode. run_N.
  destruct (getNode (devicestate g) n); [done|].
  by case_bool_decide.
Qed.

Lemma nums_create d n :
  (node_db_count d < length (node_db d))%nat ->
  nums (set_nodes (<[ node_db_count d := NodeInfo_new n ]> (node_db d))
          (S (node_db_count d)) d) = nums d ++ [n].
Proof.
  intros Hc. unfold nums. simpl.
  rewrite (take_S_r _ _ (NodeInfo_new n))
    by (by apply list_lookup_insert_eq).
  rewrite take_insert_ge by done. by rewrite fmap_app.
Qed.

(** X1.  [getOrCreateNode] stops on its assertion exactly when the number is
    unknown and the table is full; otherwise it completes. *)
Theorem getOrCreateNode_full (hw : Platform) (n : NodeNum) (g : Globals) :
  (getOrCreateNode hw n g = AssertFailed <->
     getNode (devicestate g) n = None /\
     (MAX_NUM_NODES hw <= node_db_count (devicestate g))%nat) /\
  getOrCreateNode hw n g <> OutOfFuel.
Proof.
  rewrite getOrCreateNode_run.
  destruct (getNode (devicestate g) n) as [i|]; simpl.
  - split; [|done]. split; [done|]. by intros [? _].
  - case_bool_decide; (split; [|done]); split; try done.
    + intros [_ ?]. lia.
    + intros _. split; [done|lia].
Qed.

Lemma getOrCreateNode_ok (hw : Platform)
    (n : NodeNum) (g g' : Globals) (i : nat) :
  directory_ok hw (devicestate g) ->
  getOrCreateNode hw n g = Done (i, g') ->
  getNode (devicestate g') n = Some i /\
  directory_ok hw (devicestate g') /\
  getOrCreateNode hw n g' = Done (i, g').
Proof.
  intros (Hlen & Hcount & Hnd) Hrun.
  rewrite getOrCreateNode_run in Hrun.
  destruct (getNode (devicestate g) n) as [j|] eqn:Hg.
  - injection Hrun as <- <-.
    split; [done|]. split; [done|]. by rewrite getOrCreateNode_run, Hg.
  - simpl in Hrun. case_bool_decide as Hlt; [|discriminate].
    injection Hrun as <- <-. simpl.
    set (d := devicestate g) in *.
    set (d' := set_nodes (<[node_db_count d:=NodeInfo_new n]> (node_db d))
                 (S (node_db_count d)) d).
    assert (Hnums : nums d' = nums d ++ [n]) by (apply nums_create; lia).
    assert (Hfresh : n ∉ nums d) by (by apply getNode_None).
    assert (Hlenn : length (nums d) = node_db_count d)
      by (apply nums_length; lia).
    assert (Hfind : getNode d' n = Some (node_db_count d)).
    { rewrite getNode_nums, Hnums.
      rewrite list_find_app_r
        by (rewrite getNode_nums in Hg; by destruct (list_find _ (nums d))).
      simpl. rewrite decide_True by done. simpl. by rewrite Hlenn. }
    split; [done|]. split.
    + unfold directory_ok. rewrite Hnums. unfold d'. simpl.
      rewrite length_insert. split; [done|]. split; [lia|].
      apply NoDup_app. split; [done|]. split; [|apply NoDup_singleton].
      intros x Hx Hin. apply list_elem_of_singleton in Hin. by subst.
    + rewrite getOrCreateNode_run.
      change (devicestate (upd_devicestate _ g)) with d'. by rewrite Hfind.
Qed.

(** X2.  After [getOrCreateNode] the number is found at the index it
    answered, every other number is found where it was, the records that
    existed are untouched and the directory stays well formed; a record it
    creates is empty but for the number, and a second call answers the same
    index and changes nothing. *)
Theorem getOrCreateNode_lookup (hw : Platform)
    (n : NodeNum) (g g' : Globals) (i : nat) :
  directory_ok hw (devicestate g) ->
  getOrCreateNode hw n g = Done (i, g') ->
  let d := devicestate g in
  let d' := devicestate g' in
  getNode d' n = Some i /\
  (forall m, m <> n -> getNode d' m = getNode d m) /\
  (forall j, (j < node_db_count d)%nat -> node_at d' j = node_at d j) /\
  (getNode d n = None ->
     node_at d' i = NodeInfo_new n /\
     node_db_count d' = S (node_db_count d)) /\
  (forall j, getNode d n = Some j -> g' = g) /\
  directory_ok hw d' /\
  getOrCreateNode hw n g' = Done (i, g').
Proof.
  intros Hok Hrun.
  destruct (getOrCreateNode_ok hw n g g' i Hok Hrun) as (Hfind & Hok' & Hagain).
  destruct Hok as (Hlen & Hcount & Hnd). simpl.
  rewrite getOrCreateNode_run in Hrun.
  destruct (getNode (devicestate g) n) as [j|] eqn:Hg.
  - injection Hrun as <- <-. repeat apply conj; try done.
  - simpl in Hrun. case_bool_decide as Hlt; [|discriminate].
    injection Hrun as <- <-. simpl in *.
    set (d := devicestate g) in *.
    assert (Hnums : nums (set_nodes
                      (<[node_db_count d:=NodeInfo_new n]> (node_db d))
                      (S (node_db_count d)) d) = nums d ++ [n])
      by (apply nums_create; lia).
    repeat apply conj; try done; try (by destruct Hok' as (? & ? & ?)).
    + intros m Hm. rewrite !getNode_nums, Hnums.
      destruct (list_find (λ x, x = m) (nums d)) as [[k x]|] eqn:Hf.
      * by rewrite (list_find_app_l _ _ _ _ _ Hf).
      * rewrite list_find_app_r by done. simpl.
        by rewrite decide_False by done.
    + intros j Hj. unfold node_at. simpl.
      apply list_lookup_total_insert_ne. lia.
    + intros _. split; [|done]. unfold node_at. simpl.
      apply list_lookup_total_insert_eq. lia.
Qed.

(** *** Updating a record in place *)

Lemma nums_upd_node i f d :
  (forall x, num (f x) = num x) -> nums (upd_node i f d) = nums d.
Proof.
  intros Hf. unfold nums, upd_node, node_at. simpl.
  rewrite !fmap_take, list_fmap_insert, Hf.
  rewrite list_insert_id'; [done|]. intros Hi.
  rewrite list_lookup_fmap.
  rewrite length_fmap in Hi.
  by rewrite (list_lookup_lookup_total_lt _ _ Hi).
Qed.

Lemma getNode_upd_node i f d n :
  (forall x, num (f x) = num x) ->
  getNode (upd_node i f d) n = getNode d n.
Proof. intros Hf. by rewrite !getNode_nums, nums_upd_node. Qed.

Lemma node_at_upd_node i j f d :
  (i < length (node_db d))%nat ->
  node_at (upd_node i f d) j =
    if decide (i = j) then f (node_at d i) else node_at d j.
Proof.
  intros Hi. unfold upd_node, node_at. simpl. case_decide as Hij.
  - subst. by apply list_lookup_total_insert_eq.
  - by apply list_lookup_total_insert_ne.
Qed.

Lemma directory_ok_upd_node hw i f d :
  (forall x, num (f x) = num x) ->
  directory_ok hw d -> directory_ok hw (upd_node i f d).
Proof.
  intros Hf (Hlen & Hc & Hnd). unfold directory_ok.
  rewrite nums_upd_node by done. unfold upd_node at 1 2. simpl.
  by rewrite length_insert.
Qed.

Lemma num_updatePosition_info p x : num (updatePosition_info p x) = num x.
Proof.
  unfold updatePosition_info.
  by destruct (_ && _), (negb (battery_level p =? 0)), (_ || _).
Qed.

Lemma updatePosition_run hw n p g i g1 :
  getOrCreateNode hw n g = Done (i, g1) ->
  updatePosition hw n p g =
    Done (tt, add_effect (EffNotifyObservers true)
                (add_effect (EffUpdateGUIforNode n)
                   (upd_devicestate (upd_node i (updatePosition_info p)) g1))).
Proof.
  intros Hrun. unfold updatePosition. unfold mbind at 1, N_bind at 1.
  by rewrite Hrun.
Qed.

(** X3.  [updatePosition] touches one record only: every other record, the
    index of every number and the rest of the device state are as
    [getOrCreateNode] left them, the directory stays well formed, and the
    user interface and the observers are told once. *)
Theorem updatePosition_frame (hw : Platform)
    (n : NodeNum) (p : Position) (g g1 g' : Globals) (i : nat) :
  directory_ok hw (devicestate g) ->
  getOrCreateNode hw n g = Done (i, g1) ->
  updatePosition hw n p g = Done (tt, g') ->
  let d1 := devicestate g1 in
  let d' := devicestate g' in
  (forall j, j <> i -> node_at d' j = node_at d1 j) /\
  (forall m, getNode d' m = getNode d1 m) /\
  getNode d' n = Some i /\
  node_db_count d' = node_db_count d1 /\
  (my_node d', owner d', radio d', version d', no_save d') =
    (my_node d1, owner d1, radio d1, version d1, no_save d1) /\
  files g' = files g /\
  effects g' = effects g ++ [EffUpdateGUIforNode n; EffNotifyObservers true] /\
  directory_ok hw d'.
Proof.
  intros Hok Hfind Hrun. simpl.
  destruct (getOrCreateNode_ok hw n g g1 i Hok Hfind) as (Hi & Hok1 & _).
  rewrite (updatePosition_run _ _ _ _ _ _ Hfind) in Hrun.
  injection Hrun as <-. simpl.
  assert (Hlt : (i < length (node_db (devicestate g1)))%nat).
  { apply getNode_first in Hi as (Hi & _); destruct Hok1 as (? & ? & _); lia. }
  assert (Hg : files g1 = files g /\ effects g1 = effects g).
  { rewrite getOrCreateNode_run in Hfind.
    destruct (getNode (devicestate g) n); [by injection Hfind as _ <-|].
    simpl in Hfind. case_bool_decide; [|discriminate].
    by injection Hfind as _ <-. }
  destruct Hg as [Hfiles Heff].
  repeat apply conj; try done.
  - intros j Hj. rewrite node_at_upd_node by done.
    by rewrite decide_False by done.
  - intros m. apply getNode_upd_node, num_updatePosition_info.
  - rewrite getNode_upd_node by apply num_updatePosition_info. done.
  - rewrite Heff, <- app_assoc. done.
  - destruct Hok1 as (? & ? & ?). unfold upd_node. simpl.
    by rewrite length_insert.
  - by destruct Hok1 as (? & ? & ?).
  - rewrite nums_upd_node by apply num_updatePosition_info.
    by destruct Hok1 as (? & ? & ?).
Qed.

(** *** Position reports and received packets *)

Lemma time_updatePosition_info p x :
  time (position x) <> 0 ->
  time (position (updatePosition_info p x)) = time (position x) /\
  has_position (updatePosition_info p x) = true.
Proof.
  intros Ht. unfold updatePosition_info.
  rewrite (proj2 (Z.eqb_neq _ _) Ht). simpl.
  by destruct (negb (battery_level p =? 0)), (_ || _).
Qed.

(** X4.  Once a record has a time, no sequence of position reports changes
    it, whatever times the reports carry; each report completes and finds
    the record at the same index. *)
Theorem updatePosition_keeps_time (hw : Platform) (n : NodeNum)
    (ps : list Position) (g : Globals) (i : nat) :
  directory_ok hw (devicestate g) ->
  getNode (devicestate g) n = Some i ->
  time (position (node_at (devicestate g) i)) <> 0 ->
  exists g',
    sequence (updatePosition hw n <$> ps) g = Done (tt, g') /\
    getNode (devicestate g') n = Some i /\
    time (position (node_at (devicestate g') i)) =
      time (position (node_at (devicestate g) i)) /\
    directory_ok hw (devicestate g').
Proof.
  revert g. induction ps as [|p ps IH]; intros g Hok Hg Ht.
  - exists g. split; [reflexivity|]. auto.
  - assert (Hfind : getOrCreateNode hw n g = Done (i, g))
      by (by rewrite getOrCreateNode_run, Hg).
    assert (Hlt : (i < length (node_db (devicestate g)))%nat).
    { destruct Hok as (? & ? & _).
      apply getNode_first in Hg as (? & _); lia. }
    pose proof (updatePosition_run hw n p g i g Hfind) as Hrun.
    set (g1 := add_effect _ _) in Hrun.
    destruct (time_updatePosition_info p (node_at (devicestate g) i) Ht)
      as [Ht1 _].
    assert (Hat : node_at (devicestate g1) i =
                  updatePosition_info p (node_at (devicestate g) i)).
    { unfold g1. simpl. rewrite node_at_upd_node by done.
      by rewrite decide_True. }
    destruct (IH g1) as (g' & Hseq & Hg' & Ht' & Hok').
    + unfold g1. simpl. apply directory_ok_upd_node; [|done].
      apply num_updatePosition_info.
    + unfold g1. simpl.
      rewrite getNode_upd_node by apply num_updatePosition_info. done.
    + rewrite Hat. congruence.
    + exists g'. split.
      * simpl. unfold mbind, N_bind. by rewrite Hrun.
      * split; [done|]. split; [|done]. rewrite Ht', Hat. done.
Qed.

Lemma updateFrom_run hw mp g i g1 :
  rx_decoded mp = true ->
  getOrCreateNode hw
    (if rx_from mp =? 0 then my_node_num (my_node (devicestate g))
     else rx_from mp) g = Done (i, g1) ->
  updateFrom hw mp g =
    Done (tt,
          upd_devicestate (upd_node i (set_snr (rx_snr mp)))
            (if rx_time mp =? 0 then g1
             else upd_devicestate
                    (upd_node i (fun info =>
                       upd_position (set_time (rx_time mp))
                         (set_has_position true info))) g1)).
Proof.
  intros Hd Hfind. unfold updateFrom, getFrom. rewrite Hd.
  unfold mbind at 1, N_bind at 1. unfold mbind at 1, N_bind at 1, get.
  unfold mret at 1, N_ret at 1. unfold mbind, N_bind. rewrite Hfind.
  by destruct (rx_time mp =? 0).
Qed.

Lemma snr_updatePosition_info p x : snr (updatePosition_info p x) = snr x.
Proof.
  unfold updatePosition_info.
  by destruct (_ && _), (negb (battery_level p =? 0)), (_ || _).
Qed.

(** X5.  [updateFrom] ignores a packet that is not decoded; from a decoded
    one it finds or creates the sender ([my_node_num] for a packet of the
    phone) and always stores the packet's [rx_snr] in the record; when the
    packet has a receive time, it also overwrites the record's time with it,
    even a known one, and sets [has_position]; with no receive time nothing
    but [snr] changes. *)
Theorem updateFrom_time (hw : Platform) (mp : RxPacket) (g : Globals) :
  directory_ok hw (devicestate g) ->
  let n := if rx_from mp =? 0 then my_node_num (my_node (devicestate g))
           else rx_from mp in
  (rx_decoded mp = false -> updateFrom hw mp g = Done (tt, g)) /\
  (rx_decoded mp = true ->
   forall i g1, getOrCreateNode hw n g = Done (i, g1) ->
     exists g',
       updateFrom hw mp g = Done (tt, g') /\
       getNode (devicestate g') n = Some i /\
       directory_ok hw (devicestate g') /\
       let old := node_at (devicestate g1) i in
       let new := node_at (devicestate g') i in
       snr new = rx_snr mp /\
       num new = num old /\ user new = user old /\
       has_user new = has_user old /\
       (rx_time mp <> 0 ->
          time (position new) = rx_time mp /\ has_position new = true) /\
       (rx_time mp = 0 ->
          g' = upd_devicestate (upd_node i (set_snr (rx_snr mp))) g1 /\
          position new = position old /\
          has_position new = has_position old)).
Proof.
  intros Hok n. split.
  - intros Hd. unfold updateFrom. by rewrite Hd.
  - intros Hd i g1 Hfind.
    destruct (getOrCreateNode_ok hw n g g1 i Hok Hfind) as (Hi & Hok1 & _).
    assert (Hlt : (i < length (node_db (devicestate g1)))%nat).
    { destruct Hok1 as (? & ? & _).
      apply getNode_first in Hi as (? & _); lia. }
    eexists. split; [by apply updateFrom_run|].
    destruct (rx_time mp =? 0) eqn:Ez.
    + apply Z.eqb_eq in Ez. simpl.
      rewrite getNode_upd_node by done.
      split; [done|]. split; [by apply directory_ok_upd_node|].
      rewrite node_at_upd_node by done. rewrite decide_True by done.
      simpl. repeat split; done.
    + apply Z.eqb_neq in Ez. simpl.
      rewrite !getNode_upd_node by done.
      split; [done|].
      split; [by do 2 (apply directory_ok_upd_node; [done|])|].
      rewrite node_at_upd_node by (simpl; by rewrite length_insert).
      rewrite decide_True by done.
      rewrite node_at_upd_node by done. rewrite decide_True by done.
      simpl. repeat split; done.
Qed.

(** X6.  The time of reception wins over the time of a report: after
    [updateFrom] of a decoded packet with a receive time, a position report
    for the sender keeps that time, whatever time the report carries, and
    it keeps the [snr] that [updateFrom] stored. *)
Theorem updateFrom_then_updatePosition (hw : Platform) (mp : RxPacket)
    (p : Position) (g g1 : Globals) (i : nat) :
  directory_ok hw (devicestate g) ->
  rx_decoded mp = true ->
  rx_time mp <> 0 ->
  let n := if rx_from mp =? 0 then my_node_num (my_node (devicestate g))
           else rx_from mp in
  getOrCreateNode hw n g = Done (i, g1) ->
  exists g',
    (updateFrom hw mp;; updatePosition hw n p) g = Done (tt, g') /\
    getNode (devicestate g') n = Some i /\
    time (position (node_at (devicestate g') i)) = rx_time mp /\
    has_position (node_at (devicestate g') i) = true /\
    snr (node_at (devicestate g') i) = rx_snr mp.
Proof.
  intros Hok Hd Ht n Hfind.
  destruct (getOrCreateNode_ok hw n g g1 i Hok Hfind) as (Hi & Hok1 & _).
  assert (Hlt : (i < length (node_db (devicestate g1)))%nat).
  { destruct Hok1 as (? & ? & _).
    apply getNode_first in Hi as (? & _); lia. }
  pose proof (updateFrom_run hw mp g i g1 Hd Hfind) as Hrun.
  rewrite (proj2 (Z.eqb_neq _ _) Ht) in Hrun.
  set (stamp := fun info => upd_position (set_time (rx_time mp))
                              (set_has_position true info)) in Hrun.
  set (g2 := upd_devicestate (upd_node i (set_snr (rx_snr mp)))
               (upd_devicestate (upd_node i stamp) g1)) in Hrun.
  assert (Hi2 : getNode (devicestate g2) n = Some i).
  { unfold g2. simpl. by rewrite !getNode_upd_node. }
  assert (Hlt2 : (i < length (node_db (devicestate g2)))%nat).
  { unfold g2. simpl. by rewrite !length_insert. }
  assert (Hat2 : node_at (devicestate g2) i =
                 set_snr (rx_snr mp) (stamp (node_at (devicestate g1) i))).
  { unfold g2. simpl.
    rewrite node_at_upd_node by (simpl; by rewrite length_insert).
    rewrite decide_True by done.
    rewrite node_at_upd_node by done. by rewrite decide_True. }
  assert (Hf : getOrCreateNode hw n g2 = Done (i, g2))
    by (by rewrite getOrCreateNode_run, Hi2).
  eexists. split.
  { unfold mbind, N_bind. rewrite Hrun.
    apply (updatePosition_run hw n p g2 i g2 Hf). }
  cbn [devicestate add_effect upd_devicestate].
  rewrite getNode_upd_node by apply num_updatePosition_info.
  split; [done|].
  rewrite node_at_upd_node by done.
  rewrite decide_True by done. rewrite Hat2.
  rewrite snr_updatePosition_info.
  assert (Hne : time (position (set_snr (rx_snr mp)
                                  (stamp (node_at (devicestate g1) i)))) <> 0)
    by done.
  destruct (time_updatePosition_info p _ Hne) as [-> ->]. done.
Qed.

(** *** User records *)

Lemma upd_node_id i f d :
  (i < length (node_db d))%nat ->
  f (node_at d i) = node_at d i -> upd_node i f d = d.
Proof.
  intros Hi Hf. unfold upd_node. rewrite Hf. unfold node_at, set_nodes.
  rewrite list_insert_id by (by apply list_lookup_lookup_total_lt).
  by destruct d.
Qed.

Lemma upd_devicestate_id g : upd_devicestate (fun d => d) g = g.
Proof. by destruct g. Qed.

(** X7.  [updateUser] stores the user record it is given and sets
    [has_user], and leaves the position, the [snr] and the number of the
    record and the index of every number alone.  It signals (display, power
    state machine, observers) exactly when [memcmp] finds the stored struct
    and the new one different: always when a field differs, and otherwise
    only when they differ in a byte behind the end of a string.  Given the
    same struct again, which agrees with the stored copy byte for byte, it
    changes nothing and signals nothing. *)
Theorem updateUser_signals (hw : Platform) (n : NodeNum) (p : User)
    (slack_differs : bool) (g g1 : Globals) (i : nat) :
  directory_ok hw (devicestate g) ->
  getOrCreateNode hw n g = Done (i, g1) ->
  let old := node_at (devicestate g1) i in
  let changed := negb (bool_decide (user old = p)) || slack_differs in
  exists g',
    updateUser hw n p slack_differs g = Done (changed, g') /\
    (user old <> p -> changed = true) /\
    (user old = p -> changed = slack_differs) /\
    let new := node_at (devicestate g') i in
    user new = p /\ has_user new = true /\
    position new = position old /\ has_position new = has_position old /\
    num new = n /\ snr new = snr old /\
    (forall m, getNode (devicestate g') m = getNode (devicestate g1) m) /\
    effects g' = effects g1 ++
      (if changed then [EffUpdateGUIforNode n; EffNotifyObservers true]
       else []) /\
    directory_ok hw (devicestate g') /\
    updateUser hw n p false g' = Done (false, g').
Proof.
  intros Hok Hfind old changed.
  destruct (getOrCreateNode_ok hw n g g1 i Hok Hfind)
    as (Hi & Hok1 & Hagain).
  assert (Hlt : (i < length (node_db (devicestate g1)))%nat).
  { destruct Hok1 as (? & ? & _).
    apply getNode_first in Hi as (? & _); lia. }
  assert (Hnum : num old = n).
  { destruct Hok1 as (? & ? & _).
    apply getNode_first in Hi as (_ & ? & _); [done|lia]. }
  set (g2 := upd_devicestate (upd_node i (set_user p)) g1).
  assert (Hat : node_at (devicestate g2) i = set_user p old).
  { unfold g2. simpl. rewrite node_at_upd_node by done.
    by rewrite decide_True. }
  assert (Hi2 : getNode (devicestate g2) n = Some i).
  { unfold g2. simpl. by rewrite getNode_upd_node. }
  assert (Hrun : updateUser hw n p slack_differs g =
            Done (changed,
                  if changed
                  then add_effect (EffNotifyObservers true)
                         (add_effect (EffUpdateGUIforNode n) g2)
                  else g2)).
  { unfold updateUser. unfold mbind at 1, N_bind at 1. rewrite Hfind.
    run_N. fold old. fold changed. by destruct changed. }
  eexists. split; [exact Hrun|].
  split.
  { intros Hne. unfold changed. by rewrite bool_decide_eq_false_2. }
  split.
  { intros He. unfold changed. by rewrite bool_decide_eq_true_2. }
  assert (Hd : devicestate (if changed
                  then add_effect (EffNotifyObservers true)
                         (add_effect (EffUpdateGUIforNode n) g2)
                  else g2) = devicestate g2) by (by destruct changed).
  simpl. rewrite Hd, Hat. simpl.
  repeat apply conj; try done.
  - intros m. unfold g2. simpl. by apply getNode_upd_node.
  - destruct changed; simpl; [by rewrite <- app_assoc|by rewrite app_nil_r].
  - unfold g2. simpl. destruct Hok1 as (? & ? & ?). unfold upd_node. simpl.
    by rewrite length_insert.
  - by destruct Hok1 as (? & ? & ?).
  - unfold g2. simpl. rewrite nums_upd_node by done.
    by destruct Hok1 as (? & ? & ?).
  - match goal with |- updateUser hw n p false ?x = _ => set (g3 := x) end.
    assert (Hd3 : devicestate g3 = devicestate g2) by exact Hd.
    assert (Hf3 : getOrCreateNode hw n g3 = Done (i, g3)).
    { rewrite getOrCreateNode_run, Hd3, Hi2. done. }
    unfold updateUser. unfold mbind at 1, N_bind at 1. rewrite Hf3.
    run_N. rewrite Hd3, Hat. simpl.
    rewrite bool_decide_eq_true_2 by done. simpl.
    f_equal. f_equal.
    rewrite <- (upd_devicestate_id g3) at 2.
    unfold upd_devicestate. rewrite Hd3.
    rewrite upd_node_id; [by rewrite <- Hd3| |].
    + unfold g2. simpl. unfold upd_node. simpl. by rewrite length_insert.
    + rewrite Hat. done.
Qed.

(** *** Reading the directory out *)

Lemma readNextInfo_all_from d k : forall m rp,
  (node_db_count d <= length (node_db d))%nat ->
  (rp + m = node_db_count d)%nat ->
  readNextInfo_all (m + k) rp d =
    (drop rp (take (node_db_count d) (node_db d)), node_db_count d).
Proof.
  induction m as [|m IH]; intros rp Hc Hrp.
  - assert (rp = node_db_count d) as -> by lia.
    rewrite drop_ge by (rewrite length_take; lia).
    destruct k as [|k]; simpl; [done|].
    unfold readNextInfo. by rewrite bool_decide_eq_false_2 by lia.
  - simpl. unfold readNextInfo at 1.
    rewrite bool_decide_eq_true_2 by lia.
    rewrite (IH (S rp)) by lia.
    f_equal. symmetry. apply drop_S.
    rewrite lookup_take_lt by lia.
    apply list_lookup_lookup_total_lt. lia.
Qed.

(** X8.  A reader that starts with the cursor at 0 and calls [readNextInfo]
    until it answers nothing gets the live records, each once and in order,
    and none of the unused slots; from then on every call answers nothing
    and leaves the cursor where it is. *)
Theorem readNextInfo_enumerates (d : DeviceState) (k : nat) :
  (node_db_count d <= length (node_db d))%nat ->
  readNextInfo_all (node_db_count d + k) 0 d =
    (take (node_db_count d) (node_db d), node_db_count d) /\
  (forall rp, (node_db_count d <= rp)%nat -> readNextInfo rp d = (None, rp)).
Proof.
  intros Hc. split.
  - by rewrite (readNextInfo_all_from d k (node_db_count d) 0).
  - intros rp Hrp. unfold readNextInfo.
    by rewrite bool_decide_eq_false_2 by lia.
Qed.

(** *** Liveness *)

Lemma u32_neg x : - 2 ^ 32 <= x < 0 -> u32 x = x + 2 ^ 32.
Proof.
  intros Hx. unfold u32. rewrite <- (Z.mod_add x 1) by lia.
  apply Z.mod_small. lia.
Qed.

(** X9.  [sinceLastSeen] reads the 32-bit difference of the clock and the
    time of the record as a signed number.  It is the age of the record in
    seconds while that is below [2 ^ 31]; it is 0 for an age of [2 ^ 31]
    seconds or more and for a time up to [2 ^ 31] seconds ahead of the
    clock; a time further ahead wraps to the age [now - t + 2 ^ 32].  The
    result is never negative and below [2 ^ 31], and [getNumOnlineNodes]
    never exceeds the number of live records. *)
Theorem sinceLastSeen_clamped (now : Z) (n : NodeInfo) (d : DeviceState) :
  0 <= now < 2 ^ 32 ->
  0 <= time (position n) < 2 ^ 32 ->
  let t := time (position n) in
  (t <= now < t + 2 ^ 31 -> sinceLastSeen now n = now - t) /\
  (t + 2 ^ 31 <= now -> sinceLastSeen now n = 0) /\
  (now < t <= now + 2 ^ 31 -> sinceLastSeen now n = 0) /\
  (now + 2 ^ 31 < t -> sinceLastSeen now n = now - t + 2 ^ 32) /\
  0 <= sinceLastSeen now n < 2 ^ 31 /\
  0 <= getNumOnlineNodes now d <= Z.of_nat (node_db_count d).
Proof.
  intros Hnow Ht t. fold t in Ht.
  assert (Hu : 0 <= u32 (now - t) < 2 ^ 32)
    by (unfold u32; apply Z.mod_pos_bound; lia).
  unfold sinceLastSeen, to_int32. fold t.
  repeat apply conj.
  - intros H. rewrite (u32_small (now - t)) by lia.
    destruct (Z.ltb_spec (now - t) (2 ^ 31)); [|lia].
    destruct (Z.ltb_spec (now - t) 0); [lia|]. apply u32_small. lia.
  - intros H. rewrite (u32_small (now - t)) by lia.
    destruct (Z.ltb_spec (now - t) (2 ^ 31)); [lia|].
    destruct (Z.ltb_spec (now - t - 2 ^ 32) 0); [|lia]. reflexivity.
  - intros H. rewrite (u32_neg (now - t)) by lia.
    destruct (Z.ltb_spec (now - t + 2 ^ 32) (2 ^ 31)); [lia|].
    destruct (Z.ltb_spec (now - t + 2 ^ 32 - 2 ^ 32) 0); [|lia]. reflexivity.
  - intros H. rewrite (u32_neg (now - t)) by lia.
    destruct (Z.ltb_spec (now - t + 2 ^ 32) (2 ^ 31)); [|lia].
    destruct (Z.ltb_spec (now - t + 2 ^ 32) 0); [lia|]. apply u32_small. lia.
  - destruct (Z.ltb_spec (u32 (now - t)) (2 ^ 31)).
    + destruct (Z.ltb_spec (u32 (now - t)) 0); [lia|].
      rewrite u32_small; lia.
    + destruct (Z.ltb_spec (u32 (now - t) - 2 ^ 32) 0); [done|lia].
  - destruct (Z.ltb_spec (u32 (now - t)) (2 ^ 31)).
    + destruct (Z.ltb_spec (u32 (now - t)) 0); [lia|].
      rewrite u32_small; lia.
    + destruct (Z.ltb_spec (u32 (now - t) - 2 ^ 32) 0); [done|lia].
  - unfold getNumOnlineNodes. rewrite getNumOnlineNodes_fold. lia.
  - unfold getNumOnlineNodes. rewrite getNumOnlineNodes_fold.
    pose proof (length_filter
      (fun n0 => NodeDB.sinceLastSeen now n0 < NUM_ONLINE_SECS)
      (take (node_db_count d) (node_db d))) as Hf.
    rewrite length_take in Hf. lia.
Qed.

(** *** Defaults *)

Lemma pickNewNodeNum_loop_not_in_use hw fuel r g :
  in_use (devicestate g) r = false ->
  pickNewNodeNum_loop hw fuel r g = Done (r, g).
Proof. intros Hu. destruct fuel; simpl; by rewrite Hu. Qed.

Lemma pickNewNodeNum_free hw fuel g :
  in_use (devicestate g) (candidate g) = false ->
  pickNewNodeNum hw fuel g =
    Done (tt, upd_devicestate (upd_my_node (set_my_node_num (candidate g))) g).
Proof.
  intros Hu. unfold pickNewNodeNum.
  unfold mbind at 1, N_bind at 1, get. fold (candidate g).
  unfold mbind, N_bind. by rewrite pickNewNodeNum_loop_not_in_use.
Qed.

Lemma in_use_empty d r : node_db_count d = 0%nat -> in_use d r = false.
Proof. intros Hc. unfold in_use, getNode. by rewrite Hc. Qed.

Opaque hex.

(** X10. [installDefaultDeviceState] completes with one unit of fuel from
    every state: after the [memset] no factory reset is requested, so
    [resetRadioConfig] does not call back, and the empty directory lets
    [pickNewNodeNum] take its first candidate without a random draw.  The
    result has an empty directory, no error count, the node number derived
    from the MAC address of the board, the owner identity built from them,
    the default channels, and both old region settings whenever they were
    set; the files are untouched. *)
Theorem installDefaultDeviceState_defaults hw fuel g :
  exists g',
    installDefaultDeviceState hw (S fuel) g = Done (tt, g') /\
    let d := devicestate g in
    let d' := devicestate g' in
    let r := mac_nodenum (getMacAddr hw) in
    node_db_count d' = 0%nat /\
    error_count (my_node d') = 0 /\
    factory_reset (preferences (radio d')) = false /\
    no_save d' = false /\
    my_node_num (my_node d') =
      (if (r =? NODENUM_BROADCAST) || (r <? NUM_RESERVED)
       then NUM_RESERVED else r) /\
    macaddr (owner d') = take 6 (getMacAddr hw) /\
    id (owner d') = ("!" +:+ hex false 8 (my_node_num (my_node d')))%string /\
    channels d' = default_channels hw /\
    pref_region (preferences (radio d')) =
      pref_region (preferences (radio d)) /\
    region (my_node d') = region (my_node d) /\
    files g' = files g /\
    random_calls g' = random_calls g /\
    radioGeneration g' = u32 (radioGeneration g + 1).
Proof.
  cbn [installDefaultDeviceState]. unfold resetRadioConfig_body.
  unfold mbind, mret, N_bind, N_ret, get, modify, eff, upd. simpl.
  rewrite pickNewNodeNum_free by (by apply in_use_empty).
  unfold candidate. simpl.
  destruct (pref_region (preferences (radio (devicestate g)))) eqn:Hr;
    destruct (region (my_node (devicestate g))) eqn:Hs; simpl;
    (eexists; split; [reflexivity|]); simpl; repeat split; done.
Qed.

Lemma installDefaultDeviceState_fresh hw fuel g g' :
  installDefaultDeviceState hw fuel g = Done (tt, g') ->
  let d' := devicestate g' in
  sized hw d' /\ node_db_count d' = 0%nat /\ no_save d' = false /\
  factory_reset (preferences (radio d')) = false.
Proof.
  destruct fuel as [|fuel]; [discriminate|].
  cbn [installDefaultDeviceState]. unfold resetRadioConfig_body.
  unfold mbind, mret, N_bind, N_ret, get, modify, eff, upd. simpl.
  rewrite pickNewNodeNum_free by (by apply in_use_empty).
  unfold sized.
  destruct (pref_region (preferences (radio (devicestate g)))) eqn:Hr;
    destruct (region (my_node (devicestate g))) eqn:Hs; simpl;
    intros [= <-]; simpl; rewrite length_replicate;
    (repeat split; lia).
Qed.

Lemma installDefaultDeviceState_total hw fuel g :
  exists g',
    installDefaultDeviceState hw (S fuel) g = Done (tt, g') /\
    radioGeneration g' = u32 (radioGeneration g + 1) /\
    files g' = files g /\
    sized hw (devicestate g') /\
    node_db_count (devicestate g') = 0%nat /\
    no_save (devicestate g') = false /\
    factory_reset (preferences (radio (devicestate g'))) = false.
Proof.
  assert (H : exists g', installDefaultDeviceState hw (S fuel) g = Done (tt, g')
                         /\ radioGeneration g' = u32 (radioGeneration g + 1)
                         /\ files g' = files g).
  { cbn [installDefaultDeviceState]. unfold resetRadioConfig_body.
    unfold mbind, mret, N_bind, N_ret, get, modify, eff, upd. simpl.
    rewrite pickNewNodeNum_free by (by apply in_use_empty).
    destruct (pref_region (preferences (radio (devicestate g)))) eqn:Hr;
      destruct (region (my_node (devicestate g))) eqn:Hs; simpl;
      (eexists; split; [reflexivity|]); simpl; done. }
  destruct H as (g' & Hrun & Hg & Hf). exists g'.
  destruct (installDefaultDeviceState_fresh _ _ _ _ Hrun) as (? & ? & ? & ?).
  done.
Qed.

Transparent hex.


(** *** Save, then load *)

Lemma saveToDisk_written hw g bytes :
  no_save (devicestate g) = false ->
  fs_open_fails g = false ->
  pb_encode hw (set_version DEVICESTATE_CUR_VER (devicestate g))
    = (true, bytes) ->
  exists g',
    saveToDisk hw g = Done (tt, g') /\
    devicestate g' = set_version DEVICESTATE_CUR_VER (devicestate g) /\
    files g' !! preffile = Some bytes /\
    files g' !! preftmp = None /\
    ourMacAddr g' = ourMacAddr g /\
    radioGeneration g' = radioGeneration g /\
    random_calls g' = random_calls g.
Proof.
  intros Hn Ho He.
  unfold saveToDisk, FS_open_write, FS_write, FS_close, FS_remove, FS_rename.
  run_N. rewrite Hn. simpl. rewrite Ho. simpl. rewrite He. simpl.
  rewrite insert_insert_eq.
  assert (Hne : preftmp <> preffile) by discriminate.
  rewrite lookup_insert_ne by done.
  destruct (files g !! preffile) as [old|] eqn:Hold; simpl.
  - rewrite lookup_delete_ne, lookup_insert_eq by done. simpl.
    eexists. split; [reflexivity|]. simpl.
    rewrite lookup_insert_eq, lookup_insert_ne, lookup_delete_eq by done.
    done.
  - rewrite lookup_insert_eq. simpl.
    eexists. split; [reflexivity|]. simpl.
    rewrite lookup_insert_eq, lookup_insert_ne, lookup_delete_eq by done.
    done.
Qed.

(** X11. A state that is saved and loaded again comes back as it was, with
    the current version stamped, when the serializer writes it and reads its
    own output back: the load needs no fuel, because it accepts the file and
    installs no defaults; afterwards [db.proto] holds the encoding and the
    staging file is gone. *)
Theorem saveToDisk_then_loadFromDisk hw fuel g bytes :
  no_save (devicestate g) = false ->
  fs_open_fails g = false ->
  let d' := set_version DEVICESTATE_CUR_VER (devicestate g) in
  pb_encode hw d' = (true, bytes) ->
  pb_decode hw bytes = (true, d') ->
  exists g',
    (saveToDisk hw;; loadFromDisk hw fuel) g = Done (tt, g') /\
    devicestate g' = d' /\
    files g' !! preffile = Some bytes /\
    files g' !! preftmp = None /\
    ourMacAddr g' = ourMacAddr g /\
    radioGeneration g' = radioGeneration g /\
    random_calls g' = random_calls g.
Proof.
  intros Hn Ho d' He Hd.
  destruct (saveToDisk_written hw g bytes Hn Ho He)
    as (g1 & Hsave & Hd1 & Hf1 & Ht1 & Hm1 & Hr1 & Hc1).
  unfold mbind, N_bind. rewrite Hsave.
  rewrite (loadFromDisk_present hw fuel g1 bytes Hf1), Hd. simpl.
  eexists. split; [reflexivity|]. simpl. done.
Qed.

Lemma saveToDisk_then_loadFromDisk_witness :
  let g := upd_devicestate (fun _ => (demo_decode [5; 2]).2)
             (demo_globals ∅) in
  exists g',
    (saveToDisk demo_hw;; loadFromDisk demo_hw 0) g = Done (tt, g') /\
    version (devicestate g') = 11 /\
    error_count (my_node (devicestate g')) = 2 /\
    files g' !! preffile = Some [11; 2].
Proof.
  intros g.
  destruct (saveToDisk_then_loadFromDisk demo_hw 0 g [11; 2])
    as (g' & Hrun & Hd & Hf & _); try reflexivity.
  exists g'. split; [exact Hrun|]. rewrite Hd. split; [reflexivity|].
  split; [reflexivity|exact Hf].
Defined.

(** *** Picking a number twice *)

Lemma in_use_upd_my_node d f r :
  in_use (upd_my_node f d) r = in_use d r.
Proof. by destruct d. Qed.

Lemma set_my_node_num_twice r g :
  upd_devicestate (upd_my_node (set_my_node_num r))
    (upd_devicestate (upd_my_node (set_my_node_num r)) g)
  = upd_devicestate (upd_my_node (set_my_node_num r)) g.
Proof. destruct g as [d ? ? ? ? ? ?]. by destruct d. Qed.

(** X12. A node number that [pickNewNodeNum] has chosen is kept by every
    later call, as long as the directory and the owner stay as they are: the
    second call of start-up changes nothing, draws no random number and
    needs no turn of the loop. *)
Theorem pickNewNodeNum_idempotent hw (fuel fuel' : nat) (g g1 : Globals) :
  random_in_range hw ->
  pickNewNodeNum hw fuel g = Done (tt, g1) ->
  pickNewNodeNum hw fuel' g1 = Done (tt, g1).
Proof.
  intros Hrand Hrun.
  assert (Hcand : candidate g <> NODENUM_BROADCAST /\
                  NUM_RESERVED <= candidate g).
  { unfold candidate.
    destruct (_ || _) eqn:E; [unfold NUM_RESERVED, NODENUM_BROADCAST; lia|].
    apply orb_false_elim in E as [E1 E2].
    apply Z.eqb_neq in E1. apply Z.ltb_ge in E2. done. }
  unfold pickNewNodeNum in Hrun.
  unfold mbind at 1, N_bind at 1, get in Hrun.
  fold (candidate g) in Hrun.
  unfold mbind, N_bind in Hrun.
  destruct (pickNewNodeNum_loop hw fuel (candidate g) g)
    as [[r1 gl]| |] eqn:Hloop; try discriminate.
  injection Hrun as <-.
  destruct (pickNewNodeNum_loop_free _ _ _ _ _ _ Hrand Hloop)
    as (Hd & Hfree & Hr1).
  assert (Hr : r1 <> NODENUM_BROADCAST /\ NUM_RESERVED <= r1).
  { destruct Hr1 as [->|[_ ?]]; [done|]. lia. }
  assert (Hc : candidate (upd_devicestate
                 (upd_my_node (set_my_node_num r1)) gl) = r1).
  { unfold candidate. simpl.
    destruct (Z.eqb_spec r1 0) as [->|_];
      [unfold NUM_RESERVED in Hr; lia|].
    destruct (Z.eqb_spec r1 NODENUM_BROADCAST); [tauto|].
    destruct (Z.ltb_spec r1 NUM_RESERVED); [lia|]. done. }
  rewrite pickNewNodeNum_free; rewrite Hc.
  - by rewrite set_my_node_num_twice.
  - simpl. by rewrite in_use_upd_my_node, Hd.
Qed.

Lemma pickNewNodeNum_idempotent_witness :
  exists g1,
    pickNewNodeNum demo_hw 1 demo_conflict = Done (tt, g1) /\
    pickNewNodeNum demo_hw 0 g1 = Done (tt, g1).
Proof.
  assert (H : exists g1, pickNewNodeNum demo_hw 1 demo_conflict
                         = Done (tt, g1))
    by (eexists; vm_compute; reflexivity).
  destruct H as [g1 H1]. exists g1. split; [exact H1|].
  exact (pickNewNodeNum_idempotent demo_hw 1 0 demo_conflict g1
           demo_random_in_range H1).
Defined.

(** *** Factory reset *)

(** X13. [resetRadioConfig] answers whether a factory reset was asked for,
    and afterwards none is asked for any more.  A reset empties the
    directory and bumps [radioGeneration] twice, since
    [installDefaultDeviceState] calls [resetRadioConfig] again; without one
    the records, the owner and the node information stay, the default
    channels are installed only if there is no channel, and the preferences
    change only in development mode.  The files are never touched, and one
    unit of fuel is enough. *)
Theorem resetRadioConfig_once (hw : Platform) (fuel : nat) (g : Globals) :
  let d := devicestate g in
  let asked := factory_reset (preferences (radio d)) in
  exists g',
    resetRadioConfig hw (S fuel) g = Done (asked, g') /\
    let d' := devicestate g' in
    factory_reset (preferences (radio d')) = false /\
    files g' = files g /\
    (asked = true ->
       node_db_count d' = 0%nat /\ no_save d' = false /\
       radioGeneration g' = u32 (u32 (radioGeneration g + 1) + 1)) /\
    (asked = false ->
       own g' = own g /\ my_node d' = my_node d /\
       no_save d' = no_save d /\
       radioGeneration g' = u32 (radioGeneration g + 1) /\
       channels d' =
         (if channels_count d =? 0 then default_channels hw
          else channels d) /\
       preferences (radio d') =
         (if no_save d then development_preferences (preferences (radio d))
          else preferences (radio d))).
Proof.
  simpl. unfold resetRadioConfig.
  pose proof (installDefaultDeviceState_total hw fuel) as Hinst.
  set (install := installDefaultDeviceState hw (S fuel)) in *.
  clearbody install.
  unfold resetRadioConfig_body.
  unfold mbind, mret, N_bind, N_ret, get, modify, eff, upd. simpl.
  destruct (factory_reset (preferences (radio (devicestate g)))) eqn:Hfr.
  - destruct (Hinst (set_radioGeneration (u32 (radioGeneration g + 1)) g))
      as (g1 & -> & Hg & Hf & _ & Hc & Hn & Hr).
    simpl. rewrite Hn. eexists. split; [reflexivity|]. simpl.
    split; [done|]. split; [done|]. split; [|done]. intros _.
    by rewrite Hg.
  - destruct (channels_count (devicestate g) =? 0); simpl;
      destruct (no_save (devicestate g)) eqn:Hn; simpl;
      (eexists; split; [reflexivity|]); simpl; rewrite ?Hfr, ?Hn;
      (split; [done|]); (split; [done|]); (split; [done|]); intros _;
      unfold own; simpl; done.
Qed.

(** *** The own record after start-up *)

Lemma loadFromDisk_after_install hw fuel g g1 g2 :
  (forall bytes, sized hw (pb_decode hw bytes).2) ->
  installDefaultDeviceState hw fuel g = Done (tt, g1) ->
  loadFromDisk hw fuel g1 = Done (tt, g2) ->
  sized hw (devicestate g2) /\
  factory_reset (preferences (radio (devicestate g2))) = reset_requested hw g.
Proof.
  intros Hdec Hinst Hload.
  destruct (installDefaultDeviceState_files hw fuel g tt g1 I Hinst)
    as [_ Hfiles].
  destruct (installDefaultDeviceState_fresh _ _ _ _ Hinst)
    as (Hs1 & _ & _ & Hf1).
  unfold reset_requested. rewrite <- Hfiles.
  destruct (files g1 !! preffile) as [bytes|] eqn:Hf.
  - rewrite (loadFromDisk_present hw fuel g1 bytes Hf) in Hload.
    specialize (Hdec bytes). destruct (pb_decode hw bytes) as [ok d].
    simpl in *.
    destruct ok; simpl in Hload;
      [destruct (version d <? DEVICESTATE_MIN_VER); simpl in *|].
    + apply bind_Done in Hload as ([] & g3 & Hi & [= <-]).
      by apply installDefaultDeviceState_fresh in Hi as (? & _ & _ & ?).
    + by injection Hload as <-.
    + apply bind_Done in Hload as ([] & g3 & Hi & [= <-]).
      by apply installDefaultDeviceState_fresh in Hi as (? & _ & _ & ?).
  - rewrite loadFromDisk_absent in Hload by done. by injection Hload as <-.
Qed.

Lemma pickNewNodeNum_devicestate hw fuel g g' :
  pickNewNodeNum hw fuel g = Done (tt, g') ->
  exists r, devicestate g' = upd_my_node (set_my_node_num r) (devicestate g).
Proof.
  unfold pickNewNodeNum. intros Hrun.
  apply bind_Done in Hrun as (g0 & ? & [= <- <-] & Hrun).
  apply bind_Done in Hrun as (r & g1 & Hloop & [= <-]).
  exists r. simpl.
  by destruct (pickNewNodeNum_loop_preserving (fun _ => True) devicestate
                 hw fuel (fun g k _ => conj I eq_refl) _ _ _ _ I Hloop)
    as [_ ->].
Qed.

Lemma getOrCreateNode_found hw n g i g' :
  sized hw (devicestate g) ->
  getOrCreateNode hw n g = Done (i, g') ->
  let d := devicestate g in
  let d' := devicestate g' in
  getNode d' n = Some i /\ (i < length (node_db d'))%nat /\ sized hw d' /\
  owner d' = owner d /\ my_node d' = my_node d /\ radio d' = radio d.
Proof.
  intros [Hlen Hcount] Hrun. simpl.
  rewrite getOrCreateNode_run in Hrun.
  destruct (getNode (devicestate g) n) as [j|] eqn:Hg.
  - injection Hrun as <- <-.
    apply getNode_Some in Hg as Hj. by destruct Hj as (? & _ & _).
  - simpl in Hrun. case_bool_decide as Hlt; [|discriminate].
    injection Hrun as <- <-. simpl.
    set (d := devicestate g) in *.
    assert (Hnums : nums (set_nodes
                      (<[node_db_count d:=NodeInfo_new n]> (node_db d))
                      (S (node_db_count d)) d) = nums d ++ [n])
      by (apply nums_create; lia).
    assert (Hlenn : length (nums d) = node_db_count d)
      by (apply nums_length; lia).
    rewrite length_insert. unfold sized. simpl. rewrite length_insert.
    repeat split; try done; try lia.
    rewrite getNode_nums, Hnums.
    rewrite list_find_app_r
      by (rewrite getNode_nums in Hg; by destruct (list_find _ (nums d))).
    simpl. rewrite decide_True by done. simpl. by rewrite Hlenn.
Qed.

Ltac side_own :=
  unfold no_reset, own; intros ? ?; simpl; split; [assumption|reflexivity].

Lemma legacy_region_own hw :
  preserving no_reset own (modify (upd_devicestate (legacy_region hw))).
Proof.
  apply preserving_modify. intros g Hp. unfold no_reset, own in *. simpl.
  unfold legacy_region.
  destruct (_ && _); [|done]. by destruct (List.find _ _).
Qed.

Lemma resetRadioConfig_body_own hw install :
  preserving no_reset own (resetRadioConfig_body hw install).
Proof.
  intros g a g' Hp Hrun. unfold resetRadioConfig_body in Hrun.
  unfold mbind, mret, N_bind, N_ret, get, modify, eff, upd in Hrun.
  simpl in Hrun. unfold no_reset in Hp. rewrite Hp in Hrun.
  unfold no_reset, own.
  destruct (channels_count (devicestate g) =? 0); simpl in Hrun;
    destruct (no_save (devicestate g)); simpl in Hrun;
    injection Hrun as <- <-; simpl; by rewrite ?Hp.
Qed.

#[local] Hint Resolve legacy_region_own resetRadioConfig_body_own : pres.

Lemma resetRadioConfig_body_reset hw install g b g' :
  factory_reset (preferences (radio (devicestate g))) = true ->
  resetRadioConfig_body hw install g = Done (b, g') ->
  exists g0 g1,
    install g0 = Done (tt, g1) /\
    (no_save (devicestate g1) = false -> devicestate g' = devicestate g1).
Proof.
  intros Hfr Hrun. unfold resetRadioConfig_body in Hrun.
  unfold mbind, mret, N_bind, N_ret, get, modify, eff, upd in Hrun.
  simpl in Hrun. rewrite Hfr in Hrun.
  destruct (install _) as [[[] g1]| |] eqn:Hi; try discriminate.
  exists (set_radioGeneration (u32 (radioGeneration g + 1)) g), g1.
  split; [done|]. intros Hn. simpl in Hrun. rewrite Hn in Hrun.
  by injection Hrun as _ <-.
Qed.

(** X14. When start-up completes, the directory holds a record under the
    own node number whose user is the owner, unless the state it loaded and
    accepted asks for a factory reset: then the last step of [init] wipes
    the directory again, and the own number is not found.  The serializer
    is assumed to fill the array within its slots. *)
Theorem init_own_record (hw : Platform) (fuel : nat) (g g' : Globals) :
  (forall bytes, sized hw (pb_decode hw bytes).2) ->
  init hw fuel g = Done (tt, g') ->
  let d' := devicestate g' in
  let n := my_node_num (my_node d') in
  if reset_requested hw g
  then node_db_count d' = 0%nat /\ getNode d' n = None
  else exists i,
         getNode d' n = Some i /\ has_user (node_at d' i) = true /\
         user (node_at d' i) = owner d'.
Proof.
  intros Hdec Hrun. unfold init in Hrun.
  apply bind_Done in Hrun as ([] & g1 & Hinst & Hrun).
  apply bind_Done in Hrun as ([] & g2 & Hload & Hrun).
  destruct (loadFromDisk_after_install hw fuel g g1 g2 Hdec Hinst Hload)
    as [Hs2 Hf2].
  apply bind_Done in Hrun as ([] & g3 & [= <-] & Hrun).
  apply bind_Done in Hrun as ([] & g4 & [= <-] & Hrun).
  apply bind_Done in Hrun as ([] & g5 & [= <-] & Hrun).
  apply bind_Done in Hrun as ([] & g6 & Hpick & Hrun).
  apply pickNewNodeNum_devicestate in Hpick as [r Hd6]. simpl in Hd6.
  apply bind_Done in Hrun as (? & ? & [= <- <-] & Hrun).
  apply bind_Done in Hrun as (i & g7 & Hget & Hrun).
  assert (Hs6 : sized hw (devicestate g6)) by (by rewrite Hd6).
  destruct (getOrCreateNode_found hw _ g6 i g7 Hs6 Hget)
    as (Hfind & Hi & Hs7 & Ho7 & Hm7 & Hr7).
  apply bind_Done in Hrun as ([] & g8 & [= <-] & Hrun).
  set (d8 := upd_node i (set_user (owner (devicestate g7))) (devicestate g7))
    in *.
  assert (Hfind8 : getNode d8 (my_node_num (my_node d8)) = Some i).
  { unfold d8. rewrite getNode_upd_node by done. simpl. by rewrite Hm7. }
  assert (Hu8 : has_user (node_at d8 i) = true /\
                user (node_at d8 i) = owner d8).
  { unfold d8. rewrite node_at_upd_node by done.
    by rewrite decide_True by done. }
  assert (Hf8 : factory_reset (preferences (radio d8))
                = reset_requested hw g).
  { unfold d8. simpl. by rewrite Hr7, Hd6. }
  simpl. destruct (reset_requested hw g).
  - apply bind_Done in Hrun as ([] & g9 & H9 & Hrun).
    apply bind_Done in Hrun as ([] & g10 & [= <-] & Hrun).
    apply bind_Done in Hrun as ([] & g11 & [= <-] & Hrun).
    apply bind_Done in Hrun as (b & g12 & Hreset & [= <-]).
    apply resetRadioConfig_body_reset in Hreset as (g0 & gi & Hi0 & Hd').
    + apply installDefaultDeviceState_fresh in Hi0 as (_ & Hc & Hn & _).
      rewrite (Hd' Hn). split; [done|]. unfold getNode. by rewrite Hc.
    + simpl.
      assert (H9' : factory_reset (preferences (radio (devicestate g9)))
                    = true).
      { destruct (negb _); injection H9 as <-; done. }
      unfold legacy_region.
      destruct (_ && _); [|done]. by destruct (List.find _ _).
  - match type of Hrun with ?m _ = _ =>
      assert (K : preserving no_reset own m)
    end.
    { unfold resetRadioConfig, upd. pres side_own. }
    destruct (K (upd_devicestate
                   (fun d => upd_node i (set_user (owner d)) d) g7)
                tt g' Hf8 Hrun) as [_ E].
    unfold own in E. simpl in E.
    injection E as E1 E2 E3 E4.
    exists i. unfold getNode, node_at in *. rewrite E1, E2, E3, E4.
    by destruct Hu8.
Qed.

Lemma demo_decode_sized bytes : sized demo_hw (pb_decode demo_hw bytes).2.
Proof.
  simpl. unfold demo_decode, sized.
  destruct bytes as [|v [|c [|? ?]]]; simpl; split; lia.
Qed.

Lemma init_own_record_witness :
  let g := demo_globals {[ preffile := [11; 5] ]} in
  reset_requested demo_hw g = false /\
  exists g',
    init demo_hw 2 g = Done (tt, g') /\
    exists i,
      getNode (devicestate g') (my_node_num (my_node (devicestate g')))
        = Some i /\
      has_user (node_at (devicestate g') i) = true /\
      user (node_at (devicestate g') i) = owner (devicestate g').
Proof.
  intros g.
  assert (Hr : reset_requested demo_hw g = false) by reflexivity.
  split; [exact Hr|].
  assert (Hrun : exists g', init demo_hw 2 g = Done (tt, g'))
    by (eexists; vm_compute; reflexivity).
  destruct Hrun as [g' Hrun]. exists g'. split; [exact Hrun|].
  pose proof (init_own_record demo_hw 2 g g' demo_decode_sized Hrun) as H.
  simpl in H. rewrite Hr in H. exact H.
Defined.

(** *** Start-up only reads *)

Lemma loadFromDisk_files hw fuel :
  preserving (fun _ => True) files (loadFromDisk hw fuel).
Proof.
  pose proof (installDefaultDeviceState_files hw fuel) as Hinst.
  unfold loadFromDisk, FS_open_read, FS_close, eff, upd.
  pres side_files.
  match goal with |- context [pb_decode hw ?b] =>
    destruct (pb_decode hw b) as [ok d] end.
  pres side_files.
Qed.

(** X15. A start-up that completes has neither written, renamed nor removed
    a file, whatever the file held, and has put no error on the screen. *)
Theorem init_reads_only (hw : Platform) (fuel : nat) (g g' : Globals) :
  init hw fuel g = Done (tt, g') ->
  files g' = files g /\ shown_errors g' = shown_errors g.
Proof.
  intros Hrun. split.
  - assert (K : preserving (fun _ => True) files (init hw fuel)).
    { pose proof (installDefaultDeviceState_files hw fuel) as Hinst.
      pose proof (loadFromDisk_files hw fuel) as Hload.
      unfold init, resetRadioConfig, getOrCreateNode, upd.
      pres side_files. }
    by destruct (K g tt g' I Hrun).
  - assert (K : preserving (fun _ => True) shown_errors (init hw fuel)).
    { pose proof (loadFromDisk_shown hw fuel) as Hload.
      unfold init, resetRadioConfig, resetRadioConfig_body, pickNewNodeNum,
        getOrCreateNode, eff, upd.
      pres side_shown. }
    by destruct (K g tt g' I Hrun).
Qed.

Lemma init_reads_only_witness :
  let g := demo_globals {[ preffile := [10] ]} in
  exists g',
    init demo_hw 2 g = Done (tt, g') /\
    files g' !! preffile = Some [10] /\ shown_errors g' = [].
Proof.
  intros g.
  assert (Hrun : exists g', init demo_hw 2 g = Done (tt, g'))
    by (eexists; vm_compute; reflexivity).
  destruct Hrun as [g' Hrun]. exists g'. split; [exact Hrun|].
  destruct (init_reads_only demo_hw 2 g g' Hrun) as [-> ->].
  split; reflexivity.
Defined.

(** *** The directory on the concrete platform *)

Lemma demo_directory_ok : directory_ok demo_hw demo_directory.
Proof.
  unfold directory_ok. simpl. split; [done|]. split; [lia|].
  apply NoDup_singleton.
Qed.

(** A number that the directory does not know is added at the end. *)
Lemma getOrCreateNode_lookup_witness :
  let g := upd_devicestate (fun _ => demo_directory) (demo_globals ∅) in
  exists g',
    getOrCreateNode demo_hw 0x99 g = Done (1%nat, g') /\
    getNode (devicestate g') 0x99 = Some 1%nat /\
    getNode (devicestate g') 0x42 = Some 0%nat /\
    node_at (devicestate g') 1 = NodeInfo_new 0x99.
Proof.
  intros g.
  assert (Hrun : exists g', getOrCreateNode demo_hw 0x99 g = Done (1%nat, g'))
    by (eexists; vm_compute; reflexivity).
  destruct Hrun as [g' Hrun]. exists g'. split; [exact Hrun|].
  destruct (getOrCreateNode_lookup demo_hw 0x99 g g' 1
              demo_directory_ok Hrun) as (H1 & H2 & _ & H4 & _).
  split; [exact H1|]. split.
  - rewrite H2 by discriminate. reflexivity.
  - exact (proj1 (H4 eq_refl)).
Defined.

(** A position report for the peer 0x42. *)
Lemma updatePosition_frame_witness :
  let g := upd_devicestate (fun _ => demo_directory) (demo_globals ∅) in
  let p := {| latitude_i := 51; longitude_i := 61; altitude := 0;
              battery_level := 0; time := 0 |} in
  exists g',
    updatePosition demo_hw 0x42 p g = Done (tt, g') /\
    getNode (devicestate g') 0x42 = Some 0%nat /\
    node_db_count (devicestate g') = 1%nat /\
    effects g' = [EffUpdateGUIforNode 0x42; EffNotifyObservers true].
Proof.
  intros g p.
  assert (Hget : getOrCreateNode demo_hw 0x42 g = Done (0%nat, g))
    by reflexivity.
  assert (Hrun : exists g', updatePosition demo_hw 0x42 p g = Done (tt, g'))
    by (eexists; vm_compute; reflexivity).
  destruct Hrun as [g' Hrun]. exists g'. split; [exact Hrun|].
  destruct (updatePosition_frame demo_hw 0x42 p g g g' 0
              demo_directory_ok Hget Hrun)
    as (_ & _ & H3 & H4 & _ & _ & H7 & _).
  split; [exact H3|]. split; [exact H4|]. exact H7.
Defined.

(** Two position reports with other times leave the time of the peer. *)
Lemma updatePosition_keeps_time_witness :
  let g := upd_devicestate (fun _ => demo_directory) (demo_globals ∅) in
  let p t := {| latitude_i := 51; longitude_i := 61; altitude := 0;
                battery_level := 0; time := t |} in
  exists g',
    sequence (updatePosition demo_hw 0x42 <$> [p 3000; p 4000]) g
      = Done (tt, g') /\
    time (position (node_at (devicestate g') 0)) = 1000.
Proof.
  intros g p.
  assert (Hget : getNode (devicestate g) 0x42 = Some 0%nat) by reflexivity.
  assert (Ht : time (position (node_at (devicestate g) 0)) <> 0)
    by discriminate.
  destruct (updatePosition_keeps_time demo_hw 0x42 [p 3000; p 4000] g 0
              demo_directory_ok Hget Ht) as (g' & Hrun & _ & Htime & _).
  exists g'. split; [exact Hrun|]. exact Htime.
Defined.

(** A decoded packet from the peer, received at time 2000. *)
Lemma updateFrom_time_witness :
  let g := upd_devicestate (fun _ => demo_directory) (demo_globals ∅) in
  let mp := {| rx_from := 0x42; rx_decoded := true; rx_time := 2000;
              rx_snr := 9 |} in
  exists g',
    updateFrom demo_hw mp g = Done (tt, g') /\
    snr (node_at (devicestate g') 0) = 9 /\
    time (position (node_at (devicestate g') 0)) = 2000.
Proof.
  intros g mp.
  assert (Hget : getOrCreateNode demo_hw 0x42 g = Done (0%nat, g))
    by reflexivity.
  destruct (proj2 (updateFrom_time demo_hw mp g demo_directory_ok)
              eq_refl 0%nat g Hget)
    as (g' & Hrun & _ & _ & Hs & _ & _ & _ & Ht & _).
  exists g'. split; [exact Hrun|]. split; [exact Hs|].
  assert (Hne : rx_time mp <> 0) by discriminate.
  exact (proj1 (Ht Hne)).
Defined.

(** The same packet, followed by a position report with another time. *)
Lemma updateFrom_then_updatePosition_witness :
  let g := upd_devicestate (fun _ => demo_directory) (demo_globals ∅) in
  let mp := {| rx_from := 0x42; rx_decoded := true; rx_time := 2000;
              rx_snr := 9 |} in
  let p := {| latitude_i := 51; longitude_i := 61; altitude := 0;
              battery_level := 0; time := 3000 |} in
  exists g',
    (updateFrom demo_hw mp;; updatePosition demo_hw 0x42 p) g
      = Done (tt, g') /\
    time (position (node_at (devicestate g') 0)) = 2000 /\
    snr (node_at (devicestate g') 0) = 9.
Proof.
  intros g mp p.
  assert (Hget : getOrCreateNode demo_hw 0x42 g = Done (0%nat, g))
    by reflexivity.
  assert (Hne : rx_time mp <> 0) by discriminate.
  destruct (updateFrom_then_updatePosition demo_hw mp p g g 0
              demo_directory_ok eq_refl Hne Hget)
    as (g' & Hrun & _ & Ht & _ & Hs).
  exists g'. split; [exact Hrun|]. split; [exact Ht|exact Hs].
Defined.

(** The peer 0x42 announces its user record. *)
Lemma updateUser_signals_witness :
  let g := upd_devicestate (fun _ => demo_directory) (demo_globals ∅) in
  let p := {| id := "!00000042"; long_name := "Peer"; short_name := "P";
              macaddr := [1; 2; 3; 4; 5; 6] |} in
  exists g',
    updateUser demo_hw 0x42 p false g = Done (true, g') /\
    user (node_at (devicestate g') 0) = p /\
    updateUser demo_hw 0x42 p false g' = Done (false, g').
Proof.
  intros g p.
  assert (Hget : getOrCreateNode demo_hw 0x42 g = Done (0%nat, g))
    by reflexivity.
  destruct (updateUser_signals demo_hw 0x42 p false g g 0
              demo_directory_ok Hget)
    as (g' & Hrun & _ & _ & Hu & _ & _ & _ & _ & _ & _ & _ & _ & Hagain).
  exists g'. split; [exact Hrun|]. split; [exact Hu|]. exact Hagain.
Defined.

Lemma readNextInfo_enumerates_witness :
  readNextInfo_all 2 0 demo_directory = ([demo_peer], 1%nat) /\
  readNextInfo 1 demo_directory = (None, 1%nat).
Proof.
  assert (Hc : (node_db_count demo_directory
                <= length (node_db demo_directory))%nat) by (simpl; lia).
  destruct (readNextInfo_enumerates demo_directory 1 Hc) as [H1 H2].
  split; [exact H1|]. apply H2. simpl. lia.
Defined.

(** The peer was heard at 1000; the clock reads 1200. *)
Lemma sinceLastSeen_clamped_witness :
  sinceLastSeen 1200 demo_peer = 200 /\
  0 <= getNumOnlineNodes 1200 demo_directory <= 1.
Proof.
  assert (Hnow : 0 <= 1200 < 2 ^ 32) by lia.
  assert (Ht : 0 <= time (position demo_peer) < 2 ^ 32) by (simpl; lia).
  destruct (sinceLastSeen_clamped 1200 demo_peer demo_directory Hnow Ht)
    as (H1 & _ & _ & _ & _ & H5).
  split; [|exact H5]. apply H1. simpl. lia.
Defined.

End NodeDBFacts.
